(** * aiosmpplib: the SMPP v3.4 PDU codec of [protocol.py]

    A shallow embedding of [src/aiosmpplib/protocol.py] and the properties
    its specification states about it.

    Conventions of the embedding.
    - Python [str] is [string]; Python [bytes] is [list byte].
    - Python [int] is [Z]; positions in a string or a byte sequence are [nat].
    - A Python function that may raise returns [result]; the exception is an
      [error] value.
    - A method that assigns to [self] returns the updated object.
    - The modules [state.py], [codec.py] and [utils.py] are imported by
      [protocol.py] but are not part of the sources at hand; what
      [protocol.py] takes from them is gathered in the record [Externals]
      and every definition that depends on them takes it as an argument. *)

From Stdlib Require Import ZArith NArith List String Ascii Strings.Byte Bool Lia.
Import ListNotations.

Local Open Scope string_scope.
Local Open Scope list_scope.
Local Open Scope Z_scope.


(* ================================================================== *)
(** ** Exceptions and the error monad *)

(** The exceptions [protocol.py] can raise, by the name the specification
    gives them where it has one, by their Python class otherwise. *)
Inductive error : Type :=
| InvalidArgument (msg : string)   (* ValueError of a constructor *)
| ShortMessageTooLong (sm_length : nat)
                                   (* ValueError 'Message is too long' *)
| ValidityOutOfRange               (* ValueError 'Maximum message validity' *)
| EncodingFailure                  (* UnicodeEncodeError *)
| DecodingFailure                  (* UnicodeDecodeError *)
| MissingTerminator                (* ValueError of bytes.index *)
| StructError                      (* struct.error of pack / unpack_from *)
| UnknownEnumValue                 (* ValueError of Enum(value) *)
| KeyError                         (* KeyError of a dict or Enum[name] *)
| LookupError                      (* LookupError of the codec registry *)
| OverflowError                    (* OverflowError of timedelta *)
| TypeError                        (* a value of the wrong dynamic type *)
| ValueError.                      (* any other ValueError: int(), datetime() *)

Inductive result (A : Type) : Type :=
| Ok (a : A)
| Err (e : error).
Arguments Ok {A} a.
Arguments Err {A} e.

Definition bind {A B : Type} (r : result A) (k : A -> result B) : result B :=
  match r with
  | Ok a => k a
  | Err e => Err e
  end.

Declare Scope py_scope.
Delimit Scope py_scope with py.
Notation "x <- c1 ;; c2" := (bind c1 (fun x => c2))
  (at level 61, c1 at next level, right associativity) : py_scope.
Notation "' pat <- c1 ;; c2" := (bind c1 (fun x => match x with pat => c2 end))
  (at level 61, pat pattern, c1 at next level, right associativity) : py_scope.
Local Open Scope py_scope.

Definition is_ok {A : Type} (r : result A) : bool :=
  match r with Ok _ => true | Err _ => false end.

Definition of_option {A : Type} (e : error) (o : option A) : result A :=
  match o with Some a => Ok a | None => Err e end.

(* ================================================================== *)
(** ** Python strings and integers *)

Definition bytes : Type := list byte.

(** [not s] for a string. *)
Definition str_empty (s : string) : bool :=
  match s with EmptyString => true | String _ _ => false end.

(** [s[i:j]] for [0 <= i] and [0 <= j]. *)
Definition str_slice (s : string) (i j : nat) : string :=
  substring i (j - i) s.

(** [s.endswith(c)] for a one-character [c]. *)
Fixpoint str_endswith (s : string) (c : ascii) : bool :=
  match s with
  | EmptyString => false
  | String a EmptyString => Ascii.eqb a c
  | String _ s' => str_endswith s' c
  end.

(** [s.find(c, start)]: the lowest position [>= start] holding [c]. *)
Fixpoint str_find_from (s : string) (c : ascii) (start pos : nat) : option nat :=
  match s with
  | EmptyString => None
  | String a s' =>
      if (start <=? pos)%nat && Ascii.eqb a c then Some pos
      else str_find_from s' c start (S pos)
  end.

Definition str_find (s : string) (c : ascii) (start : nat) : option nat :=
  str_find_from s c start 0.

Definition digit_char (d : Z) : ascii := ascii_of_N (Z.to_N (48 + d)).

Definition is_digit (c : ascii) : bool :=
  let n := Z.of_N (N_of_ascii c) in (48 <=? n) && (n <=? 57).

Definition digit_value (c : ascii) : Z := Z.of_N (N_of_ascii c) - 48.

(** Decimal digits of a non-negative integer, most significant first. *)
Fixpoint decimal_of_pos (fuel : nat) (n : Z) (acc : string) : string :=
  match fuel with
  | O => acc
  | S fuel' =>
      let acc' := String (digit_char (n mod 10)) acc in
      if n <? 10 then acc' else decimal_of_pos fuel' (n / 10) acc'
  end.

Definition decimal (n : Z) : string :=
  decimal_of_pos (S (Z.to_nat (Z.log2 n))) n "".

(** [str(n)] for an int. *)
Definition py_str (n : Z) : string :=
  if n <? 0 then ("-" ++ decimal (- n))%string else decimal n.

Fixpoint zeros (k : nat) : string :=
  match k with O => "" | S k' => String "0" (zeros k') end.

(** ['{:0Wd}'.format(n)]: the sign first, then zeros up to width [W]. *)
Definition py_format_0d (width : nat) (n : Z) : string :=
  if n <? 0
  then let d := decimal (- n) in
       ("-" ++ zeros (width - 1 - String.length d) ++ d)%string
  else let d := decimal n in
       (zeros (width - String.length d) ++ d)%string.

(** The characters [str.isspace] accepts below code point 256. *)
Definition is_space (c : ascii) : bool :=
  let n := N_of_ascii c in
  ((9 <=? n) && (n <=? 13) || (28 <=? n) && (n <=? 32)
   || (n =? 133) || (n =? 160))%N.

Fixpoint lstrip (s : string) : string :=
  match s with
  | String c s' => if is_space c then lstrip s' else s
  | EmptyString => s
  end.

Fixpoint rstrip (s : string) : string :=
  match s with
  | EmptyString => EmptyString
  | String c s' =>
      match rstrip s' with
      | EmptyString => if is_space c then EmptyString else String c EmptyString
      | r => String c r
      end
  end.

(** Digits of an [int()] literal after the sign: decimal digits, single
    underscores allowed between two digits. [prev] tells whether the
    character before was a digit. *)
Fixpoint int_digits (s : string) (acc : Z) (prev : bool) : option Z :=
  match s with
  | EmptyString => if prev then Some acc else None
  | String c s' =>
      if is_digit c then int_digits s' (10 * acc + digit_value c) true
      else if Ascii.eqb c "_" && prev then
             match s' with
             | String c' _ => if is_digit c' then int_digits s' acc false else None
             | EmptyString => None
             end
           else None
  end.

(** [int(s)] for a string in base 10. *)
Definition py_int (s : string) : result Z :=
  match rstrip (lstrip s) with
  | String "-" s' => of_option ValueError (option_map Z.opp (int_digits s' 0 false))
  | String "+" s' => of_option ValueError (int_digits s' 0 false)
  | s' => of_option ValueError (int_digits s' 0 false)
  end.

(* ================================================================== *)
(** ** [datetime.timedelta] and [datetime.datetime] *)

(** A normalised duration: [0 <= seconds < 86400] and
    [0 <= microseconds < 1000000]; [days] carries the sign. *)
Record timedelta : Type := mk_timedelta {
  days : Z;
  seconds : Z;
  microseconds : Z
}.

Definition timedelta_ok (t : timedelta) : Prop :=
  -999999999 <= days t <= 999999999 /\
  0 <= seconds t < 86400 /\
  0 <= microseconds t < 1000000.

(** [timedelta(days=d, seconds=s)]: normalises, and raises [OverflowError]
    when the number of days leaves the supported range. *)
Definition py_timedelta (d s : Z) : result timedelta :=
  let d' := d + s / 86400 in
  if (-999999999 <=? d') && (d' <=? 999999999)
  then Ok (mk_timedelta d' (s mod 86400) 0)
  else Err OverflowError.

(** [timedelta(weeks=w)]. *)
Definition timedelta_weeks (w : Z) : timedelta := mk_timedelta (7 * w) 0 0.

(** [a > b] on durations. *)
Definition timedelta_gtb (a b : timedelta) : bool :=
  (days b <? days a)
  || (days a =? days b)
     && ((seconds b <? seconds a)
         || (seconds a =? seconds b) && (microseconds b <? microseconds a)).

(** [not t] for a duration. *)
Definition timedelta_is_zero (t : timedelta) : bool :=
  (days t =? 0) && (seconds t =? 0) && (microseconds t =? 0).

(** A [tzinfo] object, by what [utcoffset] answers. The offset is taken to
    be the same for every instant, as for [FixedOffset] and
    [datetime.timezone]. *)
Record tzinfo_obj : Type := mk_tzinfo {
  utcoffset : option timedelta
}.

Record datetime : Type := mk_datetime {
  year : Z;
  month : Z;
  day : Z;
  hour : Z;
  minute : Z;
  second : Z;
  microsecond : Z;
  tzinfo : option tzinfo_obj
}.

Definition is_leap (y : Z) : bool :=
  (y mod 4 =? 0) && (negb (y mod 100 =? 0) || (y mod 400 =? 0)).

Definition days_in_month (y m : Z) : Z :=
  if m =? 2 then (if is_leap y then 29 else 28)
  else if (m =? 4) || (m =? 6) || (m =? 9) || (m =? 11) then 30
  else 31.

Definition datetime_fields_ok (y mo d h mi s us : Z) : bool :=
  (1 <=? y) && (y <=? 9999) && (1 <=? mo) && (mo <=? 12)
  && (1 <=? d) && (d <=? days_in_month y mo)
  && (0 <=? h) && (h <=? 23) && (0 <=? mi) && (mi <=? 59)
  && (0 <=? s) && (s <=? 59) && (0 <=? us) && (us <=? 999999).

(** The invariant of a [datetime] object. *)
Definition datetime_ok (x : datetime) : Prop :=
  datetime_fields_ok (year x) (month x) (day x) (hour x) (minute x)
                     (second x) (microsecond x) = true.

(** [datetime(year=..., ..., tzinfo=...)]: raises [ValueError] when a field
    is out of range. *)
Definition py_datetime (y mo d h mi s us : Z) (tz : option tzinfo_obj)
  : result datetime :=
  if datetime_fields_ok y mo d h mi s us
  then Ok (mk_datetime y mo d h mi s us tz)
  else Err ValueError.

(** [x.strftime('%y%m%d%H%M%S')]. *)
Definition strftime_ymdHMS (x : datetime) : string :=
  (py_format_0d 2 (year x mod 100) ++ py_format_0d 2 (month x)
   ++ py_format_0d 2 (day x) ++ py_format_0d 2 (hour x)
   ++ py_format_0d 2 (minute x) ++ py_format_0d 2 (second x))%string.

(** [x.strftime('%y%m%d%H%M')]. *)
Definition strftime_ymdHM (x : datetime) : string :=
  (py_format_0d 2 (year x mod 100) ++ py_format_0d 2 (month x)
   ++ py_format_0d 2 (day x) ++ py_format_0d 2 (hour x)
   ++ py_format_0d 2 (minute x))%string.

(** [Optional[Union[datetime, timedelta]]] without the [None]. *)
Inductive time_object : Type :=
| Absolute (x : datetime)
| Relative (t : timedelta).

(* ================================================================== *)
(** ** What [protocol.py] imports from [state.py], [codec.py], [utils.py] *)

(** [PhoneNumber]: a number with its type of number and numbering plan.
    [TON] and [NPI] members are held by their integer value. *)
Record PhoneNumber : Type := mk_PhoneNumber {
  number : string;
  ton : Z;
  npi : Z
}.

(** The Python type a tag declares for its value ([tag.data_type]). *)
Inductive data_type : Type := DInt | DBool | DStr.

Inductive param_value : Type :=
| VInt (n : Z)
| VBool (b : bool)
| VStr (s : string).

(** [OptionalParam]: a tag, held by its integer value, and a value. *)
Record OptionalParam : Type := mk_OptionalParam {
  tag : Z;
  value : param_value
}.

(** [PduHeader]. [smpp_command] and [command_status] are enumeration
    members held by their integer value. *)
Module PduHeader.
Record t : Type := mk {
  pdu_length : Z;
  smpp_command : Z;
  command_status : Z;
  sequence_num : Z
}.
End PduHeader.

(** [codecs.CodecInfo], by its two functions: [encode(text, errors)[0]]
    and [decode(data)[0]]. *)
Record CodecInfo : Type := mk_CodecInfo {
  encode : string -> string -> result bytes;
  decode : bytes -> result string
}.

(** [Dict[str, CodecInfo]]. *)
Definition codec_dict : Type := list (string * CodecInfo).

(** The declarations of the three modules that [protocol.py] uses.
    Enumerations are given by their membership test on integer values. *)
Record Externals : Type := mk_Externals {
  (* state.py: SmppCommand(value) succeeds *)
  is_SmppCommand : Z -> bool;
  (* state.py: SmppCommandStatus(value) succeeds *)
  is_SmppCommandStatus : Z -> bool;
  (* state.py: TON(value), NPI(value) succeed *)
  is_TON : Z -> bool;
  is_NPI : Z -> bool;
  (* state.py: OptionalTag(value).data_type, None when not a member *)
  OptionalTag_data_type : Z -> option data_type;
  (* state.py: OptionalParam.tlv *)
  OptionalParam_tlv : OptionalParam -> result bytes;
  (* state.py: SmppDataCoding[name].value, None when not a member *)
  SmppDataCoding_value : string -> option Z;
  (* state.py: SmppDataCoding(value).name, None when not a member *)
  SmppDataCoding_name : Z -> option string;
  (* codec.py: find_codec_info(encoding, custom_codecs) *)
  find_codec_info : string -> option codec_dict -> result CodecInfo;
  (* utils.py: FixedOffset.from_timezone(offset_str) *)
  FixedOffset_from_timezone : string -> result tzinfo_obj
}.

(** Modelled from the spec: the values of the [OptionalTag] members that
    [protocol.py] names ([state.py] is missing). [MESSAGE_PAYLOAD] is
    0x0424 and [SC_INTERFACE_VERSION] is 0x0210 in the specification's
    scenarios; [RECEIPTED_MESSAGE_ID] is 0x001E in SMPP v3.4. *)
Definition MESSAGE_PAYLOAD : Z := 0x0424.
Definition SC_INTERFACE_VERSION : Z := 0x0210.
Definition RECEIPTED_MESSAGE_ID : Z := 0x001E.

(** Modelled from the spec: the values of the [SmppCommand] members of the
    dispatch table, as SMPP v3.4 assigns them ([state.py] is missing). *)
Definition GENERIC_NACK : Z := 0x80000000.
Definition SUBMIT_SM : Z := 0x00000004.
Definition SUBMIT_SM_RESP : Z := 0x80000004.
Definition DELIVER_SM : Z := 0x00000005.
Definition DELIVER_SM_RESP : Z := 0x80000005.
Definition UNBIND : Z := 0x00000006.
Definition UNBIND_RESP : Z := 0x80000006.
Definition BIND_TRANSCEIVER : Z := 0x00000009.
Definition BIND_TRANSCEIVER_RESP : Z := 0x80000009.
Definition ENQUIRE_LINK : Z := 0x00000015.
Definition ENQUIRE_LINK_RESP : Z := 0x80000015.

(** Modelled from the spec: [ESME_ROK = 0] denotes success; the default
    status of a [GenericNack] is [ESME_RUNKNOWNERR], 0xFF in SMPP v3.4. *)
Definition ESME_ROK : Z := 0.
Definition ESME_RUNKNOWNERR : Z := 0x000000FF.

Definition NULL : bytes := [x00].
Definition PDU_HEADER_LENGTH : nat := 16.
Definition SMPP_VERSION_3_4 : Z := 0x34.


(* ================================================================== *)
(** ** [bytes], [struct.pack] and [struct.unpack_from] *)

Definition byte_of_Z (n : Z) : byte :=
  match Byte.of_N (Z.to_N n) with Some b => b | None => x00 end.

Definition Z_of_byte (b : byte) : Z := Z.of_N (Byte.to_N b).

(** [pack('!B', n)], [pack('!H', n)] and [pack('!I', n)]: big-endian,
    [struct.error] when [n] does not fit. *)
Definition pack_B (n : Z) : result bytes :=
  if (0 <=? n) && (n <=? 255) then Ok [byte_of_Z n] else Err StructError.

Definition pack_H (n : Z) : result bytes :=
  if (0 <=? n) && (n <=? 65535)
  then Ok [byte_of_Z (n / 256); byte_of_Z (n mod 256)]
  else Err StructError.

Definition pack_I (n : Z) : result bytes :=
  if (0 <=? n) && (n <=? 4294967295)
  then Ok [byte_of_Z (n / 16777216); byte_of_Z ((n / 65536) mod 256);
           byte_of_Z ((n / 256) mod 256); byte_of_Z (n mod 256)]
  else Err StructError.

Definition pack_BB (a b : Z) : result bytes :=
  x <- pack_B a ;; y <- pack_B b ;; Ok (x ++ y).

Definition pack_BBB (a b c : Z) : result bytes :=
  x <- pack_B a ;; y <- pack_B b ;; z <- pack_B c ;; Ok (x ++ y ++ z).

Definition pack_HH (a b : Z) : result bytes :=
  x <- pack_H a ;; y <- pack_H b ;; Ok (x ++ y).

(** [unpack_from('!B', pdu, index)[0]] and its wider forms: [struct.error]
    when the buffer ends before the value does. *)
Definition unpack_B (pdu : bytes) (index : nat) : result Z :=
  match nth_error pdu index with
  | Some b => Ok (Z_of_byte b)
  | None => Err StructError
  end.

Definition unpack_H (pdu : bytes) (index : nat) : result Z :=
  match nth_error pdu index, nth_error pdu (index + 1) with
  | Some a, Some b => Ok (256 * Z_of_byte a + Z_of_byte b)
  | _, _ => Err StructError
  end.

Definition unpack_I (pdu : bytes) (index : nat) : result Z :=
  match nth_error pdu index, nth_error pdu (index + 1),
        nth_error pdu (index + 2), nth_error pdu (index + 3) with
  | Some a, Some b, Some c, Some d =>
      Ok (16777216 * Z_of_byte a + 65536 * Z_of_byte b
          + 256 * Z_of_byte c + Z_of_byte d)
  | _, _, _, _ => Err StructError
  end.

(** [pdu[i:j]] for [0 <= i] and [0 <= j]. *)
Definition slice (pdu : bytes) (i j : nat) : bytes :=
  firstn (j - i) (skipn i pdu).

Fixpoint bytes_find (l : bytes) (b : byte) (pos : nat) : option nat :=
  match l with
  | [] => None
  | a :: l' => if Byte.eqb a b then Some pos else bytes_find l' b (S pos)
  end.

(** [pdu.index(NULL, start)]. *)
Definition bytes_index (pdu : bytes) (b : byte) (start : nat) : result nat :=
  of_option MissingTerminator (bytes_find (skipn start pdu) b start).

(** [s.encode('ascii')]. *)
Fixpoint encode_ascii (s : string) : result bytes :=
  match s with
  | EmptyString => Ok []
  | String c s' =>
      if (N_of_ascii c <? 128)%N
      then r <- encode_ascii s' ;; Ok (byte_of_ascii c :: r)
      else Err EncodingFailure
  end.

(** [data.decode('ascii')]. *)
Fixpoint decode_ascii (data : bytes) : result string :=
  match data with
  | [] => Ok EmptyString
  | b :: data' =>
      if (Byte.to_N b <? 128)%N
      then r <- decode_ascii data' ;; Ok (String (ascii_of_byte b) r)
      else Err DecodingFailure
  end.

(** [s[:-1]]. *)
Fixpoint str_drop_last (s : string) : string :=
  match s with
  | EmptyString => EmptyString
  | String _ EmptyString => EmptyString
  | String c s' => String c (str_drop_last s')
  end.

(** [b''.join(parts)] over parts that may each raise. *)
Fixpoint join_results (parts : list (result bytes)) : result bytes :=
  match parts with
  | [] => Ok []
  | p :: parts' => x <- p ;; r <- join_results parts' ;; Ok (x ++ r)
  end.

(* ================================================================== *)
(** ** [SmppMessage]: the header codec shared by every message *)

Module SmppMessage.

(** [self.pack_header(pdu_len)], with the three attributes it reads. *)
Definition pack_header (smpp_command command_status sequence_num : Z)
                       (pdu_len : Z) : result bytes :=
  a <- pack_I pdu_len ;;
  b <- pack_I smpp_command ;;
  c <- pack_I command_status ;;
  d <- pack_I sequence_num ;;
  Ok (a ++ b ++ c ++ d).

Definition parse_header (ext : Externals) (header_data : bytes)
  : result PduHeader.t :=
  (* First 16 bytes always contain: *)
  (* PDU length, command ID, status, and sequence number, 4 bytes each *)
  pdu_length <- unpack_I header_data 0 ;;
  command_id <- unpack_I header_data 4 ;;
  command_status_id <- unpack_I header_data 8 ;;
  sequence_num <- unpack_I header_data 12 ;;
  if negb (is_SmppCommand ext command_id) then Err UnknownEnumValue
  else if negb (is_SmppCommandStatus ext command_status_id)
  then Err UnknownEnumValue
  else Ok (PduHeader.mk pdu_length command_id command_status_id sequence_num).

(** The default [pdu]: many messages have an empty body. *)
Definition pdu (smpp_command command_status sequence_num : Z)
  : result bytes :=
  pack_header smpp_command command_status sequence_num
              (Z.of_nat PDU_HEADER_LENGTH).

End SmppMessage.

(* ================================================================== *)
(** ** [Sm]: the structure shared by [SubmitSm] and [DeliverSm] *)

Module Sm.

Record t : Type := mk {
  command_status : Z;
  sequence_num : Z;
  short_message : string;
  source : PhoneNumber;
  destination : PhoneNumber;
  service_type : string;
  esm_class : Z;
  protocol_id : Z;
  priority_flag : Z;
  schedule_delivery_time : option time_object;
  validity_period : option time_object;
  registered_delivery : Z;
  replace_if_present_flag : Z;
  encoding : option string;
  sm_default_msg_id : Z;
  message_payload : string;
  optional_params : list OptionalParam;
  auto_message_payload : bool;
  error_handling : string;
  log_id : string;
  extra_data : string;
  _default_encoding : string;
  _custom_codecs : option codec_dict
}.

(** The type of a class whose constructor takes the twenty parameters of
    [Sm.__init__] in order; [from_pdu] receives its class as [cls]. *)
Definition constructor (T : Type) : Type :=
  string -> PhoneNumber -> PhoneNumber -> string -> Z -> Z -> Z ->
  option time_object -> option time_object -> Z -> Z -> option string ->
  Z -> string -> list OptionalParam -> bool -> string -> Z -> string ->
  string -> result T.

(** The loop of [__init__] over [optional_params]. Every element is an
    [OptionalParam] by typing, so only the tag test can raise. *)
Fixpoint check_optional_params (optional_params : list OptionalParam)
  : result unit :=
  match optional_params with
  | [] => Ok tt
  | opt_param :: rest =>
      if tag opt_param =? MESSAGE_PAYLOAD
      then Err (InvalidArgument
                  "`OptionalTag.MESSAGE_PAYLOAD` cannot be included in `optional_params`. Use `message_payload` parameter instead.")
      else check_optional_params rest
  end.

(** [Sm.__init__]. The calls of [check_param] test the Python type of
    each argument and hold by typing here. *)
Definition __init__ : constructor t :=
  fun short_message source destination service_type esm_class protocol_id
      priority_flag schedule_delivery_time validity_period
      registered_delivery replace_if_present_flag encoding
      sm_default_msg_id message_payload optional_params
      auto_message_payload error_handling sequence_num log_id extra_data =>
  _ <- check_optional_params optional_params ;;
  if str_empty short_message && str_empty message_payload
  then Err (InvalidArgument
              "Either short_message or message_payload must be specified")
  else if negb (str_empty short_message) && negb (str_empty message_payload)
  then Err (InvalidArgument
              "Specifying both short_message and message_payload is not allowed")
  else
    Ok (mk ESME_ROK sequence_num short_message source destination
           service_type esm_class protocol_id priority_flag
           schedule_delivery_time validity_period registered_delivery
           replace_if_present_flag encoding sm_default_msg_id
           message_payload optional_params auto_message_payload
           error_handling log_id extra_data
           (* default_encoding and custom_codecs need to be set by
              ESME/SMSC before sending *)
           "" None).

Definition datetime_to_smpp_time (time_object : option time_object)
  : result string :=
  match time_object with
  | None => Ok ""
  | Some (Absolute x) =>
      (* datetime is converted to absolute validity *)
      let tenth_second := py_str (microsecond x / 100000) in
      let offset :=
        match tzinfo x with
        | Some tz => utcoffset tz
        | None => None
        end in
      let '(offset_str, prefix) :=
        match offset with
        | None => ("00", "+")
        | Some o =>
            if timedelta_is_zero o then ("00", "+")
            else
              (* Unit is quarter-hour (15 minutes) *)
              (py_format_0d 2 (seconds o / (60 * 15)),
               if days o <? 0 then "-" else "+")
        end in
      Ok (strftime_ymdHMS x ++ tenth_second ++ offset_str ++ prefix)%string
  | Some (Relative t) =>
      (* timedelta is converted to relative validity *)
      if timedelta_gtb t (timedelta_weeks 63) then Err ValidityOutOfRange
      else
        let total_days := days t in
        let years := py_format_0d 2 (total_days / 365) in
        let total_days := total_days mod 365 in
        let months := py_format_0d 2 (total_days / 30) in
        let days := py_format_0d 2 (total_days mod 30) in
        let total_seconds := seconds t in
        let hours := py_format_0d 2 (total_seconds / 3600) in
        let total_seconds := total_seconds mod 3600 in
        let minutes := py_format_0d 2 (total_seconds / 60) in
        let seconds := py_format_0d 2 (total_seconds mod 60) in
        Ok (years ++ months ++ days ++ hours ++ minutes ++ seconds
            ++ "000R")%string
  end.

Definition smpp_time_to_datetime (ext : Externals) (validity : string)
  : result (option time_object) :=
  if str_empty validity then Ok None
  else
    year <- py_int (str_slice validity 0 2) ;;
    month <- py_int (str_slice validity 2 4) ;;
    day <- py_int (str_slice validity 4 6) ;;
    hour <- py_int (str_slice validity 6 8) ;;
    minute <- py_int (str_slice validity 8 10) ;;
    second <- py_int (str_slice validity 10 12) ;;
    if str_endswith validity "R" then
      (* Relative validity, convert to timedelta *)
      (* For simplicity, year = 365 days, month = 30 days *)
      let total_days := year * 365 + month * 30 + day in
      let total_seconds := hour * 3600 + minute * 60 + second in
      t <- py_timedelta total_days total_seconds ;;
      Ok (Some (Relative t))
    else
      (* Absolute validity, convert to datetime *)
      tenth_second <- py_int (str_slice validity 12 13) ;;
      let offset_str :=
        (str_slice validity 15 16 ++ str_slice validity 13 15)%string in
      offset <- FixedOffset_from_timezone ext offset_str ;;
      x <- py_datetime year month day hour minute second
                       (tenth_second * 1000000) (Some offset) ;;
      Ok (Some (Absolute x)).

Definition set_encoding_info (self : t) (default_encoding : string)
                             (custom_codecs : option codec_dict) : t :=
  mk (command_status self) (sequence_num self) (short_message self)
     (source self) (destination self) (service_type self) (esm_class self)
     (protocol_id self) (priority_flag self) (schedule_delivery_time self)
     (validity_period self) (registered_delivery self)
     (replace_if_present_flag self) (encoding self)
     (sm_default_msg_id self) (message_payload self) (optional_params self)
     (auto_message_payload self) (error_handling self) (log_id self)
     (extra_data self) default_encoding custom_codecs.

(** The assignment [self.encoding = e]. *)
Definition set_encoding (self : t) (e : option string) : t :=
  mk (command_status self) (sequence_num self) (short_message self)
     (source self) (destination self) (service_type self) (esm_class self)
     (protocol_id self) (priority_flag self) (schedule_delivery_time self)
     (validity_period self) (registered_delivery self)
     (replace_if_present_flag self) e
     (sm_default_msg_id self) (message_payload self) (optional_params self)
     (auto_message_payload self) (error_handling self) (log_id self)
     (extra_data self) (_default_encoding self) (_custom_codecs self).

(** [not self.encoding]: the field is [None] or the empty string. *)
Definition encoding_unset (e : option string) : bool :=
  match e with
  | None => true
  | Some s => str_empty s
  end.

(** [self.smpp_encode(text)], returning the bytes and [self] after the
    call. Only [UnicodeEncodeError] is caught. *)
Definition smpp_encode (ext : Externals) (self : t) (text : string)
  : result (bytes * t) :=
  match encoding self with
  | Some e =>
      if str_empty e then
        (* Auto; first try default encoding, fallback to UCS2 *)
        match (codec_info <- find_codec_info ext (_default_encoding self)
                                             (_custom_codecs self) ;;
               encode codec_info text (error_handling self)) with
        | Ok result => Ok (result, self)
        | Err EncodingFailure =>
            codec_info <- find_codec_info ext "ucs2" (_custom_codecs self) ;;
            result <- encode codec_info text (error_handling self) ;;
            Ok (result, set_encoding self (Some "ucs2"))
        | Err e => Err e
        end
      else
        codec_info <- find_codec_info ext e (_custom_codecs self) ;;
        result <- encode codec_info text (error_handling self) ;;
        Ok (result, self)
  | None =>
      (* Auto; first try default encoding, fallback to UCS2 *)
      match (codec_info <- find_codec_info ext (_default_encoding self)
                                           (_custom_codecs self) ;;
             encode codec_info text (error_handling self)) with
      | Ok result => Ok (result, self)
      | Err EncodingFailure =>
          codec_info <- find_codec_info ext "ucs2" (_custom_codecs self) ;;
          result <- encode codec_info text (error_handling self) ;;
          Ok (result, set_encoding self (Some "ucs2"))
      | Err e => Err e
      end
  end.

(** [SmppDataCoding[self.encoding].value if self.encoding else 0]. *)
Definition data_coding_of (ext : Externals) (e : option string) : result Z :=
  match e with
  | None => Ok 0 (* SMSC default *)
  | Some s =>
      if str_empty s then Ok 0 (* SMSC default *)
      else of_option KeyError (SmppDataCoding_value ext s)
  end.

(** [self.pdu()], for the subclass whose [smpp_command] is given. Returns
    the PDU and [self] after the call ([smpp_encode] may set
    [self.encoding]). *)
Definition pdu (ext : Externals) (smpp_command : Z) (self : t)
  : result (bytes * t) :=
  (* If encoding is set to auto, smpp_encode will set encoding param of the
     message to ucs2 if default encoding cannot be used *)
  '(encoded_short_message, self) <-
     smpp_encode ext self (if str_empty (short_message self)
                           then message_payload self
                           else short_message self) ;;
  data_coding <- data_coding_of ext (encoding self) ;;
  let sm_length := List.length encoded_short_message in
  if (254 <? sm_length)%nat && negb (str_empty (short_message self))
     && negb (auto_message_payload self)
  then
    (* short_message supports up to 254 bytes, so this does not fit,
       but automatic moving to message_payload was deactivated *)
    Err (ShortMessageTooLong sm_length)
  else
    '(encoded_short_message, encoded_message_payload, sm_length) <-
       (if (254 <? sm_length)%nat || negb (str_empty (message_payload self))
        then
          hh <- pack_HH MESSAGE_PAYLOAD (Z.of_nat sm_length) ;;
          Ok ([], hh ++ encoded_short_message, 0%nat)
        else Ok (encoded_short_message, [], sm_length)) ;;
    b1 <- encode_ascii (service_type self) ;;
    b2 <- pack_BB (ton (source self)) (npi (source self)) ;;
    b3 <- encode_ascii (number (source self)) ;;
    b4 <- pack_BB (ton (destination self)) (npi (destination self)) ;;
    b5 <- encode_ascii (number (destination self)) ;;
    b6 <- pack_BBB (esm_class self) (protocol_id self) (priority_flag self) ;;
    t1 <- datetime_to_smpp_time (schedule_delivery_time self) ;;
    b7 <- encode_ascii t1 ;;
    t2 <- datetime_to_smpp_time (validity_period self) ;;
    b8 <- encode_ascii t2 ;;
    b9 <- pack_BB (registered_delivery self) (replace_if_present_flag self) ;;
    b10 <- pack_BBB data_coding (sm_default_msg_id self)
                    (Z.of_nat sm_length) ;;
    b11 <- join_results (map (OptionalParam_tlv ext) (optional_params self)) ;;
    let body :=
      b1 ++ NULL ++ b2 ++ b3 ++ NULL ++ b4 ++ b5 ++ NULL ++ b6
      ++ b7 ++ NULL ++ b8 ++ NULL ++ b9 ++ b10
      ++ encoded_short_message ++ encoded_message_payload ++ b11 in
    header <- SmppMessage.pack_header smpp_command (command_status self)
                (sequence_num self)
                (Z.of_nat (PDU_HEADER_LENGTH + List.length body)) ;;
    Ok (header ++ body, self).

(** The nested readers of [from_pdu]. Each takes the [nonlocal index]
    and returns it advanced. *)
Definition get_c_octet_string (pdu : bytes) (index : nat)
  : result (string * nat) :=
  str_end <- bytes_index pdu x00 index ;;
  octet_string <- decode_ascii (slice pdu index str_end) ;;
  Ok (octet_string, (str_end + 1)%nat).

Definition get_octet_string (pdu : bytes) (count : Z) (index : nat)
  : result (string * nat) :=
  let count := Z.to_nat count in
  octet_string <- decode_ascii (slice pdu index (index + count)) ;;
  let octet_string :=
    if str_endswith octet_string zero (* String may be null-terminated *)
    then str_drop_last octet_string
    else octet_string in
  Ok (octet_string, (index + count)%nat).

Definition get_integer (pdu : bytes) (count : Z) (index : nat)
  : result (Z * nat) :=
  if count =? 1 then v <- unpack_B pdu index ;; Ok (v, (index + 1)%nat)
  else if count =? 2 then v <- unpack_H pdu index ;; Ok (v, (index + 2)%nat)
  else if count =? 4 then v <- unpack_I pdu index ;; Ok (v, (index + 4)%nat)
  else Err KeyError.

(** [Enum(value)] for an enumeration given by its membership test. *)
Definition enum_member (is_member : Z -> bool) (v : Z) : result Z :=
  if is_member v then Ok v else Err UnknownEnumValue.

(** The local variables of [from_pdu] when the mandatory part of the body
    has been read. *)
Record frame : Type := mk_frame {
  f_service_type : string;
  f_source : PhoneNumber;
  f_destination : PhoneNumber;
  f_esm_class : Z;
  f_protocol_id : Z;
  f_priority_flag : Z;
  f_schedule_delivery_time : string;
  f_validity_period : string;
  f_registered_delivery : Z;
  f_replace_if_present_flag : Z;
  f_data_coding : Z;
  f_encoding : string;
  f_codec_info : CodecInfo;
  f_sm_default_msg_id : Z;
  f_sm_length : Z;
  f_short_message : string;
  f_index : nat
}.

(** [from_pdu] from its first line to [index += sm_length]. *)
Definition read_mandatory (ext : Externals) (pdu : bytes)
                          (default_encoding : string)
                          (custom_codecs : option codec_dict)
  : result frame :=
  (* Only body is parsed here, header is pre-parsed *)
  let index := PDU_HEADER_LENGTH in
  '(service_type, index) <- get_c_octet_string pdu index ;;
  '(source_ton, index) <- get_integer pdu 1 index ;;
  source_ton <- enum_member (is_TON ext) source_ton ;;
  '(source_npi, index) <- get_integer pdu 1 index ;;
  source_npi <- enum_member (is_NPI ext) source_npi ;;
  '(source_number, index) <- get_c_octet_string pdu index ;;
  let source := mk_PhoneNumber source_number source_ton source_npi in
  '(dest_ton, index) <- get_integer pdu 1 index ;;
  dest_ton <- enum_member (is_TON ext) dest_ton ;;
  '(dest_npi, index) <- get_integer pdu 1 index ;;
  dest_npi <- enum_member (is_NPI ext) dest_npi ;;
  '(dest_number, index) <- get_c_octet_string pdu index ;;
  let destination := mk_PhoneNumber dest_number dest_ton dest_npi in
  '(esm_class, index) <- get_integer pdu 1 index ;;
  '(protocol_id, index) <- get_integer pdu 1 index ;;
  '(priority_flag, index) <- get_integer pdu 1 index ;;
  '(schedule_delivery_time, index) <- get_c_octet_string pdu index ;;
  '(validity_period, index) <- get_c_octet_string pdu index ;;
  '(registered_delivery, index) <- get_integer pdu 1 index ;;
  '(replace_if_present_flag, index) <- get_integer pdu 1 index ;;
  '(data_coding, index) <- get_integer pdu 1 index ;;
  encoding <- (if negb (data_coding =? 0)
               then of_option UnknownEnumValue
                              (SmppDataCoding_name ext data_coding)
               else Ok default_encoding) ;;
  codec_info <- find_codec_info ext encoding custom_codecs ;;
  '(sm_default_msg_id, index) <- get_integer pdu 1 index ;;
  '(sm_length, index) <- get_integer pdu 1 index ;;
  short_message <-
    decode codec_info (slice pdu index (index + Z.to_nat sm_length)) ;;
  let index := (index + Z.to_nat sm_length)%nat in
  Ok (mk_frame service_type source destination esm_class protocol_id
               priority_flag schedule_delivery_time validity_period
               registered_delivery replace_if_present_flag data_coding
               encoding codec_info sm_default_msg_id sm_length
               short_message index).

(** The loop [while index < header.pdu_length] of [from_pdu]. Each turn
    reads four bytes at [index] or raises, so [fuel] bounds the number of
    turns when it is at least the number of bytes of [pdu] from [index]
    on; with none left the first read of a turn raises [struct.error]. *)
Fixpoint read_optional_params (fuel : nat) (ext : Externals)
                              (codec_info : CodecInfo) (pdu : bytes)
                              (pdu_length : Z) (index : nat)
                              (message_payload : string)
                              (optional_params : list OptionalParam)
  : result (string * list OptionalParam) :=
  if negb (Z.of_nat index <? pdu_length)
  then Ok (message_payload, optional_params)
  else
    match fuel with
    | O => Err StructError
    | S fuel' =>
        '(tag_value, index) <- get_integer pdu 2 index ;;
        tag_type <- of_option UnknownEnumValue
                              (OptionalTag_data_type ext tag_value) ;;
        '(length, index) <- get_integer pdu 2 index ;;
        if tag_value =? MESSAGE_PAYLOAD then
          (* message_payload is a special case, it is an alternative to
             short_message *)
          message_payload <-
            decode codec_info (slice pdu index (index + Z.to_nat length)) ;;
          read_optional_params fuel' ext codec_info pdu pdu_length
                               (index + Z.to_nat length)%nat
                               message_payload optional_params
        else
          match tag_type with
          | DInt =>
              '(int_value, index) <- get_integer pdu length index ;;
              read_optional_params fuel' ext codec_info pdu pdu_length index
                message_payload
                (optional_params ++ [mk_OptionalParam tag_value (VInt int_value)])
          | DBool =>
              (* alert_on_message_delivery doesn't have an actual value
                 (it is zero-length), but is a bool param, so we set it
                 to True *)
              read_optional_params fuel' ext codec_info pdu pdu_length index
                message_payload
                (optional_params ++ [mk_OptionalParam tag_value (VBool true)])
          | DStr =>
              (* Only other possible type is str *)
              '(str_value, index) <- get_octet_string pdu length index ;;
              read_optional_params fuel' ext codec_info pdu pdu_length index
                message_payload
                (optional_params ++ [mk_OptionalParam tag_value (VStr str_value)])
          end
    end.

Definition from_pdu {T : Type} (cls : constructor T) (ext : Externals)
                    (pdu : bytes) (header : PduHeader.t)
                    (default_encoding : string)
                    (custom_codecs : option codec_dict) : result T :=
  f <- read_mandatory ext pdu default_encoding custom_codecs ;;
  (* Read optional parameters, if any *)
  '(message_payload, optional_params) <-
     read_optional_params (List.length pdu) ext (f_codec_info f) pdu
                          (PduHeader.pdu_length header) (f_index f) "" [] ;;
  schedule_delivery_time <-
    smpp_time_to_datetime ext (f_schedule_delivery_time f) ;;
  validity_period <- smpp_time_to_datetime ext (f_validity_period f) ;;
  cls (f_short_message f) (f_source f) (f_destination f) (f_service_type f)
      (f_esm_class f) (f_protocol_id f) (f_priority_flag f)
      schedule_delivery_time validity_period (f_registered_delivery f)
      (f_replace_if_present_flag f) (Some (f_encoding f))
      (f_sm_default_msg_id f) message_payload optional_params
      true "strict" (PduHeader.sequence_num header) "" "".

End Sm.

(* ================================================================== *)
(** ** [SmResp], [SubmitSm], [SubmitSmResp] *)

(** [data[i:j]] for integers of either sign. *)
Definition slice_Z (data : bytes) (i j : Z) : bytes :=
  let len := Z.of_nat (List.length data) in
  let norm k := if k <? 0 then Z.max 0 (k + len) else Z.min k len in
  slice data (Z.to_nat (norm i)) (Z.to_nat (norm j)).

Module SmResp.

Record t : Type := mk {
  command_status : Z;
  sequence_num : Z;
  message_id : string
}.

Definition __init__ (sequence_num command_status : Z) (message_id : string)
  : result t :=
  Ok (mk command_status sequence_num message_id).

Definition pdu (smpp_command : Z) (self : t) : result bytes :=
  b <- encode_ascii (message_id self) ;;
  let body := b ++ NULL in
  header <- SmppMessage.pack_header smpp_command (command_status self)
              (sequence_num self)
              (Z.of_nat (PDU_HEADER_LENGTH + List.length body)) ;;
  Ok (header ++ body).

Definition from_pdu {T : Type} (cls : Z -> Z -> string -> result T)
                    (pdu : bytes) (header : PduHeader.t) : result T :=
  (* Decode the full body of the PDU, minus terminating NULL char *)
  message_id <-
    decode_ascii (slice_Z pdu (Z.of_nat PDU_HEADER_LENGTH)
                          (PduHeader.pdu_length header - 1)) ;;
  (* log_id and extra_data will be set later *)
  cls (PduHeader.sequence_num header) (PduHeader.command_status header)
      message_id.

End SmResp.

Module SubmitSm.

Definition t : Type := Sm.t.

Definition __init__ : Sm.constructor t :=
  fun short_message source destination service_type esm_class protocol_id
      priority_flag schedule_delivery_time validity_period
      registered_delivery replace_if_present_flag encoding
      sm_default_msg_id message_payload optional_params
      auto_message_payload error_handling sequence_num log_id extra_data =>
  (* log_id has a default value to preserve more meaningful param order,
     but it is mandatory *)
  if str_empty log_id
  then Err (InvalidArgument "Parameter `log_id` cannot be empty.")
  else
    Sm.__init__ short_message source destination service_type esm_class
      protocol_id priority_flag schedule_delivery_time validity_period
      registered_delivery replace_if_present_flag encoding
      sm_default_msg_id message_payload optional_params
      auto_message_payload error_handling sequence_num log_id extra_data.

Definition smpp_command : Z := SUBMIT_SM.

Definition pdu (ext : Externals) (self : t) : result (bytes * t) :=
  Sm.pdu ext smpp_command self.

Definition from_pdu (ext : Externals) (pdu : bytes) (header : PduHeader.t)
                    (default_encoding : string)
                    (custom_codecs : option codec_dict) : result t :=
  Sm.from_pdu __init__ ext pdu header default_encoding custom_codecs.

End SubmitSm.

Module SubmitSmResp.

Record t : Type := mk {
  base : SmResp.t;
  log_id : string;
  extra_data : string
}.

Definition __init__ (sequence_num command_status : Z) (message_id : string)
                    (log_id extra_data : string) : result t :=
  b <- SmResp.__init__ sequence_num command_status message_id ;;
  Ok (mk b log_id extra_data).

Definition smpp_command : Z := SUBMIT_SM_RESP.

Definition pdu (self : t) : result bytes :=
  SmResp.pdu smpp_command (base self).

Definition from_pdu (pdu : bytes) (header : PduHeader.t) : result t :=
  SmResp.from_pdu
    (fun sequence_num command_status message_id =>
       __init__ sequence_num command_status message_id "" "")
    pdu header.

End SubmitSmResp.

(* ================================================================== *)
(** ** [DeliverSm] and the delivery receipt *)

(** A value of the receipt dictionary, [Dict[str, Any]] in the source: what
    [from_pdu] stores there is an int, a datetime, a string, or the value
    of an optional parameter. *)
Inductive receipt_value : Type :=
| RInt (n : Z)
| RDate (x : datetime)
| RStr (s : string)
| RBool (b : bool).

(** A Python [dict] with string keys, in insertion order. *)
Definition receipt_dict : Type := list (string * receipt_value).

Fixpoint dict_get (d : receipt_dict) (k : string) : option receipt_value :=
  match d with
  | [] => None
  | (k', v) :: d' => if String.eqb k' k then Some v else dict_get d' k
  end.

(** [d[k] = v]: replaces the value of a key already there, appends a new
    key. *)
Fixpoint dict_set (d : receipt_dict) (k : string) (v : receipt_value)
  : receipt_dict :=
  match d with
  | [] => [(k, v)]
  | (k', v') :: d' =>
      if String.eqb k' k then (k', v) :: d' else (k', v') :: dict_set d' k v
  end.

(** [c.lower()] for a character below code point 256. *)
Definition lower_char (c : ascii) : ascii :=
  let n := N_of_ascii c in
  if ((65 <=? n) && (n <=? 90)
      || (192 <=? n) && (n <=? 222) && negb (n =? 215))%N
  then ascii_of_N (n + 32) else c.

Fixpoint py_lower (s : string) : string :=
  match s with
  | EmptyString => EmptyString
  | String c s' => String (lower_char c) (py_lower s')
  end.

(** [s.ljust(width)], which is what the format [{s:width}] does to a
    string. *)
Fixpoint spaces (k : nat) : string :=
  match k with O => "" | S k' => String " " (spaces k') end.

Definition py_ljust (s : string) (width : nat) : string :=
  (s ++ spaces (width - String.length s))%string.

(** *** [datetime.strptime(s, '%y%m%d%H%M')]

    CPython turns the format into a regular expression, one group per
    directive, and matches it at the start of the string; the alternatives
    of a group are tried in order, going back to the next one when the rest
    fails to match. A remainder after the match is an error. *)
Definition char_between (lo hi : ascii) (c : ascii) : bool :=
  ((N_of_ascii lo <=? N_of_ascii c) && (N_of_ascii c <=? N_of_ascii hi))%N.

Definition alternative : Type := list (ascii -> bool).

Definition re_y : list alternative := [[is_digit; is_digit]].
Definition re_m : list alternative :=
  [[Ascii.eqb "1"; char_between "0" "2"];
   [Ascii.eqb "0"; char_between "1" "9"];
   [char_between "1" "9"]].
Definition re_d : list alternative :=
  [[Ascii.eqb "3"; char_between "0" "1"];
   [char_between "1" "2"; is_digit];
   [Ascii.eqb "0"; char_between "1" "9"];
   [char_between "1" "9"];
   [Ascii.eqb " "; char_between "1" "9"]].
Definition re_H : list alternative :=
  [[Ascii.eqb "2"; char_between "0" "3"];
   [char_between "0" "1"; is_digit];
   [is_digit]].
Definition re_M : list alternative :=
  [[char_between "0" "5"; is_digit]; [is_digit]].

Fixpoint match_alternative (alt : alternative) (s : string)
  : option (string * string) :=
  match alt with
  | [] => Some (EmptyString, s)
  | p :: alt' =>
      match s with
      | EmptyString => None
      | String c s' =>
          if p c then
            match match_alternative alt' s' with
            | Some (m, rest) => Some (String c m, rest)
            | None => None
            end
          else None
      end
  end.

Fixpoint match_groups (groups : list (list alternative)) (s : string)
  : option (list string * string) :=
  match groups with
  | [] => Some ([], s)
  | g :: groups' =>
      (fix try (alts : list alternative) : option (list string * string) :=
         match alts with
         | [] => None
         | a :: alts' =>
             match match_alternative a s with
             | Some (m, rest) =>
                 match match_groups groups' rest with
                 | Some (ms, r) => Some (m :: ms, r)
                 | None => try alts'
                 end
             | None => try alts'
             end
         end) g
  end.

Definition strptime_ymdHM (s : string) : result datetime :=
  match match_groups [re_y; re_m; re_d; re_H; re_M] s with
  | Some ([y; m; d; H; M], EmptyString) =>
      y <- py_int y ;;
      m <- py_int m ;;
      d <- py_int d ;;
      H <- py_int H ;;
      M <- py_int M ;;
      (* two-digit years: 69-99 are 1969-1999, 0-68 are 2000-2068 *)
      let y := if y <=? 68 then y + 2000 else y + 1900 in
      py_datetime y m d H M 0 0 None
  | _ => Err ValueError
  end.

Module DeliverSm.

Record t : Type := mk {
  base : Sm.t;
  receipt : option receipt_dict
}.

(** [if receipt]: neither [None] nor the empty dictionary. *)
Definition receipt_given (receipt : option receipt_dict) : bool :=
  match receipt with
  | Some (_ :: _) => true
  | _ => false
  end.

(** [receipt.get(key, default)] read at the type the source annotates the
    variable with; a value of another type is reported as [TypeError]. *)
Definition get_str (receipt : receipt_dict) (key : string) : result string :=
  match dict_get receipt key with
  | None => Ok ""
  | Some (RStr s) => Ok s
  | Some _ => Err TypeError
  end.

Definition get_int (receipt : receipt_dict) (key : string) : result Z :=
  match dict_get receipt key with
  | None => Ok 0
  | Some (RInt n) => Ok n
  | Some _ => Err TypeError
  end.

Definition get_date_str (receipt : receipt_dict) (key : string)
  : result string :=
  match dict_get receipt key with
  | None => Ok ""
  | Some (RDate x) => Ok (strftime_ymdHM x)
  | Some _ => Err TypeError
  end.

(** The receipt encoded in the text of the short message. *)
Definition receipt_text (receipt : receipt_dict) : result string :=
  (* Message ID allocated by the SMSC when submitted. *)
  msg_id <- get_str receipt "id" ;;
  (* Number of short messages originally submitted. *)
  sub <- get_int receipt "sub" ;;
  (* Number of short messages delivered. *)
  dlvrd <- get_int receipt "dlvrd" ;;
  (* The time and date at which the message was submitted. *)
  submit_date_str <- get_date_str receipt "submit date" ;;
  (* The time and date at which the message reached its final state. *)
  done_date_str <- get_date_str receipt "done date" ;;
  (* The final status of the message. *)
  stat <- get_str receipt "stat" ;;
  (* Network specific error code or an SMSC error code. *)
  err <- get_str receipt "err" ;;
  (* The first 20 characters of the short message. *)
  text <- get_str receipt "text" ;;
  Ok ("id:" ++ msg_id ++ " sub:" ++ py_format_0d 3 sub
      ++ " dlvrd:" ++ py_format_0d 3 dlvrd
      ++ " submit date:" ++ submit_date_str
      ++ " done date:" ++ done_date_str
      ++ " stat:" ++ stat ++ " err:" ++ err
      ++ " Text:" ++ py_ljust text 20)%string.

(** The assignment [self.short_message = s]. *)
Definition set_short_message (self : Sm.t) (s : string) : Sm.t :=
  Sm.mk (Sm.command_status self) (Sm.sequence_num self) s
     (Sm.source self) (Sm.destination self) (Sm.service_type self)
     (Sm.esm_class self) (Sm.protocol_id self) (Sm.priority_flag self)
     (Sm.schedule_delivery_time self) (Sm.validity_period self)
     (Sm.registered_delivery self) (Sm.replace_if_present_flag self)
     (Sm.encoding self) (Sm.sm_default_msg_id self)
     (Sm.message_payload self) (Sm.optional_params self)
     (Sm.auto_message_payload self) (Sm.error_handling self)
     (Sm.log_id self) (Sm.extra_data self) (Sm._default_encoding self)
     (Sm._custom_codecs self).

(** [DeliverSm.__init__], with [receipt] as its last parameter. *)
Definition __init__
    (short_message : string) (source destination : PhoneNumber)
    (service_type : string) (esm_class protocol_id priority_flag : Z)
    (schedule_delivery_time validity_period : option time_object)
    (registered_delivery replace_if_present_flag : Z)
    (encoding : option string) (sm_default_msg_id : Z)
    (message_payload : string) (optional_params : list OptionalParam)
    (auto_message_payload : bool) (error_handling : string)
    (sequence_num : Z) (log_id extra_data : string)
    (receipt : option receipt_dict) : result t :=
  let esm_class :=
    if receipt_given receipt then 0x04 (* 0b00000100 *) else esm_class in
  self <- Sm.__init__ short_message source destination service_type
            esm_class protocol_id priority_flag schedule_delivery_time
            validity_period registered_delivery replace_if_present_flag
            encoding sm_default_msg_id message_payload optional_params
            auto_message_payload error_handling sequence_num log_id
            extra_data ;;
  match receipt with
  | Some ((_ :: _) as r) =>
      if str_empty short_message then
        (* Encode receipt in short_message text *)
        (* Receipt format is SMSC-specific, but it usually follows the
           following pattern *)
        text <- receipt_text r ;;
        Ok (mk (set_short_message self text) receipt)
      else Ok (mk self receipt)
  | _ => Ok (mk self receipt)
  end.

(** The class as [Sm.from_pdu] calls it: [receipt] takes its default. *)
Definition cls : Sm.constructor t :=
  fun short_message source destination service_type esm_class protocol_id
      priority_flag schedule_delivery_time validity_period
      registered_delivery replace_if_present_flag encoding
      sm_default_msg_id message_payload optional_params
      auto_message_payload error_handling sequence_num log_id extra_data =>
  __init__ short_message source destination service_type esm_class
    protocol_id priority_flag schedule_delivery_time validity_period
    registered_delivery replace_if_present_flag encoding sm_default_msg_id
    message_payload optional_params auto_message_payload error_handling
    sequence_num log_id extra_data None.

Definition smpp_command : Z := DELIVER_SM.

Definition pdu (ext : Externals) (self : t) : result (bytes * t) :=
  '(data, b) <- Sm.pdu ext smpp_command (base self) ;;
  Ok (data, mk b (receipt self)).

(** The nested [get_receipt_param] of [from_pdu]: [None] stands for the
    pair [(None, None)], and the [nonlocal index] is returned advanced. *)
Definition get_receipt_param (short_message : string) (index : nat)
  : option (string * string * nat) :=
  match str_find short_message ":" index with
  | None => None
  | Some str_end =>
      let param := py_lower (str_slice short_message index str_end) in
      let index := (str_end + 1)%nat in
      let str_end :=
        match str_find short_message " " index with
        | None => String.length short_message
        | Some str_end =>
            if String.eqb param "text" (* Text must be last *)
            then String.length short_message
            else str_end
        end in
      let value := str_slice short_message index str_end in
      Some (param, value, (str_end + 1)%nat)
  end.

(** The loop [while True] of [from_pdu]. Each turn moves [index] forward,
    so [fuel] bounds the number of turns when it exceeds the number of
    characters from [index] on; with none left nothing is found and the
    loop breaks. *)
Fixpoint read_receipt (fuel : nat) (short_message : string) (index : nat)
                      (rcpt_data : receipt_dict) : result receipt_dict :=
  match fuel with
  | O => Ok rcpt_data
  | S fuel' =>
      match get_receipt_param short_message index with
      | None => Ok rcpt_data
      | Some (rcpt_param, rcpt_value, index) =>
          v <- (if String.eqb rcpt_param "sub"
                   || String.eqb rcpt_param "dlvrd"
                then n <- py_int rcpt_value ;; Ok (RInt n)
                else if String.eqb rcpt_param "submit date"
                        || String.eqb rcpt_param "done date"
                then x <- strptime_ymdHM rcpt_value ;; Ok (RDate x)
                else Ok (RStr rcpt_value)) ;;
          read_receipt fuel' short_message index
                       (dict_set rcpt_data rcpt_param v)
      end
  end.

(** [not v] for the result of [rcpt_data.get('id')]. *)
Definition falsy (v : option receipt_value) : bool :=
  match v with
  | None => true
  | Some (RStr s) => str_empty s
  | Some (RInt n) => n =? 0
  | Some (RBool b) => negb b
  | Some (RDate _) => false
  end.

Definition receipt_of_param (v : param_value) : receipt_value :=
  match v with
  | VInt n => RInt n
  | VBool b => RBool b
  | VStr s => RStr s
  end.

Definition from_pdu (ext : Externals) (pdu : bytes) (header : PduHeader.t)
                    (default_encoding : string)
                    (custom_codecs : option codec_dict) : result t :=
  deliver_sm <- Sm.from_pdu cls ext pdu header default_encoding
                            custom_codecs ;;
  (* Only middle 4 bits are relevant: 0 = incoming SMS, 1 = delivery
     receipt *)
  let message_class :=
    Z.shiftr (Z.land (Sm.esm_class (base deliver_sm)) 0x3C (* 0b00111100 *))
             2 in
  if message_class =? 1 then
    (* This is a delivery receipt *)
    let short_message := Sm.short_message (base deliver_sm) in
    rcpt_data <- read_receipt (S (String.length short_message))
                              short_message 0 [] ;;
    (* Get message ID from report data *)
    let smsc_message_id := dict_get rcpt_data "id" in
    let rcpt_data :=
      if falsy smsc_message_id then
        (* Message ID not found, check if receipted_message_id param
           exists *)
        match find (fun param => tag param =? RECEIPTED_MESSAGE_ID)
                   (Sm.optional_params (base deliver_sm)) with
        | Some id_param =>
            dict_set rcpt_data "id" (receipt_of_param (value id_param))
        | None => rcpt_data
        end
      else rcpt_data in
    Ok (mk (base deliver_sm) (Some rcpt_data))
  else Ok deliver_sm.

End DeliverSm.

Module DeliverSmResp.

Definition t : Type := SmResp.t.

Definition __init__ (sequence_num command_status : Z) (message_id : string)
  : result t :=
  SmResp.__init__ sequence_num command_status message_id.

Definition smpp_command : Z := DELIVER_SM_RESP.

Definition pdu (self : t) : result bytes := SmResp.pdu smpp_command self.

Definition from_pdu (pdu : bytes) (header : PduHeader.t) : result t :=
  SmResp.from_pdu __init__ pdu header.

End DeliverSmResp.

(* ================================================================== *)
(** ** Session control: nack, bind, enquire link, unbind *)

Module GenericNack.

Record t : Type := mk {
  command_status : Z;
  sequence_num : Z;
  log_id : string;
  extra_data : string
}.

Definition __init__ (sequence_num command_status : Z)
                    (log_id extra_data : string) : result t :=
  Ok (mk command_status sequence_num log_id extra_data).

Definition smpp_command : Z := GENERIC_NACK.

Definition pdu (self : t) : result bytes :=
  SmppMessage.pdu smpp_command (command_status self) (sequence_num self).

(** The inherited [from_pdu]: the constructor has a [command_status]
    parameter. *)
Definition from_pdu (pdu : bytes) (header : PduHeader.t) : result t :=
  __init__ (PduHeader.sequence_num header) (PduHeader.command_status header)
           "" "".

End GenericNack.

Module BindTransceiver.

Record t : Type := mk {
  command_status : Z;
  sequence_num : Z;
  system_id : string;
  password : string;
  system_type : string;
  interface_version : Z;
  addr_ton : Z;
  addr_npi : Z;
  address_range : string
}.

Definition __init__ (system_id password system_type : string)
                    (interface_version addr_ton addr_npi : Z)
                    (address_range : string) (sequence_num : Z) : result t :=
  Ok (mk ESME_ROK sequence_num system_id password system_type
         interface_version addr_ton addr_npi address_range).

Definition smpp_command : Z := BIND_TRANSCEIVER.

Definition pdu (self : t) : result bytes :=
  b1 <- encode_ascii (system_id self) ;;
  b2 <- encode_ascii (password self) ;;
  b3 <- encode_ascii (system_type self) ;;
  b4 <- pack_BBB (interface_version self) (addr_ton self) (addr_npi self) ;;
  b5 <- encode_ascii (address_range self) ;;
  let body := b1 ++ NULL ++ b2 ++ NULL ++ b3 ++ NULL ++ b4 ++ b5 ++ NULL in
  header <- SmppMessage.pack_header smpp_command (command_status self)
              (sequence_num self)
              (Z.of_nat (PDU_HEADER_LENGTH + List.length body)) ;;
  Ok (header ++ body).

Definition get_c_octet_string (pdu : bytes) (index : nat)
  : result (string * nat) :=
  str_end <- bytes_index pdu x00 index ;;
  octet_string <- decode_ascii (slice pdu index str_end) ;;
  Ok (octet_string, (str_end + 1)%nat).

Definition get_char (pdu : bytes) (index : nat) : result (Z * nat) :=
  integer <- unpack_B pdu index ;;
  Ok (integer, (index + 1)%nat).

Definition from_pdu (ext : Externals) (pdu : bytes) (header : PduHeader.t)
  : result t :=
  (* Only body is parsed here, header is pre-parsed *)
  let index := PDU_HEADER_LENGTH in
  '(system_id, index) <- get_c_octet_string pdu index ;;
  '(password, index) <- get_c_octet_string pdu index ;;
  '(system_type, index) <- get_c_octet_string pdu index ;;
  '(interface_version, index) <- get_char pdu index ;;
  '(addr_ton, index) <- get_char pdu index ;;
  addr_ton <- Sm.enum_member (is_TON ext) addr_ton ;;
  '(addr_npi, index) <- get_char pdu index ;;
  addr_npi <- Sm.enum_member (is_NPI ext) addr_npi ;;
  '(address_range, index) <- get_c_octet_string pdu index ;;
  __init__ system_id password system_type interface_version addr_ton
           addr_npi address_range (PduHeader.sequence_num header).

End BindTransceiver.

Module BindTransceiverResp.

Record t : Type := mk {
  command_status : Z;
  sequence_num : Z;
  system_id : string;
  sc_interface_version : option Z
}.

Definition __init__ (system_id : string) (sequence_num command_status : Z)
                    (sc_interface_version : option Z) : result t :=
  Ok (mk command_status sequence_num system_id sc_interface_version).

Definition smpp_command : Z := BIND_TRANSCEIVER_RESP.

Definition pdu (ext : Externals) (self : t) : result bytes :=
  b <- encode_ascii (system_id self) ;;
  let body := b ++ NULL in
  body <- match sc_interface_version self with
          | Some v =>
              tlv <- OptionalParam_tlv ext
                       (mk_OptionalParam SC_INTERFACE_VERSION (VInt v)) ;;
              Ok (body ++ tlv)
          | None => Ok body
          end ;;
  header <- SmppMessage.pack_header smpp_command (command_status self)
              (sequence_num self)
              (Z.of_nat (PDU_HEADER_LENGTH + List.length body)) ;;
  Ok (header ++ body).

Definition from_pdu (pdu : bytes) (header : PduHeader.t) : result t :=
  index <- bytes_index pdu x00 PDU_HEADER_LENGTH ;;
  system_id <- decode_ascii (slice pdu PDU_HEADER_LENGTH index) ;;
  let index := (index + 1)%nat in
  sc_interface_version <-
    (if Z.of_nat index <? PduHeader.pdu_length header then
       (* Optional param sc_interface_version. It must have a total of 5
          bytes in length. *)
       let index := (index + 4)%nat in
       if Z.of_nat index + 1 =? PduHeader.pdu_length header
       then v <- unpack_B pdu index ;; Ok (Some v)
       else Ok None
     else Ok None) ;;
  __init__ system_id (PduHeader.sequence_num header)
           (PduHeader.command_status header) sc_interface_version.

End BindTransceiverResp.

(** The four messages that are a header and nothing else. A request is
    built from its sequence number, a response from its status too. *)
Module EnquireLink.
Record t : Type := mk { command_status : Z; sequence_num : Z }.
Definition __init__ (sequence_num : Z) : result t :=
  Ok (mk ESME_ROK sequence_num).
Definition smpp_command : Z := ENQUIRE_LINK.
Definition pdu (self : t) : result bytes :=
  SmppMessage.pdu smpp_command (command_status self) (sequence_num self).
Definition from_pdu (pdu : bytes) (header : PduHeader.t) : result t :=
  (* Requests don't have a command status *)
  __init__ (PduHeader.sequence_num header).
End EnquireLink.

Module EnquireLinkResp.
Record t : Type := mk { command_status : Z; sequence_num : Z }.
Definition __init__ (sequence_num command_status : Z) : result t :=
  Ok (mk command_status sequence_num).
Definition smpp_command : Z := ENQUIRE_LINK_RESP.
Definition pdu (self : t) : result bytes :=
  SmppMessage.pdu smpp_command (command_status self) (sequence_num self).
Definition from_pdu (pdu : bytes) (header : PduHeader.t) : result t :=
  __init__ (PduHeader.sequence_num header) (PduHeader.command_status header).
End EnquireLinkResp.

Module Unbind.
Record t : Type := mk { command_status : Z; sequence_num : Z }.
Definition __init__ (sequence_num : Z) : result t :=
  Ok (mk ESME_ROK sequence_num).
Definition smpp_command : Z := UNBIND.
Definition pdu (self : t) : result bytes :=
  SmppMessage.pdu smpp_command (command_status self) (sequence_num self).
Definition from_pdu (pdu : bytes) (header : PduHeader.t) : result t :=
  (* Requests don't have a command status *)
  __init__ (PduHeader.sequence_num header).
End Unbind.

Module UnbindResp.
Record t : Type := mk { command_status : Z; sequence_num : Z }.
Definition __init__ (sequence_num command_status : Z) : result t :=
  Ok (mk command_status sequence_num).
Definition smpp_command : Z := UNBIND_RESP.
Definition pdu (self : t) : result bytes :=
  SmppMessage.pdu smpp_command (command_status self) (sequence_num self).
Definition from_pdu (pdu : bytes) (header : PduHeader.t) : result t :=
  __init__ (PduHeader.sequence_num header) (PduHeader.command_status header).
End UnbindResp.

(* ================================================================== *)
(** ** The dispatch table and the two directions of the codec *)

(** A message of any of the classes of [MESSAGE_TYPE_MAP]. *)
Inductive Message : Type :=
| MGenericNack (m : GenericNack.t)
| MSubmitSm (m : SubmitSm.t)
| MSubmitSmResp (m : SubmitSmResp.t)
| MDeliverSm (m : DeliverSm.t)
| MDeliverSmResp (m : DeliverSmResp.t)
| MBindTransceiver (m : BindTransceiver.t)
| MBindTransceiverResp (m : BindTransceiverResp.t)
| MEnquireLink (m : EnquireLink.t)
| MEnquireLinkResp (m : EnquireLinkResp.t)
| MUnbind (m : Unbind.t)
| MUnbindResp (m : UnbindResp.t).

(** The classes, as values of the table. *)
Inductive message_class : Type :=
| GenericNack_cls | SubmitSm_cls | SubmitSmResp_cls | DeliverSm_cls
| DeliverSmResp_cls | BindTransceiver_cls | BindTransceiverResp_cls
| EnquireLink_cls | EnquireLinkResp_cls | Unbind_cls | UnbindResp_cls.

(** [MESSAGE_TYPE_MAP[command]], [KeyError] for a command without class. *)
Definition MESSAGE_TYPE_MAP (command : Z) : result message_class :=
  if command =? GENERIC_NACK then Ok GenericNack_cls
  else if command =? SUBMIT_SM then Ok SubmitSm_cls
  else if command =? SUBMIT_SM_RESP then Ok SubmitSmResp_cls
  else if command =? DELIVER_SM then Ok DeliverSm_cls
  else if command =? DELIVER_SM_RESP then Ok DeliverSmResp_cls
  else if command =? BIND_TRANSCEIVER then Ok BindTransceiver_cls
  else if command =? BIND_TRANSCEIVER_RESP then Ok BindTransceiverResp_cls
  else if command =? ENQUIRE_LINK then Ok EnquireLink_cls
  else if command =? ENQUIRE_LINK_RESP then Ok EnquireLinkResp_cls
  else if command =? UNBIND then Ok Unbind_cls
  else if command =? UNBIND_RESP then Ok UnbindResp_cls
  else Err KeyError.

Definition lift {A : Type} (c : A -> Message) (r : result A) : result Message :=
  x <- r ;; Ok (c x).

(** [cls.from_pdu(pdu, header, default_encoding, custom_codecs)]. *)
Definition class_from_pdu (ext : Externals) (cls : message_class)
                          (pdu : bytes) (header : PduHeader.t)
                          (default_encoding : string)
                          (custom_codecs : option codec_dict)
  : result Message :=
  match cls with
  | GenericNack_cls => lift MGenericNack (GenericNack.from_pdu pdu header)
  | SubmitSm_cls =>
      lift MSubmitSm (SubmitSm.from_pdu ext pdu header default_encoding
                                        custom_codecs)
  | SubmitSmResp_cls => lift MSubmitSmResp (SubmitSmResp.from_pdu pdu header)
  | DeliverSm_cls =>
      lift MDeliverSm (DeliverSm.from_pdu ext pdu header default_encoding
                                          custom_codecs)
  | DeliverSmResp_cls =>
      lift MDeliverSmResp (DeliverSmResp.from_pdu pdu header)
  | BindTransceiver_cls =>
      lift MBindTransceiver (BindTransceiver.from_pdu ext pdu header)
  | BindTransceiverResp_cls =>
      lift MBindTransceiverResp (BindTransceiverResp.from_pdu pdu header)
  | EnquireLink_cls => lift MEnquireLink (EnquireLink.from_pdu pdu header)
  | EnquireLinkResp_cls =>
      lift MEnquireLinkResp (EnquireLinkResp.from_pdu pdu header)
  | Unbind_cls => lift MUnbind (Unbind.from_pdu pdu header)
  | UnbindResp_cls => lift MUnbindResp (UnbindResp.from_pdu pdu header)
  end.

(** [m.pdu()]: the PDU, and the message after the call. *)
Definition message_pdu (ext : Externals) (m : Message)
  : result (bytes * Message) :=
  match m with
  | MGenericNack x => data <- GenericNack.pdu x ;; Ok (data, m)
  | MSubmitSm x => '(data, x') <- SubmitSm.pdu ext x ;; Ok (data, MSubmitSm x')
  | MSubmitSmResp x => data <- SubmitSmResp.pdu x ;; Ok (data, m)
  | MDeliverSm x =>
      '(data, x') <- DeliverSm.pdu ext x ;; Ok (data, MDeliverSm x')
  | MDeliverSmResp x => data <- DeliverSmResp.pdu x ;; Ok (data, m)
  | MBindTransceiver x => data <- BindTransceiver.pdu x ;; Ok (data, m)
  | MBindTransceiverResp x =>
      data <- BindTransceiverResp.pdu ext x ;; Ok (data, m)
  | MEnquireLink x => data <- EnquireLink.pdu x ;; Ok (data, m)
  | MEnquireLinkResp x => data <- EnquireLinkResp.pdu x ;; Ok (data, m)
  | MUnbind x => data <- Unbind.pdu x ;; Ok (data, m)
  | MUnbindResp x => data <- UnbindResp.pdu x ;; Ok (data, m)
  end.

(** Decoding as the specification composes it: the header is parsed from
    the first 16 bytes, the class is looked up in the table, and its
    [from_pdu] reads the PDU. *)
Definition decode_pdu (ext : Externals) (pdu : bytes)
                      (default_encoding : string)
                      (custom_codecs : option codec_dict) : result Message :=
  header <- SmppMessage.parse_header ext (slice pdu 0 PDU_HEADER_LENGTH) ;;
  cls <- MESSAGE_TYPE_MAP (PduHeader.smpp_command header) ;;
  class_from_pdu ext cls pdu header default_encoding custom_codecs.

(* ================================================================== *)
(** ** A reference instance of the missing modules *)

Module Reference.

(** Modelled from the spec: the command identifiers of the dispatch table
    are the members of [SmppCommand] ([state.py] is missing). *)
Definition is_SmppCommand (v : Z) : bool :=
  is_ok (MESSAGE_TYPE_MAP v).

(** Modelled from the spec: [SmppCommandStatus] is the closed enumeration
    of the SMPP error codes ([state.py] is missing); the codes are those
    of SMPP v3.4, table 5-2. *)
Definition is_SmppCommandStatus (v : Z) : bool :=
  existsb (Z.eqb v)
    [0x00; 0x01; 0x02; 0x03; 0x04; 0x05; 0x06; 0x07; 0x08; 0x0A; 0x0B;
     0x0C; 0x0D; 0x0E; 0x0F; 0x11; 0x13; 0x14; 0x15; 0x33; 0x34; 0x40;
     0x42; 0x43; 0x44; 0x45; 0x48; 0x49; 0x4A; 0x4B; 0x4C; 0x4D; 0x4E;
     0x4F; 0x50; 0x51; 0x53; 0x54; 0x55; 0x58; 0x61; 0x62; 0x63; 0x64;
     0x65; 0x66; 0x67; 0xC0; 0xC1; 0xC2; 0xC3; 0xC4; 0xFE; 0xFF].

(** Modelled from the spec: [TON] and [NPI] are small closed
    enumerations, single-byte ([state.py] is missing); the members are
    those of SMPP v3.4, sections 5.2.5 and 5.2.6. *)
Definition is_TON (v : Z) : bool := (0 <=? v) && (v <=? 6).
Definition is_NPI (v : Z) : bool :=
  existsb (Z.eqb v) [0; 1; 3; 4; 6; 8; 9; 10; 14; 18].

Definition USER_MESSAGE_REFERENCE : Z := 0x0204.
Definition ALERT_ON_MESSAGE_DELIVERY : Z := 0x130C.

(** Modelled from the spec: each tag has a declared value type
    ([state.py] is missing). Five tags of SMPP v3.4 stand for the closed
    set: two strings, two integers of width 1 and 2, one boolean. *)
Definition OptionalTag_data_type (v : Z) : option data_type :=
  if v =? MESSAGE_PAYLOAD then Some DStr
  else if v =? RECEIPTED_MESSAGE_ID then Some DStr
  else if v =? SC_INTERFACE_VERSION then Some DInt
  else if v =? USER_MESSAGE_REFERENCE then Some DInt
  else if v =? ALERT_ON_MESSAGE_DELIVERY then Some DBool
  else None.

(** The width in bytes that an integer tag declares. *)
Definition OptionalTag_length (v : Z) : Z :=
  if v =? USER_MESSAGE_REFERENCE then 2 else 1.

(** Modelled from the spec: [OptionalParam.tlv] ([state.py] is missing)
    serializes [tag:u16 | length:u16 | value]; an int takes the width the
    tag declares, big-endian; a bool has length 0 and no value; a string
    is its raw bytes without NUL. *)
Definition OptionalParam_tlv (p : OptionalParam) : result bytes :=
  match OptionalTag_data_type (tag p), value p with
  | Some DInt, VInt n =>
      let width := OptionalTag_length (tag p) in
      hh <- pack_HH (tag p) width ;;
      v <- (if width =? 1 then pack_B n
            else if width =? 2 then pack_H n else pack_I n) ;;
      Ok (hh ++ v)
  | Some DBool, VBool _ => pack_HH (tag p) 0
  | Some DStr, VStr s =>
      v <- encode_ascii s ;;
      hh <- pack_HH (tag p) (Z.of_nat (List.length v)) ;;
      Ok (hh ++ v)
  | _, _ => Err TypeError
  end.

(** Modelled from the spec: [SmppDataCoding] maps encoding names to
    one-byte data-coding values and back ([state.py] is missing); the
    values are those of SMPP v3.4, section 5.2.19. *)
Definition SmppDataCoding_table : list (string * Z) :=
  [("ascii", 1); ("latin_1", 3); ("ucs2", 8)].

Definition SmppDataCoding_value (name : string) : option Z :=
  option_map snd
    (find (fun e => String.eqb (fst e) name) SmppDataCoding_table).

Definition SmppDataCoding_name (v : Z) : option string :=
  option_map fst (find (fun e => snd e =? v) SmppDataCoding_table).

(** The codec [latin_1]: one byte per character, every character below
    code point 256 encodable. *)
Definition latin_1 : CodecInfo :=
  mk_CodecInfo
    (fun text _ => Ok (map byte_of_ascii (list_ascii_of_string text)))
    (fun data => Ok (string_of_list_ascii (map ascii_of_byte data))).

(** The codec [ascii]: [UnicodeEncodeError] above code point 127 when
    [errors] is ['strict'], the character dropped when it is ['ignore'],
    ['?'] in its place otherwise. *)
Fixpoint ascii_encode (text errors : string) : result bytes :=
  match text with
  | EmptyString => Ok []
  | String c text' =>
      if (N_of_ascii c <? 128)%N
      then r <- ascii_encode text' errors ;; Ok (byte_of_ascii c :: r)
      else if String.eqb errors "strict" then Err EncodingFailure
      else if String.eqb errors "ignore" then ascii_encode text' errors
      else r <- ascii_encode text' errors ;; Ok (x3f :: r)
  end.

Definition ascii_codec : CodecInfo := mk_CodecInfo ascii_encode decode_ascii.

(** The codec [ucs2]: two bytes per character, big-endian. *)
Fixpoint ucs2_decode (data : bytes) : result string :=
  match data with
  | [] => Ok EmptyString
  | x00 :: b :: data' =>
      r <- ucs2_decode data' ;; Ok (String (ascii_of_byte b) r)
  | _ => Err DecodingFailure
  end.

Definition ucs2 : CodecInfo :=
  mk_CodecInfo
    (fun text _ =>
       Ok (flat_map (fun c => [x00; byte_of_ascii c])
                    (list_ascii_of_string text)))
    ucs2_decode.

Definition builtin_codecs : codec_dict :=
  [("latin_1", latin_1); ("ascii", ascii_codec); ("ucs2", ucs2)].

Fixpoint codec_lookup (d : codec_dict) (name : string) : option CodecInfo :=
  match d with
  | [] => None
  | (k, c) :: d' => if String.eqb k name then Some c else codec_lookup d' name
  end.

(** Modelled from the spec: [find_codec_info] ([codec.py] is missing)
    resolves a named text encoding to an encode/decode pair; overrides
    win over built-ins. *)
Definition find_codec_info (encoding : string)
                           (custom_codecs : option codec_dict)
  : result CodecInfo :=
  match match custom_codecs with
        | Some d => codec_lookup d encoding
        | None => None
        end with
  | Some c => Ok c
  | None => of_option LookupError (codec_lookup builtin_codecs encoding)
  end.

(** Modelled from the spec: [FixedOffset.from_timezone] ([utils.py] is
    missing) gives the fixed offset derived from [nn] and [p]: the sign
    [p] first, then [nn] quarter-hours. *)
Definition FixedOffset_from_timezone (offset_str : string)
  : result tzinfo_obj :=
  quarters <- py_int offset_str ;;
  t <- py_timedelta 0 (quarters * 15 * 60) ;;
  Ok (mk_tzinfo (Some t)).

Definition externals : Externals :=
  mk_Externals is_SmppCommand is_SmppCommandStatus is_TON is_NPI
               OptionalTag_data_type OptionalParam_tlv
               SmppDataCoding_value SmppDataCoding_name
               find_codec_info FixedOffset_from_timezone.

End Reference.

(* ================================================================== *)
(** * Properties *)

(** ** Two-digit decimal fields *)

(** The two characters of a number below 100. *)
Definition two_digits (n : Z) : string :=
  String (digit_char (n / 10)) (String (digit_char (n mod 10)) "").

Lemma below_100_cases (P : Z -> bool) :
  forallb P (map Z.of_nat (seq 0 100)) = true ->
  forall n, 0 <= n < 100 -> P n = true.
Proof.
  intros H n Hn. rewrite forallb_forall in H. apply H.
  apply in_map_iff. exists (Z.to_nat n). split; [lia |].
  apply in_seq. lia.
Qed.

Lemma py_format_0d_2 (n : Z) :
  0 <= n < 100 -> py_format_0d 2 n = two_digits n.
Proof.
  intros Hn. apply String.eqb_eq.
  revert n Hn.
  apply (below_100_cases (fun n => String.eqb (py_format_0d 2 n) (two_digits n))).
  vm_compute. reflexivity.
Qed.

Lemma py_int_two_digits (n : Z) :
  0 <= n < 100 -> py_int (two_digits n) = Ok n.
Proof.
  intros Hn.
  assert (H : (fun n => match py_int (two_digits n) with
                        | Ok m => m =? n
                        | Err _ => false
                        end) n = true).
  { revert n Hn. apply below_100_cases. vm_compute. reflexivity. }
  cbv beta in H. destruct (py_int (two_digits n)); [| discriminate].
  apply Z.eqb_eq in H. now subst.
Qed.

Lemma two_digits_ascii (n : Z) :
  0 <= n < 100 ->
  exists a b, two_digits n = String a (String b "")
              /\ is_digit a = true /\ is_digit b = true.
Proof.
  intros Hn. exists (digit_char (n / 10)), (digit_char (n mod 10)).
  split; [reflexivity |].
  assert (H : (fun n => is_digit (digit_char (n / 10))
                        && is_digit (digit_char (n mod 10))) n = true).
  { revert n Hn. apply below_100_cases. vm_compute. reflexivity. }
  cbv beta in H. now apply andb_true_iff in H.
Qed.

(* ------------------------------------------------------------------ *)
(** ** The time codec *)

(** [t <= timedelta(weeks=63)]. *)
Definition at_most_63_weeks (t : timedelta) : Prop :=
  timedelta_gtb t (timedelta_weeks 63) = false.

(** The six numbers of the decomposition with 365-day years and 30-day
    months: years, months, days, hours, minutes, seconds. *)
Definition td_years (t : timedelta) : Z := days t / 365.
Definition td_months (t : timedelta) : Z := (days t mod 365) / 30.
Definition td_days (t : timedelta) : Z := (days t mod 365) mod 30.
Definition td_hours (t : timedelta) : Z := seconds t / 3600.
Definition td_minutes (t : timedelta) : Z := (seconds t mod 3600) / 60.
Definition td_seconds (t : timedelta) : Z := (seconds t mod 3600) mod 60.

Lemma decomposition_exact (t : timedelta) :
  td_years t * 365 + td_months t * 30 + td_days t = days t
  /\ td_hours t * 3600 + td_minutes t * 60 + td_seconds t = seconds t.
Proof.
  unfold td_years, td_months, td_days, td_hours, td_minutes, td_seconds.
  pose proof (Z.div_mod (days t) 365).
  pose proof (Z.div_mod (days t mod 365) 30).
  pose proof (Z.div_mod (seconds t) 3600).
  pose proof (Z.div_mod (seconds t mod 3600) 60).
  lia.
Qed.

Lemma decomposition_bounds (t : timedelta) :
  timedelta_ok t -> 0 <= days t -> at_most_63_weeks t ->
  0 <= td_years t < 100 /\ 0 <= td_months t < 100 /\ 0 <= td_days t < 100
  /\ 0 <= td_hours t < 100 /\ 0 <= td_minutes t < 100
  /\ 0 <= td_seconds t < 100.
Proof.
  intros (_ & Hs & _) Hd H63.
  assert (days t <= 441).
  { unfold at_most_63_weeks, timedelta_gtb, timedelta_weeks in H63.
    cbn [days seconds microseconds] in H63.
    apply orb_false_iff in H63. destruct H63 as [H63 _]. lia. }
  unfold td_years, td_months, td_days, td_hours, td_minutes, td_seconds.
  pose proof (Z.mod_pos_bound (days t) 365).
  pose proof (Z.mod_pos_bound (days t mod 365) 30).
  pose proof (Z.mod_pos_bound (seconds t) 3600).
  pose proof (Z.mod_pos_bound (seconds t mod 3600) 60).
  repeat split;
    try (apply Z.div_pos; lia);
    try (apply Z.div_lt_upper_bound; lia);
    lia.
Qed.

(** What [datetime_to_smpp_time] returns for a duration that passes its
    guard: the six numbers, each as ['{:02d}'] renders it, then [000R]. *)
Lemma relative_time_format (t : timedelta) :
  at_most_63_weeks t ->
  Sm.datetime_to_smpp_time (Some (Relative t))
  = Ok (py_format_0d 2 (td_years t) ++ py_format_0d 2 (td_months t)
        ++ py_format_0d 2 (td_days t) ++ py_format_0d 2 (td_hours t)
        ++ py_format_0d 2 (td_minutes t) ++ py_format_0d 2 (td_seconds t)
        ++ "000R")%string.
Proof.
  unfold at_most_63_weeks, Sm.datetime_to_smpp_time. intros ->. reflexivity.
Qed.

(** For a duration that is not negative every field is two decimal
    digits. *)
Lemma relative_time_digits (t : timedelta) :
  timedelta_ok t -> 0 <= days t -> at_most_63_weeks t ->
  Sm.datetime_to_smpp_time (Some (Relative t))
  = Ok (two_digits (td_years t) ++ two_digits (td_months t)
        ++ two_digits (td_days t) ++ two_digits (td_hours t)
        ++ two_digits (td_minutes t) ++ two_digits (td_seconds t)
        ++ "000R")%string.
Proof.
  intros Hok Hd H63.
  destruct (decomposition_bounds t Hok Hd H63) as (? & ? & ? & ? & ? & ?).
  rewrite relative_time_format by assumption.
  now rewrite !py_format_0d_2 by assumption.
Qed.

(** Parsing a relative time of six two-digit fields. *)
Lemma relative_time_parse (ext : Externals) (y mo d h mi s : Z) :
  0 <= y < 100 -> 0 <= mo < 100 -> 0 <= d < 100 ->
  0 <= h < 100 -> 0 <= mi < 100 -> 0 <= s < 100 ->
  Sm.smpp_time_to_datetime ext
    (two_digits y ++ two_digits mo ++ two_digits d ++ two_digits h
     ++ two_digits mi ++ two_digits s ++ "000R")%string
  = t <- py_timedelta (y * 365 + mo * 30 + d) (h * 3600 + mi * 60 + s) ;;
    Ok (Some (Relative t)).
Proof.
  intros Hy Hmo Hd Hh Hmi Hs.
  pose proof (py_int_two_digits _ Hy) as Ey.
  pose proof (py_int_two_digits _ Hmo) as Emo.
  pose proof (py_int_two_digits _ Hd) as Ed.
  pose proof (py_int_two_digits _ Hh) as Eh.
  pose proof (py_int_two_digits _ Hmi) as Emi.
  pose proof (py_int_two_digits _ Hs) as Es.
  unfold two_digits in *.
  unfold Sm.smpp_time_to_datetime.
  cbn [append str_empty str_slice substring Nat.sub str_endswith].
  rewrite Ey, Emo, Ed, Eh, Emi, Es.
  reflexivity.
Qed.

(** The duration part of the time symmetry: a duration that is not
    negative, at most 63 weeks and whole in seconds is restored. *)
Lemma relative_time_round_trip (ext : Externals) (t : timedelta) :
  timedelta_ok t -> 0 <= days t -> at_most_63_weeks t ->
  microseconds t = 0 ->
  exists s, Sm.datetime_to_smpp_time (Some (Relative t)) = Ok s
            /\ Sm.smpp_time_to_datetime ext s = Ok (Some (Relative t)).
Proof.
  intros Hok Hd H63 Hus.
  destruct (decomposition_bounds t Hok Hd H63) as (? & ? & ? & ? & ? & ?).
  eexists. split; [apply relative_time_digits; assumption |].
  rewrite relative_time_parse by assumption.
  destruct (decomposition_exact t) as [-> ->].
  destruct Hok as (Hdays & Hsec & _).
  unfold py_timedelta.
  rewrite Z.div_small, Z.mod_small by lia.
  rewrite Z.add_0_r.
  replace ((-999999999 <=? days t) && (days t <=? 999999999)) with true
    by (symmetry; apply andb_true_iff; split; apply Z.leb_le; lia).
  cbn [bind]. destruct t as [dd ss us]; cbn in *. now subst.
Qed.

(** The offset of a datetime in seconds east of UTC; 0 when it carries no
    timezone. *)
Definition offset_seconds (x : datetime) : Z :=
  match tzinfo x with
  | Some tz =>
      match utcoffset tz with
      | Some o => days o * 86400 + seconds o
      | None => 0
      end
  | None => 0
  end.

(** The absolute time as the specification words it: [YYMMDDhhmmss], the
    tenths of second, the quarter-hours of the magnitude of the offset on
    two digits, and the sign of the offset. *)
Definition claimed_absolute_time (x : datetime) : string :=
  let t := py_str (microsecond x / 100000) in
  let nn := py_format_0d 2 (Z.abs (offset_seconds x) / 900) in
  let p := if offset_seconds x <? 0 then "-" else "+" in
  (strftime_ymdHMS x ++ t ++ nn ++ p)%string.

(** East of UTC, and without a timezone, the source returns that string. *)
Lemma absolute_time_east (x : datetime) :
  match tzinfo x with
  | Some (mk_tzinfo (Some o)) => days o = 0 /\ 0 <= seconds o
  | _ => True
  end ->
  Sm.datetime_to_smpp_time (Some (Absolute x)) = Ok (claimed_absolute_time x).
Proof.
  unfold Sm.datetime_to_smpp_time, claimed_absolute_time, offset_seconds.
  destruct (tzinfo x) as [[[o |]] |]; intros H; try reflexivity.
  cbn [utcoffset]. destruct H as [Hd Hs]. rewrite Hd.
  replace (0 * 86400 + seconds o) with (seconds o) by lia.
  rewrite Z.abs_eq by assumption.
  replace (seconds o <? 0) with false by (symmetry; apply Z.ltb_ge; lia).
  unfold timedelta_is_zero. rewrite Hd. cbn [Z.eqb andb Z.ltb Z.compare].
  destruct (seconds o =? 0) eqn:E; [| reflexivity].
  apply Z.eqb_eq in E. rewrite E.
  destruct (microseconds o =? 0); reflexivity.
Qed.

(** Noon of 1 January 2024, five hours west of UTC:
    [timedelta(hours=-5)] is [timedelta(days=-1, seconds=68400)]. *)
Definition noon_west : datetime :=
  mk_datetime 2024 1 1 12 0 0 0
              (Some (mk_tzinfo (Some (mk_timedelta (-1) 68400 0)))).

(** C3, at a datetime west of UTC: the specification asks for 20
    quarter-hours, [floor(18000 / 900)], and the source writes 76,
    [floor(68400 / 900)], the seconds field of the normalised negative
    duration. *)
Theorem C3_quarter_hours_west_of_utc :
  datetime_ok noon_west
  /\ offset_seconds noon_west = -18000
  /\ claimed_absolute_time noon_west = "240101120000020-"
  /\ Sm.datetime_to_smpp_time (Some (Absolute noon_west))
     = Ok "240101120000076-".
Proof. repeat split. Qed.

(** Noon of 1 January 2024 at UTC, and half a second later. *)
Definition noon_utc : datetime :=
  mk_datetime 2024 1 1 12 0 0 0 (Some (mk_tzinfo (Some (mk_timedelta 0 0 0)))).

Definition noon_utc_half : datetime :=
  mk_datetime 2024 1 1 12 0 0 500000
              (Some (mk_tzinfo (Some (mk_timedelta 0 0 0)))).

(** C2, at two datetimes of tenth-second resolution at UTC, whatever
    [FixedOffset.from_timezone] does: with a tenth of second that is not
    zero, parsing the formatted time raises, since the microsecond handed
    to [datetime] is the tenth times 1000000; with a zero tenth the
    datetime that comes back is in year 24, not 2024. *)
Theorem C2_absolute_time_not_restored (ext : Externals) :
  (datetime_ok noon_utc_half
   /\ Sm.datetime_to_smpp_time (Some (Absolute noon_utc_half))
      = Ok "240101120000500+"
   /\ exists e, Sm.smpp_time_to_datetime ext "240101120000500+" = Err e)
  /\
  (datetime_ok noon_utc
   /\ Sm.datetime_to_smpp_time (Some (Absolute noon_utc))
      = Ok "240101120000000+"
   /\ match Sm.smpp_time_to_datetime ext "240101120000000+" with
      | Ok (Some (Absolute y)) => year y = 24
      | Ok _ => False
      | Err _ => True
      end).
Proof.
  split; (split; [reflexivity | split; [reflexivity |]]).
  - unfold Sm.smpp_time_to_datetime.
    cbn [str_empty str_slice substring Nat.sub str_endswith append].
    change (py_int "24") with (Ok 24). change (py_int "01") with (Ok 1).
    change (py_int "12") with (Ok 12). change (py_int "00") with (Ok 0).
    change (py_int "5") with (Ok 5).
    cbn [bind Ascii.eqb Bool.eqb].
    destruct (FixedOffset_from_timezone ext "+00") as [tz | e]; cbn [bind].
    + exists ValueError. reflexivity.
    + exists e. reflexivity.
  - unfold Sm.smpp_time_to_datetime.
    cbn [str_empty str_slice substring Nat.sub str_endswith append].
    change (py_int "24") with (Ok 24). change (py_int "01") with (Ok 1).
    change (py_int "12") with (Ok 12). change (py_int "00") with (Ok 0).
    change (py_int "0") with (Ok 0).
    cbn [bind Ascii.eqb Bool.eqb].
    destruct (FixedOffset_from_timezone ext "+00") as [tz | e]; cbn [bind].
    + reflexivity.
    + exact I.
Qed.

(** Two days, three hours, four minutes and five seconds. *)
Definition two_days_and_more : timedelta :=
  mk_timedelta 2 (3 * 3600 + 4 * 60 + 5) 0.

(** C4: a duration of at most 63 weeks is written as the six numbers of
    the decomposition with 365-day years and 30-day months, each as
    ['{:02d}'] renders it, followed by [000R]; when the duration is not
    negative each field is two decimal digits and the string has 16
    characters; a duration above 63 weeks raises [ValidityOutOfRange];
    two days 03:04:05 gives [000002030405000R], which parses back to it. *)
Theorem C4_relative_time (ext : Externals) (t : timedelta) :
  (at_most_63_weeks t ->
   Sm.datetime_to_smpp_time (Some (Relative t))
   = Ok (py_format_0d 2 (td_years t) ++ py_format_0d 2 (td_months t)
         ++ py_format_0d 2 (td_days t) ++ py_format_0d 2 (td_hours t)
         ++ py_format_0d 2 (td_minutes t) ++ py_format_0d 2 (td_seconds t)
         ++ "000R")%string
   /\ td_years t * 365 + td_months t * 30 + td_days t = days t
   /\ td_hours t * 3600 + td_minutes t * 60 + td_seconds t = seconds t
   /\ (timedelta_ok t -> 0 <= days t ->
       exists s, Sm.datetime_to_smpp_time (Some (Relative t)) = Ok s
                 /\ String.length s = 16%nat
                 /\ s = (two_digits (td_years t) ++ two_digits (td_months t)
                         ++ two_digits (td_days t) ++ two_digits (td_hours t)
                         ++ two_digits (td_minutes t)
                         ++ two_digits (td_seconds t) ++ "000R")%string))
  /\ (timedelta_gtb t (timedelta_weeks 63) = true ->
      Sm.datetime_to_smpp_time (Some (Relative t)) = Err ValidityOutOfRange)
  /\ Sm.datetime_to_smpp_time (Some (Relative two_days_and_more))
     = Ok "000002030405000R"
  /\ Sm.smpp_time_to_datetime ext "000002030405000R"
     = Ok (Some (Relative two_days_and_more)).
Proof.
  split; [| split; [| split]].
  - intros H63. split; [now apply relative_time_format |].
    destruct (decomposition_exact t) as [Ed Es].
    split; [exact Ed | split; [exact Es |]].
    intros Hok Hd. eexists. split; [now apply relative_time_digits |].
    split; reflexivity.
  - intros H. unfold Sm.datetime_to_smpp_time. now rewrite H.
  - reflexivity.
  - reflexivity.
Qed.

Lemma C4_relative_time_witness :
  Sm.datetime_to_smpp_time (Some (Relative (mk_timedelta 441 0 0)))
  = Ok "010216000000000R"
  /\ Sm.datetime_to_smpp_time (Some (Relative (mk_timedelta 441 0 1)))
     = Err ValidityOutOfRange.
Proof.
  split.
  - destruct (C4_relative_time Reference.externals (mk_timedelta 441 0 0))
      as [H _].
    destruct (H eq_refl) as [E _]. exact E.
  - destruct (C4_relative_time Reference.externals (mk_timedelta 441 0 1))
      as (_ & H & _).
    exact (H eq_refl).
Defined.

(* ------------------------------------------------------------------ *)
(** ** Bytes, integers and strings on the wire *)

Lemma Z_of_byte_range (b : byte) : 0 <= Z_of_byte b <= 255.
Proof.
  unfold Z_of_byte. pose proof (Byte.to_N_bounded b). lia.
Qed.

Lemma Z_of_byte_of_Z (n : Z) : 0 <= n <= 255 -> Z_of_byte (byte_of_Z n) = n.
Proof.
  intros Hn. unfold Z_of_byte, byte_of_Z.
  destruct (Byte.of_N (Z.to_N n)) as [b |] eqn:E.
  - apply Byte.to_of_N in E. rewrite E. lia.
  - apply Byte.of_N_None_iff in E. lia.
Qed.

Lemma byte_of_Z_of_byte (b : byte) : byte_of_Z (Z_of_byte b) = b.
Proof.
  unfold Z_of_byte, byte_of_Z. rewrite N2Z.id, Byte.of_to_N. reflexivity.
Qed.

Lemma pack_B_inv (n : Z) (bs : bytes) :
  pack_B n = Ok bs -> 0 <= n <= 255 /\ bs = [byte_of_Z n].
Proof.
  unfold pack_B. destruct ((0 <=? n) && (n <=? 255)) eqn:E; [| discriminate].
  intros [= <-]. apply andb_true_iff in E. split; [lia | reflexivity].
Qed.

Lemma pack_B_ok (n : Z) : 0 <= n <= 255 -> pack_B n = Ok [byte_of_Z n].
Proof.
  intros Hn. unfold pack_B.
  replace ((0 <=? n) && (n <=? 255)) with true; [reflexivity |].
  symmetry. apply andb_true_iff. split; apply Z.leb_le; lia.
Qed.

Lemma pack_H_inv (n : Z) (bs : bytes) :
  pack_H n = Ok bs ->
  0 <= n <= 65535 /\ bs = [byte_of_Z (n / 256); byte_of_Z (n mod 256)].
Proof.
  unfold pack_H. destruct ((0 <=? n) && (n <=? 65535)) eqn:E; [| discriminate].
  intros [= <-]. apply andb_true_iff in E. split; [lia | reflexivity].
Qed.

Lemma pack_I_inv (n : Z) (bs : bytes) :
  pack_I n = Ok bs ->
  0 <= n <= 4294967295
  /\ bs = [byte_of_Z (n / 16777216); byte_of_Z ((n / 65536) mod 256);
           byte_of_Z ((n / 256) mod 256); byte_of_Z (n mod 256)].
Proof.
  unfold pack_I.
  destruct ((0 <=? n) && (n <=? 4294967295)) eqn:E; [| discriminate].
  intros [= <-]. apply andb_true_iff in E. split; [lia | reflexivity].
Qed.

Lemma bind_inv {A B : Type} (r : result A) (k : A -> result B) (b : B) :
  bind r k = Ok b -> exists a, r = Ok a /\ k a = Ok b.
Proof.
  destruct r as [a | e]; cbn; [| discriminate]. intros H. now exists a.
Qed.

(** [pdu] holds [rest] from position [index] on. *)
Definition at_index (pdu : bytes) (index : nat) (rest : bytes) : Prop :=
  skipn index pdu = rest.

Lemma at_index_app (pdu : bytes) (i : nat) (a r : bytes) :
  at_index pdu i (a ++ r) -> at_index pdu (i + List.length a) r.
Proof.
  unfold at_index. intros H.
  rewrite Nat.add_comm, <- skipn_skipn, H, skipn_app, skipn_all, Nat.sub_diag.
  reflexivity.
Qed.

Lemma at_index_cons (pdu : bytes) (i : nat) (b : byte) (r : bytes) :
  at_index pdu i (b :: r) -> at_index pdu (i + 1) r.
Proof. intros H. exact (at_index_app pdu i [b] r H). Qed.

Lemma at_index_start (pre rest : bytes) :
  at_index (pre ++ rest) (List.length pre) rest.
Proof.
  unfold at_index. rewrite skipn_app, skipn_all, Nat.sub_diag. reflexivity.
Qed.

Lemma nth_error_at (pdu : bytes) (i : nat) (b : byte) (r : bytes) :
  at_index pdu i (b :: r) -> nth_error pdu i = Some b.
Proof.
  unfold at_index. intros H. rewrite <- hd_error_skipn, H. reflexivity.
Qed.

Lemma unpack_B_at (pdu : bytes) (i : nat) (b : byte) (r : bytes) :
  at_index pdu i (b :: r) -> unpack_B pdu i = Ok (Z_of_byte b).
Proof.
  intros H. unfold unpack_B. now rewrite (nth_error_at _ _ _ _ H).
Qed.

Lemma unpack_H_at (pdu : bytes) (i : nat) (n : Z) (r : bytes) :
  0 <= n <= 65535 ->
  at_index pdu i (byte_of_Z (n / 256) :: byte_of_Z (n mod 256) :: r) ->
  unpack_H pdu i = Ok n.
Proof.
  intros Hn H. unfold unpack_H.
  rewrite (nth_error_at _ _ _ _ H), (nth_error_at _ _ _ _ (at_index_cons _ _ _ _ H)).
  rewrite !Z_of_byte_of_Z.
  - f_equal. pose proof (Z.div_mod n 256). lia.
  - pose proof (Z.mod_pos_bound n 256). lia.
  - split; [apply Z.div_pos; lia |].
    assert (n / 256 < 256) by (apply Z.div_lt_upper_bound; lia). lia.
Qed.

Lemma unpack_I_at (pdu : bytes) (i : nat) (n : Z) (r : bytes) :
  0 <= n <= 4294967295 ->
  at_index pdu i (byte_of_Z (n / 16777216) :: byte_of_Z ((n / 65536) mod 256)
                  :: byte_of_Z ((n / 256) mod 256) :: byte_of_Z (n mod 256)
                  :: r) ->
  unpack_I pdu i = Ok n.
Proof.
  intros Hn H. unfold unpack_I.
  pose proof (at_index_cons _ _ _ _ H) as H1.
  pose proof (at_index_cons _ _ _ _ H1) as H2.
  pose proof (at_index_cons _ _ _ _ H2) as H3.
  replace (i + 1 + 1)%nat with (i + 2)%nat in H2 by lia.
  replace (i + 1 + 1 + 1)%nat with (i + 3)%nat in H3 by lia.
  rewrite (nth_error_at _ _ _ _ H), (nth_error_at _ _ _ _ H1),
    (nth_error_at _ _ _ _ H2), (nth_error_at _ _ _ _ H3).
  rewrite !Z_of_byte_of_Z.
  - f_equal.
    pose proof (Z.div_mod n 256). pose proof (Z.div_mod (n / 256) 256).
    pose proof (Z.div_mod (n / 65536) 256).
    replace (n / 65536) with (n / 256 / 256) in *
      by (rewrite Z.div_div by lia; reflexivity).
    replace (n / 16777216) with (n / 256 / 256 / 256)
      by (rewrite !Z.div_div by lia; reflexivity).
    lia.
  - pose proof (Z.mod_pos_bound n 256). lia.
  - pose proof (Z.mod_pos_bound (n / 256) 256). lia.
  - pose proof (Z.mod_pos_bound (n / 65536) 256). lia.
  - split; [apply Z.div_pos; lia |].
    assert (n / 16777216 < 256) by (apply Z.div_lt_upper_bound; lia). lia.
Qed.

Lemma get_integer_1_at (pdu : bytes) (i : nat) (n : Z) (r : bytes) :
  0 <= n <= 255 -> at_index pdu i (byte_of_Z n :: r) ->
  Sm.get_integer pdu 1 i = Ok (n, (i + 1)%nat).
Proof.
  intros Hn H. unfold Sm.get_integer. cbn [Z.eqb Pos.eqb].
  rewrite (unpack_B_at _ _ _ _ H), Z_of_byte_of_Z by assumption. reflexivity.
Qed.

(** A string without the character of code 0. *)
Fixpoint no_nul (s : string) : bool :=
  match s with
  | EmptyString => true
  | String c s' => negb (Ascii.eqb c zero) && no_nul s'
  end.

Lemma byte_of_ascii_not_nul (c : ascii) :
  Ascii.eqb c zero = false -> Byte.eqb (byte_of_ascii c) x00 = false.
Proof.
  intros H. destruct (Byte.eqb (byte_of_ascii c) x00) eqn:E; [| reflexivity].
  apply Byte.byte_dec_bl in E.
  apply (f_equal ascii_of_byte) in E. rewrite ascii_of_byte_of_ascii in E.
  subst c. discriminate.
Qed.

Lemma encode_ascii_length (s : string) (b : bytes) :
  encode_ascii s = Ok b -> List.length b = String.length s.
Proof.
  revert b. induction s as [| c s IH]; cbn; intros b H.
  - now inversion H.
  - destruct (N_of_ascii c <? 128)%N; [| discriminate].
    apply bind_inv in H. destruct H as (r & Hr & [= <-]).
    cbn. now rewrite (IH r).
Qed.

Lemma byte_of_ascii_to_N (c : ascii) : Byte.to_N (byte_of_ascii c) = N_of_ascii c.
Proof.
  pose proof (byte_of_ascii_via_N c) as H. symmetry in H.
  now apply Byte.to_of_N in H.
Qed.

Lemma decode_encode_ascii (s : string) (b : bytes) :
  encode_ascii s = Ok b -> decode_ascii b = Ok s.
Proof.
  revert b. induction s as [| c s IH]; cbn; intros b H.
  - now inversion H.
  - destruct (N_of_ascii c <? 128)%N eqn:E; [| discriminate].
    apply bind_inv in H. destruct H as (r & Hr & [= <-]).
    cbn. rewrite byte_of_ascii_to_N, E, (IH r Hr). cbn.
    now rewrite ascii_of_byte_of_ascii.
Qed.

Lemma bytes_find_encoded (s : string) (b r : bytes) (pos : nat) :
  encode_ascii s = Ok b -> no_nul s = true ->
  bytes_find (b ++ x00 :: r) x00 pos = Some (pos + List.length b)%nat.
Proof.
  revert b pos. induction s as [| c s IH]; cbn; intros b pos H Hn.
  - inversion H; subst. cbn. f_equal. lia.
  - destruct (N_of_ascii c <? 128)%N; [| discriminate].
    apply bind_inv in H. destruct H as (b' & Hb' & [= <-]).
    apply andb_true_iff in Hn. destruct Hn as [Hc Hn].
    apply negb_true_iff in Hc.
    cbn. rewrite (byte_of_ascii_not_nul c Hc), (IH b' (S pos) Hb' Hn).
    f_equal. lia.
Qed.

(** Reading a C-octet string that was written as its ASCII bytes and a
    NUL. *)
Lemma get_c_octet_string_at (pdu : bytes) (i : nat) (s : string)
                            (b r : bytes) :
  encode_ascii s = Ok b -> no_nul s = true ->
  at_index pdu i (b ++ x00 :: r) ->
  Sm.get_c_octet_string pdu i = Ok (s, (i + List.length b + 1)%nat).
Proof.
  intros Hb Hn H. unfold Sm.get_c_octet_string, bytes_index.
  rewrite H, (bytes_find_encoded s b r i Hb Hn). cbn [of_option bind].
  unfold slice. rewrite H.
  replace (i + List.length b - i)%nat with (List.length b + 0)%nat by lia.
  rewrite firstn_app_2. cbn [firstn]. rewrite app_nil_r.
  now rewrite (decode_encode_ascii s b Hb).
Qed.

Lemma at_index_c_octet (pdu : bytes) (i : nat) (b r : bytes) :
  at_index pdu i (b ++ x00 :: r) ->
  at_index pdu (i + List.length b + 1) r.
Proof.
  intros H. apply at_index_cons with (b := x00). now apply at_index_app.
Qed.

(* ------------------------------------------------------------------ *)
(** ** [BindTransceiverResp.from_pdu] and the interface version *)

(** A [bind_transceiver_resp] with an empty [system_id] and six bytes
    after its NUL: the five bytes of the version TLV and one more. *)
Definition resp_six_trailing : bytes :=
  [x00; x00; x00; x17; x80; x00; x00; x09; x00; x00; x00; x00;
   x00; x00; x00; x01;
   x00;
   x02; x10; x00; x01; x34; x00].

Definition resp_six_trailing_header : PduHeader.t :=
  PduHeader.mk 23 BIND_TRANSCEIVER_RESP ESME_ROK 1.

(** C8 as stated fails when the bytes after [system_id] are not exactly
    five. Here six remain: the header parsed from the PDU is the one given,
    the NUL of [system_id] is at 16, the byte after the 4-byte TLV header
    is 0x34, and [sc_interface_version] is [None]. *)
Lemma C8_counterexample :
  SmppMessage.parse_header Reference.externals
    (slice resp_six_trailing 0 PDU_HEADER_LENGTH)
  = Ok resp_six_trailing_header
  /\ bytes_index resp_six_trailing x00 PDU_HEADER_LENGTH = Ok 16%nat
  /\ Z.of_nat (16 + 1) < PduHeader.pdu_length resp_six_trailing_header
  /\ unpack_B resp_six_trailing (16 + 1 + 4) = Ok 0x34
  /\ BindTransceiverResp.from_pdu resp_six_trailing resp_six_trailing_header
     = Ok (BindTransceiverResp.mk ESME_ROK 1 "" None).
Proof. repeat split. Qed.

(** C8, amended: when [system_id] ends at [idx], the version is read, from
    position [idx + 5], exactly when the header announces [idx + 6] bytes,
    that is when five bytes remain after the NUL; with any other length
    the version is [None]. In particular a PDU that ends in
    [0x0210 0x0001 0x34] after the NUL gives version 0x34. *)
Theorem C8_version_read_when_five_bytes_remain
    (pdu : bytes) (header : PduHeader.t) (idx : nat) (system_id : string) :
  bytes_index pdu x00 PDU_HEADER_LENGTH = Ok idx ->
  decode_ascii (slice pdu PDU_HEADER_LENGTH idx) = Ok system_id ->
  (PduHeader.pdu_length header = Z.of_nat idx + 6 ->
   forall b, nth_error pdu (idx + 5) = Some b ->
   BindTransceiverResp.from_pdu pdu header
   = Ok (BindTransceiverResp.mk (PduHeader.command_status header)
           (PduHeader.sequence_num header) system_id (Some (Z_of_byte b))))
  /\ (PduHeader.pdu_length header <> Z.of_nat idx + 6 ->
      BindTransceiverResp.from_pdu pdu header
      = Ok (BindTransceiverResp.mk (PduHeader.command_status header)
              (PduHeader.sequence_num header) system_id None))
  /\ (forall tail,
        skipn (idx + 1) pdu = tail ->
        tail = [x02; x10; x00; x01; x34] ->
        PduHeader.pdu_length header = Z.of_nat (List.length pdu) ->
        BindTransceiverResp.from_pdu pdu header
        = Ok (BindTransceiverResp.mk (PduHeader.command_status header)
                (PduHeader.sequence_num header) system_id (Some 0x34))).
Proof.
  intros Hidx Hsid.
  assert (Hfive : PduHeader.pdu_length header = Z.of_nat idx + 6 ->
                  forall b, nth_error pdu (idx + 5) = Some b ->
                  BindTransceiverResp.from_pdu pdu header
                  = Ok (BindTransceiverResp.mk
                          (PduHeader.command_status header)
                          (PduHeader.sequence_num header) system_id
                          (Some (Z_of_byte b)))).
  { intros Hlen b Hb. unfold BindTransceiverResp.from_pdu.
    rewrite Hidx. cbn [bind]. rewrite Hsid. cbn [bind].
    replace (Z.of_nat (idx + 1) <? PduHeader.pdu_length header) with true
      by (symmetry; apply Z.ltb_lt; lia).
    replace (Z.of_nat (idx + 1 + 4) + 1 =? PduHeader.pdu_length header)
      with true by (symmetry; apply Z.eqb_eq; lia).
    unfold unpack_B.
    replace (idx + 1 + 4)%nat with (idx + 5)%nat by lia.
    rewrite Hb. reflexivity. }
  split; [exact Hfive | split].
  - intros Hlen. unfold BindTransceiverResp.from_pdu.
    rewrite Hidx. cbn [bind]. rewrite Hsid. cbn [bind].
    destruct (Z.of_nat (idx + 1) <? PduHeader.pdu_length header);
      [| reflexivity].
    replace (Z.of_nat (idx + 1 + 4) + 1 =? PduHeader.pdu_length header)
      with false by (symmetry; apply Z.eqb_neq; lia).
    reflexivity.
  - intros tail Htail -> Hlen.
    assert (Hl : List.length pdu = (idx + 6)%nat).
    { apply (f_equal (@List.length byte)) in Htail.
      rewrite length_skipn in Htail. cbn in Htail. lia. }
    apply (Hfive ltac:(lia) x34).
    replace (idx + 5)%nat with (idx + 1 + 4)%nat by lia.
    rewrite <- nth_error_skipn, Htail. reflexivity.
Qed.

Lemma C8_version_read_when_five_bytes_remain_witness :
  BindTransceiverResp.from_pdu
    [x00; x00; x00; x18; x80; x00; x00; x09; x00; x00; x00; x00;
     x00; x00; x00; x01;
     x53; x4d; x00;
     x02; x10; x00; x01; x34]
    (PduHeader.mk 24 BIND_TRANSCEIVER_RESP ESME_ROK 1)
  = Ok (BindTransceiverResp.mk ESME_ROK 1 "SM" (Some 0x34)).
Proof.
  refine (proj2 (proj2 (C8_version_read_when_five_bytes_remain
                          _ (PduHeader.mk 24 BIND_TRANSCEIVER_RESP ESME_ROK 1)
                          18%nat "SM" _ _)) _ _ _ _);
    reflexivity.
Defined.

(* ------------------------------------------------------------------ *)
(** ** The constructors of [Sm] and [SubmitSm] *)

(** The conditions on the text and the optional parameters under which
    the specification has the construction of an [Sm] fail. *)
Definition Sm_arguments_invalid (short_message message_payload : string)
                                (optional_params : list OptionalParam)
  : Prop :=
  (short_message <> "" /\ message_payload <> "")
  \/ (short_message = "" /\ message_payload = "")
  \/ (exists p, In p optional_params /\ tag p = MESSAGE_PAYLOAD).

Lemma str_empty_true (s : string) : str_empty s = true <-> s = "".
Proof. destruct s; cbn; split; congruence. Qed.

Lemma str_empty_false (s : string) : str_empty s = false <-> s <> "".
Proof. destruct s; cbn; split; congruence. Qed.

Lemma check_optional_params_ok (ops : list OptionalParam) :
  (forall p, In p ops -> tag p <> MESSAGE_PAYLOAD) ->
  Sm.check_optional_params ops = Ok tt.
Proof.
  induction ops as [| p ops IH]; cbn; intros H; [reflexivity |].
  destruct (tag p =? MESSAGE_PAYLOAD) eqn:E.
  - apply Z.eqb_eq in E. exfalso. apply (H p); auto.
  - apply IH. intros q Hq. apply H. now right.
Qed.

Lemma check_optional_params_err (ops : list OptionalParam) :
  (exists p, In p ops /\ tag p = MESSAGE_PAYLOAD) ->
  exists msg, Sm.check_optional_params ops = Err (InvalidArgument msg).
Proof.
  induction ops as [| p ops IH]; cbn; intros (q & Hq & Ht); [contradiction |].
  destruct (tag p =? MESSAGE_PAYLOAD) eqn:E; [eexists; reflexivity |].
  apply IH. exists q. split; [| assumption].
  destruct Hq as [-> | Hq]; [| assumption].
  apply Z.eqb_neq in E. contradiction.
Qed.

Lemma has_payload_tag_dec (ops : list OptionalParam) :
  (exists p, In p ops /\ tag p = MESSAGE_PAYLOAD)
  \/ (forall p, In p ops -> tag p <> MESSAGE_PAYLOAD).
Proof.
  induction ops as [| p ops [IH | IH]].
  - right. intros p [].
  - left. destruct IH as (q & Hq & Ht). exists q. split; [now right | easy].
  - destruct (Z.eq_dec (tag p) MESSAGE_PAYLOAD) as [E | E].
    + left. exists p. split; [now left | easy].
    + right. intros q [<- | Hq]; auto.
Qed.

Lemma Sm_arguments_invalid_dec (sm mp : string) (ops : list OptionalParam) :
  Sm_arguments_invalid sm mp ops \/ ~ Sm_arguments_invalid sm mp ops.
Proof.
  unfold Sm_arguments_invalid.
  destruct (has_payload_tag_dec ops) as [H | H]; [tauto |].
  destruct sm, mp.
  - left. right. left. now split.
  - right. intros [[A B] | [[A B] | (p & Hp & Ht)]];
      [congruence | congruence | exact (H p Hp Ht)].
  - right. intros [[A B] | [[A B] | (p & Hp & Ht)]];
      [congruence | congruence | exact (H p Hp Ht)].
  - left. left. split; congruence.
Qed.

(** What [Sm.__init__] does on each side of the conditions. *)
Lemma Sm_init_cases
    (short_message : string) (source destination : PhoneNumber)
    (service_type : string) (esm_class protocol_id priority_flag : Z)
    (schedule_delivery_time validity_period : option time_object)
    (registered_delivery replace_if_present_flag : Z)
    (encoding : option string) (sm_default_msg_id : Z)
    (message_payload : string) (optional_params : list OptionalParam)
    (auto_message_payload : bool) (error_handling : string)
    (sequence_num : Z) (log_id extra_data : string) :
  (Sm_arguments_invalid short_message message_payload optional_params ->
   exists msg,
     Sm.__init__ short_message source destination service_type esm_class
       protocol_id priority_flag schedule_delivery_time validity_period
       registered_delivery replace_if_present_flag encoding
       sm_default_msg_id message_payload optional_params
       auto_message_payload error_handling sequence_num log_id extra_data
     = Err (InvalidArgument msg))
  /\ (~ Sm_arguments_invalid short_message message_payload optional_params ->
      Sm.__init__ short_message source destination service_type esm_class
        protocol_id priority_flag schedule_delivery_time validity_period
        registered_delivery replace_if_present_flag encoding
        sm_default_msg_id message_payload optional_params
        auto_message_payload error_handling sequence_num log_id extra_data
      = Ok (Sm.mk ESME_ROK sequence_num short_message source destination
              service_type esm_class protocol_id priority_flag
              schedule_delivery_time validity_period registered_delivery
              replace_if_present_flag encoding sm_default_msg_id
              message_payload optional_params auto_message_payload
              error_handling log_id extra_data "" None)).
Proof.
  unfold Sm.__init__, Sm_arguments_invalid. split.
  - destruct (has_payload_tag_dec optional_params) as [H | H].
    + intros _. destruct (check_optional_params_err _ H) as (msg & ->).
      now exists msg.
    + rewrite (check_optional_params_ok _ H). cbn [bind].
      intros [[H1 H2] | [[-> ->] | (p & Hp & Ht)]].
      * apply str_empty_false in H1, H2. rewrite H1, H2. cbn.
        eexists; reflexivity.
      * cbn. eexists; reflexivity.
      * exfalso. exact (H p Hp Ht).
  - intros Hv.
    rewrite check_optional_params_ok
      by (intros p Hp Ht; apply Hv; right; right; now exists p).
    cbn [bind].
    destruct short_message, message_payload; cbn; try reflexivity;
      exfalso; apply Hv; [right; left | left]; split; congruence.
Qed.

Lemma receipt_text_error (r : receipt_dict) (e : error) :
  DeliverSm.receipt_text r = Err e -> e = TypeError.
Proof.
  unfold DeliverSm.receipt_text, DeliverSm.get_str, DeliverSm.get_int,
    DeliverSm.get_date_str.
  repeat match goal with
         | |- context [dict_get r ?k] =>
             destruct (dict_get r k) as [[? | ? | ? | ?] |];
             cbn [bind]; try congruence
         end.
Qed.

(** C9: the construction of an [Sm] fails exactly when the text and the
    payload are both given, or both empty, or the optional parameters hold
    a [MESSAGE_PAYLOAD] tag; the construction of a [SubmitSm] fails exactly
    then or when [log_id] is empty; a [DeliverSm] is refused for its
    arguments exactly as an [Sm] is. Every such failure is an
    invalid-argument error, and a construction that meets none of the
    conditions returns the object with the fields as given. *)
Theorem C9_constructor_fails_exactly_when
    (short_message : string) (source destination : PhoneNumber)
    (service_type : string) (esm_class protocol_id priority_flag : Z)
    (schedule_delivery_time validity_period : option time_object)
    (registered_delivery replace_if_present_flag : Z)
    (encoding : option string) (sm_default_msg_id : Z)
    (message_payload : string) (optional_params : list OptionalParam)
    (auto_message_payload : bool) (error_handling : string)
    (sequence_num : Z) (log_id extra_data : string)
    (receipt : option receipt_dict) :
  let invalid :=
    Sm_arguments_invalid short_message message_payload optional_params in
  let Sm_object :=
    Sm.__init__ short_message source destination service_type esm_class
      protocol_id priority_flag schedule_delivery_time validity_period
      registered_delivery replace_if_present_flag encoding sm_default_msg_id
      message_payload optional_params auto_message_payload error_handling
      sequence_num log_id extra_data in
  let SubmitSm_object :=
    SubmitSm.__init__ short_message source destination service_type esm_class
      protocol_id priority_flag schedule_delivery_time validity_period
      registered_delivery replace_if_present_flag encoding sm_default_msg_id
      message_payload optional_params auto_message_payload error_handling
      sequence_num log_id extra_data in
  let DeliverSm_object :=
    DeliverSm.__init__ short_message source destination service_type
      esm_class protocol_id priority_flag schedule_delivery_time
      validity_period registered_delivery replace_if_present_flag encoding
      sm_default_msg_id message_payload optional_params auto_message_payload
      error_handling sequence_num log_id extra_data receipt in
  let fields :=
    Sm.mk ESME_ROK sequence_num short_message source destination
      service_type esm_class protocol_id priority_flag
      schedule_delivery_time validity_period registered_delivery
      replace_if_present_flag encoding sm_default_msg_id message_payload
      optional_params auto_message_payload error_handling log_id extra_data
      "" None in
  ((exists msg, Sm_object = Err (InvalidArgument msg)) <-> invalid)
  /\ (forall e, Sm_object = Err e -> exists msg, e = InvalidArgument msg)
  /\ (~ invalid -> Sm_object = Ok fields)
  /\ ((exists msg, SubmitSm_object = Err (InvalidArgument msg))
      <-> (log_id = "" \/ invalid))
  /\ (forall e, SubmitSm_object = Err e -> exists msg, e = InvalidArgument msg)
  /\ (~ (log_id = "" \/ invalid) -> SubmitSm_object = Ok fields)
  /\ ((exists msg, DeliverSm_object = Err (InvalidArgument msg)) <-> invalid).
Proof.
  intros invalid Sm_object SubmitSm_object DeliverSm_object fields.
  destruct (Sm_init_cases short_message source destination service_type
              esm_class protocol_id priority_flag schedule_delivery_time
              validity_period registered_delivery replace_if_present_flag
              encoding sm_default_msg_id message_payload optional_params
              auto_message_payload error_handling sequence_num log_id
              extra_data) as [Hbad Hgood].
  fold invalid Sm_object fields in Hbad, Hgood.
  assert (Hiff : (exists msg, Sm_object = Err (InvalidArgument msg))
                 <-> invalid).
  { split; [| exact Hbad].
    intros (msg & Hm).
    destruct (Sm_arguments_invalid_dec short_message message_payload
                optional_params) as [H | H]; [exact H |].
    rewrite (Hgood H) in Hm. discriminate. }
  assert (Herr : forall e, Sm_object = Err e ->
                           exists msg, e = InvalidArgument msg).
  { intros e He.
    destruct (Sm_arguments_invalid_dec short_message message_payload
                optional_params) as [H | H].
    - destruct (Hbad H) as (msg & Hm). exists msg. congruence.
    - rewrite (Hgood H) in He. discriminate. }
  repeat split.
  - apply Hiff.
  - apply Hiff.
  - exact Herr.
  - exact Hgood.
  - intros (msg & Hm). subst SubmitSm_object. unfold SubmitSm.__init__ in Hm.
    destruct (str_empty log_id) eqn:E.
    + left. now apply str_empty_true.
    + right. apply Hiff. now exists msg.
  - intros [-> | H]; subst SubmitSm_object; unfold SubmitSm.__init__.
    + cbn. eexists; reflexivity.
    + destruct (str_empty log_id); [eexists; reflexivity | now apply Hbad].
  - intros e He. subst SubmitSm_object. unfold SubmitSm.__init__ in He.
    destruct (str_empty log_id); [| now apply Herr].
    inversion He. eexists; reflexivity.
  - intros H. subst SubmitSm_object. unfold SubmitSm.__init__.
    replace (str_empty log_id) with false
      by (symmetry; apply str_empty_false; tauto).
    apply Hgood. tauto.
  - intros (msg & Hm). subst DeliverSm_object. unfold DeliverSm.__init__ in Hm.
    destruct (Sm_arguments_invalid_dec short_message message_payload
                optional_params) as [H | H]; [exact H | exfalso].
    destruct (Sm_init_cases short_message source destination service_type
                (if DeliverSm.receipt_given receipt then 4 else esm_class)
                protocol_id priority_flag schedule_delivery_time
                validity_period registered_delivery replace_if_present_flag
                encoding sm_default_msg_id message_payload optional_params
                auto_message_payload error_handling sequence_num log_id
                extra_data) as [_ Hg].
    rewrite (Hg H) in Hm. cbn [bind] in Hm.
    destruct receipt as [[| kv r] |]; try discriminate.
    destruct (str_empty short_message); try discriminate.
    destruct (DeliverSm.receipt_text (kv :: r)) eqn:E; cbn [bind] in Hm;
      [discriminate |].
    apply receipt_text_error in E. congruence.
  - intros H. subst DeliverSm_object. unfold DeliverSm.__init__.
    destruct (Sm_init_cases short_message source destination service_type
                (if DeliverSm.receipt_given receipt then 4 else esm_class)
                protocol_id priority_flag schedule_delivery_time
                validity_period registered_delivery replace_if_present_flag
                encoding sm_default_msg_id message_payload optional_params
                auto_message_payload error_handling sequence_num log_id
                extra_data) as [Hb _].
    destruct (Hb H) as (msg & ->). now exists msg.
Qed.

(* ------------------------------------------------------------------ *)
(** ** The layout of an [Sm] PDU *)

Ltac bind_inversion H :=
  repeat match type of H with
         | bind ?r ?k = Ok _ =>
             let x := fresh "x" in
             let Hx := fresh "Hx" in
             apply bind_inv in H; destruct H as (x & Hx & H)
         end.

(** The body of an [Sm] from [service_type] to [replace_if_present_flag],
    the fields that come before [data_coding]. *)
Definition Sm_body_head (self : Sm.t) : result bytes :=
  b1 <- encode_ascii (Sm.service_type self) ;;
  b2 <- pack_BB (ton (Sm.source self)) (npi (Sm.source self)) ;;
  b3 <- encode_ascii (number (Sm.source self)) ;;
  b4 <- pack_BB (ton (Sm.destination self)) (npi (Sm.destination self)) ;;
  b5 <- encode_ascii (number (Sm.destination self)) ;;
  b6 <- pack_BBB (Sm.esm_class self) (Sm.protocol_id self)
                 (Sm.priority_flag self) ;;
  t1 <- Sm.datetime_to_smpp_time (Sm.schedule_delivery_time self) ;;
  b7 <- encode_ascii t1 ;;
  t2 <- Sm.datetime_to_smpp_time (Sm.validity_period self) ;;
  b8 <- encode_ascii t2 ;;
  b9 <- pack_BB (Sm.registered_delivery self)
                (Sm.replace_if_present_flag self) ;;
  Ok (b1 ++ NULL ++ b2 ++ b3 ++ NULL ++ b4 ++ b5 ++ NULL ++ b6
      ++ b7 ++ NULL ++ b8 ++ NULL ++ b9).

(** The TLVs of the optional parameters, in order. *)
Definition Sm_params_tlvs (ext : Externals) (self : Sm.t) : result bytes :=
  join_results (map (OptionalParam_tlv ext) (Sm.optional_params self)).

(** The text that [pdu] encodes: [short_message or message_payload]. *)
Definition Sm_text (self : Sm.t) : string :=
  if str_empty (Sm.short_message self) then Sm.message_payload self
  else Sm.short_message self.

(** The condition of the length check of [pdu], on the encoded text. *)
Definition too_long (self : Sm.t) (sm_bytes : bytes) : bool :=
  (254 <? List.length sm_bytes)%nat && negb (str_empty (Sm.short_message self))
  && negb (Sm.auto_message_payload self).

(** The condition under which [pdu] moves the text to the TLV. *)
Definition promoted (self : Sm.t) (sm_bytes : bytes) : bool :=
  (254 <? List.length sm_bytes)%nat
  || negb (str_empty (Sm.message_payload self)).

(** A PDU laid out as an [Sm]: header, head of the body, the three bytes
    [data_coding], [sm_default_msg_id], [sm_length], then the inline text,
    the payload TLV and the TLVs of the optional parameters. *)
Definition Sm_layout (ext : Externals) (smpp_command : Z) (self : Sm.t)
                     (data_coding : Z) (sm_length : nat)
                     (short payload : bytes) (data : bytes) : Prop :=
  exists header head tlvs,
    Sm_body_head self = Ok head
    /\ Sm_params_tlvs ext self = Ok tlvs
    /\ SmppMessage.pack_header smpp_command (Sm.command_status self)
         (Sm.sequence_num self) (Z.of_nat (List.length data)) = Ok header
    /\ 0 <= data_coding <= 255
    /\ 0 <= Sm.sm_default_msg_id self <= 255
    /\ (sm_length <= 255)%nat
    /\ data = header ++ head
              ++ [byte_of_Z data_coding;
                  byte_of_Z (Sm.sm_default_msg_id self);
                  byte_of_Z (Z.of_nat sm_length)]
              ++ short ++ payload ++ tlvs.

Lemma pack_header_length (c s n len : Z) (header : bytes) :
  SmppMessage.pack_header c s n len = Ok header ->
  List.length header = 16%nat.
Proof.
  unfold SmppMessage.pack_header. intros H. bind_inversion H.
  inversion H; subst.
  repeat match goal with
         | E : pack_I _ = Ok _ |- _ =>
             apply pack_I_inv in E; destruct E as [_ ->]
         end.
  reflexivity.
Qed.

Lemma pack_BBB_inv (a b c : Z) (bs : bytes) :
  pack_BBB a b c = Ok bs ->
  0 <= a <= 255 /\ 0 <= b <= 255 /\ 0 <= c <= 255
  /\ bs = [byte_of_Z a; byte_of_Z b; byte_of_Z c].
Proof.
  unfold pack_BBB. intros H. bind_inversion H. inversion H; subst.
  repeat match goal with
         | E : pack_B _ = Ok _ |- _ =>
             apply pack_B_inv in E; destruct E as [? ->]
         end.
  repeat split; try lia.
Qed.

Lemma pack_BB_inv (a b : Z) (bs : bytes) :
  pack_BB a b = Ok bs ->
  0 <= a <= 255 /\ 0 <= b <= 255 /\ bs = [byte_of_Z a; byte_of_Z b].
Proof.
  unfold pack_BB. intros H. bind_inversion H. inversion H; subst.
  repeat match goal with
         | E : pack_B _ = Ok _ |- _ =>
             apply pack_B_inv in E; destruct E as [? ->]
         end.
  repeat split; try lia.
Qed.

(** [pdu] from the length check on, given the encoded text and the data
    coding: what it returns has the layout, with the text inline or in the
    TLV. *)
Lemma Sm_pdu_layout (ext : Externals) (smpp_command : Z) (self self' : Sm.t)
                    (sm_bytes : bytes) (dc : Z) (data : bytes)
                    (self'' : Sm.t) :
  Sm.smpp_encode ext self (Sm_text self) = Ok (sm_bytes, self') ->
  Sm.data_coding_of ext (Sm.encoding self') = Ok dc ->
  Sm.pdu ext smpp_command self = Ok (data, self'') ->
  self'' = self'
  /\ too_long self' sm_bytes = false
  /\ (promoted self' sm_bytes = true ->
      exists hh, pack_HH MESSAGE_PAYLOAD (Z.of_nat (List.length sm_bytes))
                 = Ok hh
                 /\ Sm_layout ext smpp_command self' dc 0 [] (hh ++ sm_bytes)
                              data)
  /\ (promoted self' sm_bytes = false ->
      Sm_layout ext smpp_command self' dc (List.length sm_bytes) sm_bytes []
                data).
Proof.
  intros Henc Hdc H. unfold Sm.pdu in H. fold (Sm_text self) in H.
  rewrite Henc in H. cbn [bind] in H. rewrite Hdc in H. cbn [bind] in H.
  fold (too_long self' sm_bytes) in H. fold (promoted self' sm_bytes) in H.
  destruct (too_long self' sm_bytes); [discriminate |].
  assert (Hlay : forall n short payload,
    (b1 <- encode_ascii (Sm.service_type self') ;;
     b2 <- pack_BB (ton (Sm.source self')) (npi (Sm.source self')) ;;
     b3 <- encode_ascii (number (Sm.source self')) ;;
     b4 <- pack_BB (ton (Sm.destination self')) (npi (Sm.destination self')) ;;
     b5 <- encode_ascii (number (Sm.destination self')) ;;
     b6 <- pack_BBB (Sm.esm_class self') (Sm.protocol_id self')
                    (Sm.priority_flag self') ;;
     t1 <- Sm.datetime_to_smpp_time (Sm.schedule_delivery_time self') ;;
     b7 <- encode_ascii t1 ;;
     t2 <- Sm.datetime_to_smpp_time (Sm.validity_period self') ;;
     b8 <- encode_ascii t2 ;;
     b9 <- pack_BB (Sm.registered_delivery self')
                   (Sm.replace_if_present_flag self') ;;
     b10 <- pack_BBB dc (Sm.sm_default_msg_id self') (Z.of_nat n) ;;
     b11 <- join_results (map (OptionalParam_tlv ext)
                              (Sm.optional_params self')) ;;
     (let body :=
        b1 ++ NULL ++ b2 ++ b3 ++ NULL ++ b4 ++ b5 ++ NULL ++ b6
        ++ b7 ++ NULL ++ b8 ++ NULL ++ b9 ++ b10
        ++ short ++ payload ++ b11 in
      header <- SmppMessage.pack_header smpp_command
                  (Sm.command_status self') (Sm.sequence_num self')
                  (Z.of_nat (PDU_HEADER_LENGTH + List.length body)) ;;
      Ok (header ++ body, self'))) = Ok (data, self'') ->
    self'' = self'
    /\ Sm_layout ext smpp_command self' dc n short payload data).
  { clear H. intros n short payload H. bind_inversion H.
    cbv zeta in H. bind_inversion H. inversion H; subst data self''; clear H.
    split; [reflexivity |].
    match goal with
    | E : pack_BBB dc _ _ = Ok _ |- _ =>
        apply pack_BBB_inv in E; destruct E as (? & ? & ? & ->)
    end.
    match goal with
    | E : SmppMessage.pack_header _ _ _ _ = Ok ?h |- _ =>
        pose proof (pack_header_length _ _ _ _ _ E) as Hlen; exists h
    end.
    eexists; eexists.
    unfold Sm_body_head, Sm_params_tlvs.
    repeat match goal with
           | E : ?r = Ok _ |- context [?r] => rewrite E; cbn [bind]
           end.
    split; [reflexivity |]. split; [reflexivity |].
    split.
    { match goal with
      | E : SmppMessage.pack_header _ _ _ ?l = Ok ?h
        |- SmppMessage.pack_header _ _ _ ?l' = Ok ?h =>
          replace l' with l; [exact E |];
          rewrite (length_app h), Hlen; reflexivity
      end. }
    split; [lia |]. split; [lia |]. split; [lia |].
    unfold NULL. repeat rewrite <- app_assoc. reflexivity. }
  destruct (promoted self' sm_bytes).
  - bind_inversion H. cbn [bind] in H.
    match goal with
    | E : bind (pack_HH _ _) _ = Ok _ |- _ =>
        apply bind_inv in E; destruct E as (hh & Ehh & E); inversion E; subst
    end.
    destruct (Hlay _ _ _ H) as [-> Hl].
    repeat split; try discriminate.
    intros _. exists hh. split; assumption.
  - cbn [bind] in H. destruct (Hlay _ _ _ H) as [-> Hl].
    repeat split; try discriminate. intros _. exact Hl.
Qed.

(** The exceptions of the steps of [pdu] after the length check. *)
Lemma pack_B_err (n : Z) (e : error) : pack_B n = Err e -> e = StructError.
Proof. unfold pack_B. destruct (_ && _); congruence. Qed.

Lemma pack_H_err (n : Z) (e : error) : pack_H n = Err e -> e = StructError.
Proof. unfold pack_H. destruct (_ && _); congruence. Qed.

Lemma pack_I_err (n : Z) (e : error) : pack_I n = Err e -> e = StructError.
Proof. unfold pack_I. destruct (_ && _); congruence. Qed.

Lemma pack_BB_err (a b : Z) (e : error) :
  pack_BB a b = Err e -> e = StructError.
Proof.
  unfold pack_BB.
  destruct (pack_B a) eqn:Ea; cbn [bind]; [| intros [= <-]; eauto using pack_B_err].
  destruct (pack_B b) eqn:Eb; cbn [bind]; [discriminate |].
  intros [= <-]; eauto using pack_B_err.
Qed.

Lemma pack_BBB_err (a b c : Z) (e : error) :
  pack_BBB a b c = Err e -> e = StructError.
Proof.
  unfold pack_BBB.
  destruct (pack_B a) eqn:Ea; cbn [bind]; [| intros [= <-]; eauto using pack_B_err].
  destruct (pack_B b) eqn:Eb; cbn [bind]; [| intros [= <-]; eauto using pack_B_err].
  destruct (pack_B c) eqn:Ec; cbn [bind]; [discriminate |].
  intros [= <-]; eauto using pack_B_err.
Qed.

Lemma pack_HH_err (a b : Z) (e : error) :
  pack_HH a b = Err e -> e = StructError.
Proof.
  unfold pack_HH.
  destruct (pack_H a) eqn:Ea; cbn [bind]; [| intros [= <-]; eauto using pack_H_err].
  destruct (pack_H b) eqn:Eb; cbn [bind]; [discriminate |].
  intros [= <-]; eauto using pack_H_err.
Qed.

Lemma pack_header_err (c s n len : Z) (e : error) :
  SmppMessage.pack_header c s n len = Err e -> e = StructError.
Proof.
  unfold SmppMessage.pack_header.
  repeat match goal with
         | |- context [bind (pack_I ?x) _] =>
             let E := fresh "E" in
             destruct (pack_I x) eqn:E; cbn [bind];
             [| intros [= <-]; eauto using pack_I_err]
         end.
  discriminate.
Qed.

Lemma encode_ascii_err (s : string) (e : error) :
  encode_ascii s = Err e -> e = EncodingFailure.
Proof.
  induction s as [| c s IH]; cbn; [discriminate |].
  destruct (N_of_ascii c <? 128)%N; [| congruence].
  destruct (encode_ascii s); cbn [bind]; [discriminate |].
  intros [= <-]. now apply IH.
Qed.

Lemma datetime_to_smpp_time_err (x : option time_object) (e : error) :
  Sm.datetime_to_smpp_time x = Err e -> e = ValidityOutOfRange.
Proof.
  unfold Sm.datetime_to_smpp_time.
  destruct x as [[x | t] |]; try discriminate.
  - destruct (tzinfo x) as [[[o |]] |]; cbn [utcoffset]; try discriminate.
    destruct (timedelta_is_zero o); discriminate.
  - destruct (timedelta_gtb t (timedelta_weeks 63)); congruence.
Qed.

Lemma join_results_err {A : Type} (f : A -> result bytes) (l : list A)
                       (e : error) :
  join_results (map f l) = Err e -> exists p, In p l /\ f p = Err e.
Proof.
  induction l as [| p l IH]; cbn; [discriminate |].
  destruct (f p) eqn:Ep; cbn [bind].
  - destruct (join_results (map f l)); cbn [bind]; [discriminate |].
    intros [= <-]. destruct (IH eq_refl) as (q & Hq & Eq). eauto.
  - intros [= <-]. eauto.
Qed.

(** [smpp_encode] leaves [self] as it is or sets its [encoding] to
    [ucs2]. *)
Lemma smpp_encode_self (ext : Externals) (self self' : Sm.t) (text : string)
                       (b : bytes) :
  Sm.smpp_encode ext self text = Ok (b, self') ->
  self' = self \/ self' = Sm.set_encoding self (Some "ucs2").
Proof.
  unfold Sm.smpp_encode. intros H.
  repeat match type of H with
         | match ?x with _ => _ end = _ => destruct x; try discriminate
         end;
    bind_inversion H; inversion H; auto.
Qed.

Lemma smpp_encode_fields (ext : Externals) (self self' : Sm.t) (text : string)
                         (b : bytes) :
  Sm.smpp_encode ext self text = Ok (b, self') ->
  Sm.short_message self' = Sm.short_message self
  /\ Sm.message_payload self' = Sm.message_payload self
  /\ Sm.auto_message_payload self' = Sm.auto_message_payload self.
Proof.
  intros H. destruct (smpp_encode_self _ _ _ _ _ H) as [-> | ->]; now cbn.
Qed.

(** The steps of [pdu] after the length check succeed when every field
    fits its place on the wire. *)
Lemma Sm_pdu_returns (ext : Externals) (smpp_command : Z) (self self' : Sm.t)
                     (sm_bytes : bytes) (dc : Z) (head tlvs : bytes) :
  Sm.smpp_encode ext self (Sm_text self) = Ok (sm_bytes, self') ->
  Sm.data_coding_of ext (Sm.encoding self') = Ok dc ->
  too_long self' sm_bytes = false ->
  Sm_body_head self' = Ok head ->
  Sm_params_tlvs ext self' = Ok tlvs ->
  0 <= dc <= 255 ->
  0 <= Sm.sm_default_msg_id self' <= 255 ->
  Z.of_nat (List.length sm_bytes) <= 65535 ->
  0 <= smpp_command <= 4294967295 ->
  0 <= Sm.command_status self' <= 4294967295 ->
  0 <= Sm.sequence_num self' <= 4294967295 ->
  Z.of_nat (23 + List.length head + List.length sm_bytes + List.length tlvs)
  <= 4294967295 ->
  exists data, Sm.pdu ext smpp_command self = Ok (data, self').
Proof.
  intros Henc Hdc Hlong Hhead Htlvs Hdc_r Hdmi Hlen Hc Hs Hn Htot.
  unfold Sm.pdu. fold (Sm_text self). rewrite Henc. cbn [bind].
  rewrite Hdc. cbn [bind].
  fold (too_long self' sm_bytes). fold (promoted self' sm_bytes).
  rewrite Hlong.
  unfold Sm_body_head in Hhead. bind_inversion Hhead.
  unfold Sm_params_tlvs in Htlvs.
  assert (Hpack : forall len, 0 <= len <= 4294967295 ->
            exists h, SmppMessage.pack_header smpp_command
                        (Sm.command_status self') (Sm.sequence_num self') len
                      = Ok h).
  { intros len Hl. unfold SmppMessage.pack_header, pack_I.
    repeat match goal with
           | |- context [(0 <=? ?x) && (?x <=? 4294967295)] =>
               replace ((0 <=? x) && (x <=? 4294967295)) with true
                 by (symmetry; apply andb_true_iff; split; apply Z.leb_le; lia)
           end.
    cbn [bind]. eexists; reflexivity. }
  assert (Hhl : List.length head
                = (List.length x + 1 + List.length x0 + List.length x1 + 1
                   + List.length x2 + List.length x3 + 1 + List.length x4
                   + List.length x6 + 1 + List.length x8 + 1
                   + List.length x9)%nat).
  { inversion Hhead; subst head. unfold NULL.
    repeat (rewrite length_app || cbn [List.length]). lia. }
  assert (Hfin : forall n short payload,
            0 <= Z.of_nat n <= 255 ->
            (List.length short + List.length payload
             <= List.length sm_bytes + 4)%nat ->
            exists data,
              (b1 <- encode_ascii (Sm.service_type self') ;;
               b2 <- pack_BB (ton (Sm.source self')) (npi (Sm.source self')) ;;
               b3 <- encode_ascii (number (Sm.source self')) ;;
               b4 <- pack_BB (ton (Sm.destination self'))
                             (npi (Sm.destination self')) ;;
               b5 <- encode_ascii (number (Sm.destination self')) ;;
               b6 <- pack_BBB (Sm.esm_class self') (Sm.protocol_id self')
                              (Sm.priority_flag self') ;;
               t1 <- Sm.datetime_to_smpp_time (Sm.schedule_delivery_time self') ;;
               b7 <- encode_ascii t1 ;;
               t2 <- Sm.datetime_to_smpp_time (Sm.validity_period self') ;;
               b8 <- encode_ascii t2 ;;
               b9 <- pack_BB (Sm.registered_delivery self')
                             (Sm.replace_if_present_flag self') ;;
               b10 <- pack_BBB dc (Sm.sm_default_msg_id self') (Z.of_nat n) ;;
               b11 <- join_results (map (OptionalParam_tlv ext)
                                        (Sm.optional_params self')) ;;
               (let body :=
                  b1 ++ NULL ++ b2 ++ b3 ++ NULL ++ b4 ++ b5 ++ NULL ++ b6
                  ++ b7 ++ NULL ++ b8 ++ NULL ++ b9 ++ b10
                  ++ short ++ payload ++ b11 in
                header <- SmppMessage.pack_header smpp_command
                            (Sm.command_status self') (Sm.sequence_num self')
                            (Z.of_nat (PDU_HEADER_LENGTH + List.length body)) ;;
                Ok (header ++ body, self'))) = Ok (data, self')).
  { intros n short payload Hn' Hsp.
    repeat match goal with
           | E : ?r = Ok _ |- context [?r] => rewrite E; cbn [bind]
           end.
    unfold pack_BBB. rewrite !pack_B_ok by lia. cbn [bind].
    cbv zeta.
    match goal with
    | |- context [SmppMessage.pack_header _ _ _ ?l] =>
        destruct (Hpack l) as (h & ->)
    end.
    - unfold PDU_HEADER_LENGTH, NULL.
      repeat (rewrite length_app || cbn [List.length]). lia.
    - cbn [bind]. eexists; reflexivity. }
  destruct (promoted self' sm_bytes) eqn:Ep.
  - unfold pack_HH, pack_H.
    replace ((0 <=? MESSAGE_PAYLOAD) && (MESSAGE_PAYLOAD <=? 65535)) with true
      by reflexivity.
    replace ((0 <=? Z.of_nat (List.length sm_bytes))
             && (Z.of_nat (List.length sm_bytes) <=? 65535)) with true
      by (symmetry; apply andb_true_iff; split; apply Z.leb_le; lia).
    cbn [bind].
    apply Hfin; [lia |].
    repeat (rewrite length_app || cbn [List.length app]). lia.
  - cbn [bind]. unfold promoted in Ep. apply orb_false_iff in Ep.
    destruct Ep as [Ep _]. apply Nat.ltb_ge in Ep.
    apply Hfin; [lia |]. cbn [List.length]. lia.
Qed.

(* ------------------------------------------------------------------ *)
(** ** The length check and the [MESSAGE_PAYLOAD] TLV *)

Lemma bind_err_inv {A B : Type} (r : result A) (k : A -> result B)
                    (e : error) :
  bind r k = Err e -> r = Err e \/ exists a, r = Ok a /\ k a = Err e.
Proof.
  destruct r as [a | e']; cbn; intros H.
  - right. now exists a.
  - left. congruence.
Qed.

(** The steps of [pdu] after the length check do not raise
    [ShortMessageTooLong], provided the TLV serialiser of [state.py] does
    not. *)
Lemma Sm_pdu_tail_not_too_long
    (ext : Externals) (smpp_command : Z) (self' : Sm.t) (dc : Z) (n k : nat)
    (short payload : bytes) :
  (forall p m, OptionalParam_tlv ext p <> Err (ShortMessageTooLong m)) ->
  (b1 <- encode_ascii (Sm.service_type self') ;;
   b2 <- pack_BB (ton (Sm.source self')) (npi (Sm.source self')) ;;
   b3 <- encode_ascii (number (Sm.source self')) ;;
   b4 <- pack_BB (ton (Sm.destination self')) (npi (Sm.destination self')) ;;
   b5 <- encode_ascii (number (Sm.destination self')) ;;
   b6 <- pack_BBB (Sm.esm_class self') (Sm.protocol_id self')
                  (Sm.priority_flag self') ;;
   t1 <- Sm.datetime_to_smpp_time (Sm.schedule_delivery_time self') ;;
   b7 <- encode_ascii t1 ;;
   t2 <- Sm.datetime_to_smpp_time (Sm.validity_period self') ;;
   b8 <- encode_ascii t2 ;;
   b9 <- pack_BB (Sm.registered_delivery self')
                 (Sm.replace_if_present_flag self') ;;
   b10 <- pack_BBB dc (Sm.sm_default_msg_id self') (Z.of_nat n) ;;
   b11 <- join_results (map (OptionalParam_tlv ext)
                            (Sm.optional_params self')) ;;
   (let body :=
      b1 ++ NULL ++ b2 ++ b3 ++ NULL ++ b4 ++ b5 ++ NULL ++ b6
      ++ b7 ++ NULL ++ b8 ++ NULL ++ b9 ++ b10
      ++ short ++ payload ++ b11 in
    header <- SmppMessage.pack_header smpp_command
                (Sm.command_status self') (Sm.sequence_num self')
                (Z.of_nat (PDU_HEADER_LENGTH + List.length body)) ;;
    Ok (header ++ body, self'))) <> Err (ShortMessageTooLong k).
Proof.
  intros Htlv H.
  repeat match type of H with
         | bind ?r _ = Err _ =>
             let E := fresh "E" in
             apply bind_err_inv in H; destruct H as [E | (? & _ & H)];
             [first [ apply encode_ascii_err in E
                    | apply pack_BB_err in E
                    | apply pack_BBB_err in E
                    | apply datetime_to_smpp_time_err in E
                    | apply join_results_err in E;
                      destruct E as (p & _ & E); exact (Htlv _ _ E) ];
              discriminate |]
         end.
  cbv zeta in H.
  apply bind_err_inv in H. destruct H as [E | (? & _ & H)].
  - apply pack_header_err in E. discriminate.
  - discriminate.
Qed.

(** C5: with the text encoded to [sm_bytes], [pdu] raises
    [ShortMessageTooLong] exactly when [short_message] is not empty, the
    bytes are more than 254 and [auto_message_payload] is false. In every
    other case the PDU it returns carries the bytes in a TLV of tag 0x0424
    whose length is their number, after an [sm_length] byte of 0 and an
    empty inline text, when they are more than 254 or [message_payload] was
    given, and carries them inline with no such TLV otherwise; and it does
    return a PDU when the remaining fields fit the wire. *)
Theorem C5_message_payload_promotion
    (ext : Externals) (smpp_command : Z) (self self' : Sm.t)
    (sm_bytes : bytes) (dc : Z) :
  Sm.smpp_encode ext self (Sm_text self) = Ok (sm_bytes, self') ->
  Sm.data_coding_of ext (Sm.encoding self') = Ok dc ->
  (forall p m, OptionalParam_tlv ext p <> Err (ShortMessageTooLong m)) ->
  let n := List.length sm_bytes in
  let denied :=
    Sm.short_message self <> "" /\ (254 < n)%nat
    /\ Sm.auto_message_payload self = false in
  ((exists k, Sm.pdu ext smpp_command self = Err (ShortMessageTooLong k))
   <-> denied)
  /\ (denied -> Sm.pdu ext smpp_command self = Err (ShortMessageTooLong n))
  /\ (forall data self'',
        Sm.pdu ext smpp_command self = Ok (data, self'') ->
        self'' = self'
        /\ ((254 < n)%nat \/ Sm.message_payload self <> "" ->
            Z.of_nat n <= 65535
            /\ Sm_layout ext smpp_command self' dc 0 []
                 ([x04; x24; byte_of_Z (Z.of_nat n / 256);
                   byte_of_Z (Z.of_nat n mod 256)] ++ sm_bytes)
                 data)
        /\ ((n <= 254)%nat /\ Sm.message_payload self = "" ->
            Sm_layout ext smpp_command self' dc n sm_bytes [] data))
  /\ (~ denied ->
      forall head tlvs,
        Sm_body_head self' = Ok head ->
        Sm_params_tlvs ext self' = Ok tlvs ->
        0 <= dc <= 255 ->
        0 <= Sm.sm_default_msg_id self' <= 255 ->
        Z.of_nat n <= 65535 ->
        0 <= smpp_command <= 4294967295 ->
        0 <= Sm.command_status self' <= 4294967295 ->
        0 <= Sm.sequence_num self' <= 4294967295 ->
        Z.of_nat (23 + List.length head + n + List.length tlvs)
        <= 4294967295 ->
        exists data, Sm.pdu ext smpp_command self = Ok (data, self')).
Proof.
  intros Henc Hdc Htlv n denied.
  destruct (smpp_encode_fields _ _ _ _ _ Henc) as (Esm & Emp & Eauto).
  assert (Hlong : too_long self' sm_bytes = true <-> denied).
  { unfold too_long, denied. rewrite Esm, Eauto. fold n.
    rewrite !andb_true_iff, !negb_true_iff, str_empty_false, Nat.ltb_lt.
    tauto. }
  assert (Hprom : promoted self' sm_bytes = true
                  <-> ((254 < n)%nat \/ Sm.message_payload self <> "")).
  { unfold promoted. rewrite Emp. fold n.
    rewrite orb_true_iff, negb_true_iff, str_empty_false, Nat.ltb_lt.
    tauto. }
  assert (Hden : denied ->
                 Sm.pdu ext smpp_command self = Err (ShortMessageTooLong n)).
  { intros Hd. apply Hlong in Hd. unfold Sm.pdu. fold (Sm_text self).
    rewrite Henc. cbn [bind]. rewrite Hdc. cbn [bind].
    fold (too_long self' sm_bytes). now rewrite Hd. }
  split; [| split; [exact Hden | split]].
  - split.
    + intros (k & H). apply Hlong.
      destruct (too_long self' sm_bytes) eqn:El; [reflexivity | exfalso].
      unfold Sm.pdu in H. fold (Sm_text self) in H.
      rewrite Henc in H. cbn [bind] in H. rewrite Hdc in H. cbn [bind] in H.
      fold (too_long self' sm_bytes) in H. rewrite El in H.
      fold (promoted self' sm_bytes) in H.
      destruct (promoted self' sm_bytes).
      * destruct (pack_HH MESSAGE_PAYLOAD (Z.of_nat (List.length sm_bytes)))
          eqn:Ehh; cbn [bind] in H.
        -- exact (Sm_pdu_tail_not_too_long _ _ _ _ _ _ _ _ Htlv H).
        -- inversion H; subst. apply pack_HH_err in Ehh. discriminate.
      * cbn [bind] in H.
        exact (Sm_pdu_tail_not_too_long _ _ _ _ _ _ _ _ Htlv H).
    + intros Hd. exists n. now apply Hden.
  - intros data self'' H.
    destruct (Sm_pdu_layout _ _ _ _ _ _ _ _ Henc Hdc H)
      as (-> & _ & Hp & Hnp).
    split; [reflexivity | split].
    + intros Hc. apply Hprom in Hc. destruct (Hp Hc) as (hh & Ehh & Hl).
      unfold pack_HH in Ehh. bind_inversion Ehh. inversion Ehh; subst hh.
      match goal with
      | E : pack_H MESSAGE_PAYLOAD = Ok _ |- _ =>
          apply pack_H_inv in E; destruct E as [_ ->]
      end.
      match goal with
      | E : pack_H (Z.of_nat _) = Ok _ |- _ =>
          apply pack_H_inv in E; destruct E as [? ->]
      end.
      split; [fold n in H0; lia | exact Hl].
    + intros [Hn Hm]. apply Hnp.
      destruct (promoted self' sm_bytes) eqn:Ep; [| reflexivity].
      destruct (proj1 Hprom eq_refl); [lia | contradiction].
  - intros Hnd head tlvs Hh Ht ? ? ? ? ? ? ?.
    apply (Sm_pdu_returns ext smpp_command self self' sm_bytes dc head tlvs);
      try assumption.
    destruct (too_long self' sm_bytes) eqn:El; [| reflexivity].
    exfalso. apply Hnd. now apply Hlong.
Qed.

Lemma Reference_tlv_not_too_long (p : OptionalParam) (m : nat) :
  OptionalParam_tlv Reference.externals p <> Err (ShortMessageTooLong m).
Proof.
  cbn [OptionalParam_tlv Reference.externals].
  unfold Reference.OptionalParam_tlv. intros H.
  destruct (Reference.OptionalTag_data_type (tag p)) as [[| |] |];
    destruct (value p); try discriminate.
  - apply bind_err_inv in H. destruct H as [E | (hh & _ & H)].
    + apply pack_HH_err in E. discriminate.
    + apply bind_err_inv in H. destruct H as [E | (v & _ & H)];
        [| discriminate].
      destruct (_ =? 1); [apply pack_B_err in E; discriminate |].
      destruct (_ =? 2); [apply pack_H_err in E | apply pack_I_err in E];
        discriminate.
  - apply pack_HH_err in H. discriminate.
  - apply bind_err_inv in H. destruct H as [E | (v & _ & H)].
    + apply encode_ascii_err in E. discriminate.
    + apply bind_err_inv in H. destruct H as [E | (hh & _ & H)];
        [| discriminate].
      apply pack_HH_err in E. discriminate.
Qed.

(** The two scenarios of the specification with a text of 300 ASCII
    characters, in [latin_1]: promotion allowed, promotion denied. *)
Definition text_300 : string := string_of_list_ascii (repeat "a"%char 300).

Definition submit_300 (auto_message_payload : bool) : Sm.t :=
  Sm.mk ESME_ROK 1 text_300 (mk_PhoneNumber "1" 1 1) (mk_PhoneNumber "2" 1 1)
        "CMT" 3 0 0 None None 1 0 (Some "latin_1") 0 "" []
        auto_message_payload "strict" "L1" "" "" None.

Lemma C5_message_payload_promotion_witness :
  Sm.pdu Reference.externals SUBMIT_SM (submit_300 false)
  = Err (ShortMessageTooLong 300)
  /\ exists data,
       Sm.pdu Reference.externals SUBMIT_SM (submit_300 true)
       = Ok (data, submit_300 true)
       /\ Sm_layout Reference.externals SUBMIT_SM (submit_300 true) 3 0 []
            ([x04; x24; x01; x2c] ++ repeat x61 300) data.
Proof.
  split.
  - refine (proj1 (proj2 (C5_message_payload_promotion
                            Reference.externals SUBMIT_SM (submit_300 false)
                            (submit_300 false) (repeat x61 300) 3
                            _ _ Reference_tlv_not_too_long)) _).
    + vm_compute. reflexivity.
    + vm_compute. reflexivity.
    + repeat split; [discriminate |].
      apply Nat.ltb_lt. vm_compute. reflexivity.
  - pose proof (C5_message_payload_promotion
                  Reference.externals SUBMIT_SM (submit_300 true)
                  (submit_300 true) (repeat x61 300) 3
                  ltac:(vm_compute; reflexivity)
                  ltac:(vm_compute; reflexivity)
                  Reference_tlv_not_too_long) as (_ & _ & Hlay & _).
    destruct (Sm.pdu Reference.externals SUBMIT_SM (submit_300 true))
      as [[data s] |] eqn:E; [| vm_compute in E; discriminate].
    destruct (Hlay data s eq_refl) as (-> & Hp & _).
    exists data. split; [reflexivity |].
    refine (proj2 (Hp _)). left. apply Nat.ltb_lt. vm_compute. reflexivity.
Defined.

(* ------------------------------------------------------------------ *)
(** ** The choice of the text encoding *)

(** C6: with no encoding set, [smpp_encode] returns what the default
    codec gives; when looking the default codec up and encoding with it
    raises [UnicodeEncodeError], it returns what the [ucs2] codec gives and
    sets the [encoding] of the message to [ucs2]; any other exception
    passes through. With an encoding set, that codec alone is used. The
    byte [pdu] writes after the head of the body is [SmppDataCoding] of
    the encoding the message has after [smpp_encode], and 0 when it has
    none. *)
Theorem C6_auto_encoding (ext : Externals) (self : Sm.t) (text : string) :
  let custom := Sm._custom_codecs self in
  let errors := Sm.error_handling self in
  let by_default :=
    codec_info <- find_codec_info ext (Sm._default_encoding self) custom ;;
    encode codec_info text errors in
  (Sm.encoding_unset (Sm.encoding self) = true ->
   (forall b, by_default = Ok b -> Sm.smpp_encode ext self text = Ok (b, self))
   /\ (by_default = Err EncodingFailure ->
       Sm.smpp_encode ext self text
       = (codec_info <- find_codec_info ext "ucs2" custom ;;
          b <- encode codec_info text errors ;;
          Ok (b, Sm.set_encoding self (Some "ucs2"))))
   /\ (forall e, by_default = Err e -> e <> EncodingFailure ->
                 Sm.smpp_encode ext self text = Err e))
  /\ (Sm.encoding_unset (Sm.encoding self) = false ->
      exists e, Sm.encoding self = Some e
                /\ Sm.smpp_encode ext self text
                   = (codec_info <- find_codec_info ext e custom ;;
                      b <- encode codec_info text errors ;;
                      Ok (b, self)))
  /\ (forall smpp_command data self',
        Sm.pdu ext smpp_command self = Ok (data, self') ->
        exists sm_bytes header head rest dc,
          Sm.smpp_encode ext self (Sm_text self) = Ok (sm_bytes, self')
          /\ List.length header = 16%nat
          /\ Sm_body_head self' = Ok head
          /\ data = header ++ head ++ byte_of_Z dc :: rest
          /\ 0 <= dc <= 255
          /\ (Sm.encoding_unset (Sm.encoding self') = true -> dc = 0)
          /\ (forall e, Sm.encoding self' = Some e -> e <> "" ->
                        SmppDataCoding_value ext e = Some dc)).
Proof.
  intros custom errors by_default.
  split; [| split].
  - intros Hun.
    assert (Hse : Sm.smpp_encode ext self text
                  = match by_default with
                    | Ok result => Ok (result, self)
                    | Err EncodingFailure =>
                        codec_info <- find_codec_info ext "ucs2" custom ;;
                        b <- encode codec_info text errors ;;
                        Ok (b, Sm.set_encoding self (Some "ucs2"))
                    | Err e => Err e
                    end).
    { unfold Sm.smpp_encode, Sm.encoding_unset in *.
      destruct (Sm.encoding self) as [e |]; [rewrite Hun |]; reflexivity. }
    rewrite Hse. repeat split.
    + now intros b ->.
    + now intros ->.
    + intros e -> He. destruct e; congruence.
  - intros Hset. unfold Sm.smpp_encode, Sm.encoding_unset in *.
    destruct (Sm.encoding self) as [e |]; [| discriminate].
    exists e. rewrite Hset. split; reflexivity.
  - intros smpp_command data self' H.
    pose proof H as H'. unfold Sm.pdu in H'. fold (Sm_text self) in H'.
    apply bind_inv in H'. destruct H' as ([sm_bytes s] & Henc & H').
    apply bind_inv in H'. destruct H' as (dc & Hdc & _).
    destruct (Sm_pdu_layout _ _ _ _ _ _ _ _ Henc Hdc H)
      as (-> & _ & Hp & Hnp).
    assert (Hl : exists n short payload,
               Sm_layout ext smpp_command s dc n short payload data).
    { destruct (promoted s sm_bytes).
      - destruct (Hp eq_refl) as (hh & _ & Hl). eauto.
      - eauto. }
    destruct Hl as (n & short & payload & header & head & tlvs & Hh & _
                    & Hpk & Hr & _ & _ & ->).
    exists sm_bytes, header, head. eexists. exists dc.
    split; [exact Henc |].
    split; [exact (pack_header_length _ _ _ _ _ Hpk) |].
    split; [exact Hh |]. split; [reflexivity |]. split; [exact Hr |].
    unfold Sm.data_coding_of, Sm.encoding_unset in *.
    destruct (Sm.encoding s) as [e |].
    + split.
      * intros He. rewrite He in Hdc. congruence.
      * intros e' [= <-] He. apply str_empty_false in He. rewrite He in Hdc.
        destruct (SmppDataCoding_value ext e); cbn in Hdc; congruence.
    + split; [congruence | discriminate].
Qed.

(* ------------------------------------------------------------------ *)
(** ** The delivery receipt of a [DeliverSm] *)

Definition receipt_literal : string :=
  "id:abc sub:001 dlvrd:001 submit date:2401011200 done date:2401011201 stat:DELIVRD err:000 Text:hello".

Definition receipt_expected : receipt_dict :=
  [("id", RStr "abc");
   ("sub", RInt 1);
   ("dlvrd", RInt 1);
   ("submit date", RDate (mk_datetime 2024 1 1 12 0 0 0 None));
   ("done date", RDate (mk_datetime 2024 1 1 12 1 0 0 None));
   ("stat", RStr "DELIVRD");
   ("err", RStr "000");
   ("text", RStr "hello")].

Lemma message_class_bits (esm_class : Z) :
  Z.shiftr (Z.land esm_class 0x3C) 2 = Z.land (Z.shiftr esm_class 2) 0x0F.
Proof. rewrite Z.shiftr_land. reflexivity. Qed.

(** C7: when the PDU parses as an [Sm] whose message-type bits are 1 and
    whose text is the receipt of the specification, [DeliverSm.from_pdu]
    returns that message with the receipt filled in: [id], [stat], [err]
    and [text] as strings, [sub] and [dlvrd] as integers, the two dates as
    datetimes of 2024. *)
Theorem C7_delivery_receipt
    (ext : Externals) (pdu : bytes) (header : PduHeader.t)
    (default_encoding : string) (custom_codecs : option codec_dict)
    (deliver_sm : DeliverSm.t) :
  Sm.from_pdu DeliverSm.cls ext pdu header default_encoding custom_codecs
  = Ok deliver_sm ->
  Z.land (Z.shiftr (Sm.esm_class (DeliverSm.base deliver_sm)) 2) 0x0F = 1 ->
  Sm.short_message (DeliverSm.base deliver_sm) = receipt_literal ->
  DeliverSm.from_pdu ext pdu header default_encoding custom_codecs
  = Ok (DeliverSm.mk (DeliverSm.base deliver_sm) (Some receipt_expected)).
Proof.
  intros Hsm Hclass Htext. unfold DeliverSm.from_pdu.
  rewrite Hsm. cbn [bind].
  rewrite message_class_bits, Hclass, Htext. reflexivity.
Qed.

(** A [deliver_sm] in [latin_1] whose text is the receipt. *)
Definition receipt_message : Sm.t :=
  Sm.mk ESME_ROK 7 receipt_literal (mk_PhoneNumber "1" 1 1)
        (mk_PhoneNumber "2" 1 1) "" 4 0 0 None None 0 0 (Some "latin_1") 0
        "" [] true "strict" "" "" "" None.

Definition receipt_pdu : bytes :=
  match Sm.pdu Reference.externals DELIVER_SM receipt_message with
  | Ok (data, _) => data
  | Err _ => []
  end.

Lemma C7_delivery_receipt_witness :
  DeliverSm.from_pdu Reference.externals receipt_pdu
    (PduHeader.mk (Z.of_nat (List.length receipt_pdu)) DELIVER_SM ESME_ROK 7)
    "" None
  = Ok (DeliverSm.mk receipt_message (Some receipt_expected)).
Proof.
  refine (C7_delivery_receipt Reference.externals receipt_pdu _ "" None
            (DeliverSm.mk receipt_message None) _ _ _).
  - vm_compute. reflexivity.
  - reflexivity.
  - reflexivity.
Defined.

(* ------------------------------------------------------------------ *)
(** ** An [Sm] PDU without text *)

(** The tags of the TLVs of a PDU, from [index] on, as the loop of
    [Sm.from_pdu] frames them: after the tag and the length the value of a
    bool tag takes no byte, any other value [length] bytes. *)
Fixpoint tlv_tags (fuel : nat) (ext : Externals) (pdu : bytes)
                  (pdu_length : Z) (index : nat) : list Z :=
  if negb (Z.of_nat index <? pdu_length) then []
  else
    match fuel with
    | O => []
    | S fuel' =>
        match Sm.get_integer pdu 2 index with
        | Err _ => []
        | Ok (tag_value, index) =>
            match OptionalTag_data_type ext tag_value,
                  Sm.get_integer pdu 2 index with
            | Some tag_type, Ok (length, index) =>
                let next :=
                  if tag_value =? MESSAGE_PAYLOAD
                  then (index + Z.to_nat length)%nat
                  else match tag_type with
                       | DBool => index
                       | _ => (index + Z.to_nat length)%nat
                       end in
                tag_value :: tlv_tags fuel' ext pdu pdu_length next
            | _, _ => [tag_value]
            end
        end
    end.

Lemma get_integer_index (pdu : bytes) (count : Z) (i : nat) (v : Z)
                        (i' : nat) :
  Sm.get_integer pdu count i = Ok (v, i') -> i' = (i + Z.to_nat count)%nat.
Proof.
  unfold Sm.get_integer. intros H.
  destruct (count =? 1) eqn:E1.
  - apply Z.eqb_eq in E1. subst. bind_inversion H. now inversion H.
  - destruct (count =? 2) eqn:E2.
    + apply Z.eqb_eq in E2. subst. bind_inversion H. now inversion H.
    + destruct (count =? 4) eqn:E4; [| discriminate].
      apply Z.eqb_eq in E4. subst. bind_inversion H. now inversion H.
Qed.

Lemma get_octet_string_index (pdu : bytes) (count : Z) (i : nat) (s : string)
                             (i' : nat) :
  Sm.get_octet_string pdu count i = Ok (s, i') ->
  i' = (i + Z.to_nat count)%nat.
Proof.
  unfold Sm.get_octet_string. intros H. bind_inversion H. now inversion H.
Qed.

(** The loop leaves [message_payload] as it was unless it meets a
    [MESSAGE_PAYLOAD] tag. *)
Lemma read_optional_params_payload
    (fuel : nat) (ext : Externals) (codec_info : CodecInfo) (pdu : bytes)
    (pdu_length : Z) :
  forall (index : nat) (mp : string) (ops : list OptionalParam)
         (mp' : string) (ops' : list OptionalParam),
    Sm.read_optional_params fuel ext codec_info pdu pdu_length index mp ops
    = Ok (mp', ops') ->
    ~ In MESSAGE_PAYLOAD (tlv_tags fuel ext pdu pdu_length index) ->
    mp' = mp.
Proof.
  induction fuel as [| fuel IH]; intros index mp ops mp' ops' H Hno;
    cbn [Sm.read_optional_params tlv_tags] in H, Hno.
  - destruct (negb (Z.of_nat index <? pdu_length)); now inversion H.
  - destruct (negb (Z.of_nat index <? pdu_length)); [now inversion H |].
    destruct (Sm.get_integer pdu 2 index) as [[tag_value i1] |]; cbn [bind] in H;
      [| discriminate].
    destruct (OptionalTag_data_type ext tag_value) as [ty |]; cbn [of_option bind] in H;
      [| discriminate].
    destruct (Sm.get_integer pdu 2 i1) as [[len i2] |]; cbn [bind] in H;
      [| discriminate].
    cbn [In] in Hno.
    destruct (tag_value =? MESSAGE_PAYLOAD) eqn:Et.
    { apply Z.eqb_eq in Et. exfalso. apply Hno. now left. }
    destruct ty.
    + destruct (Sm.get_integer pdu len i2) as [[v i3] |] eqn:Ev;
        cbn [bind] in H; [| discriminate].
      apply get_integer_index in Ev. subst i3.
      apply (IH _ _ _ _ _ H). tauto.
    + apply (IH _ _ _ _ _ H). tauto.
    + destruct (Sm.get_octet_string pdu len i2) as [[v i3] |] eqn:Ev;
        cbn [bind] in H; [| discriminate].
      apply get_octet_string_index in Ev. subst i3.
      apply (IH _ _ _ _ _ H). tauto.
Qed.

Ltac frame_inversion H :=
  repeat match type of H with
         | bind ?r ?k = Ok _ =>
             let x := fresh "x" in
             let Hx := fresh "Hx" in
             apply bind_inv in H; destruct H as (x & Hx & H)
         | (let '(_, _) := ?p in _) = Ok _ => destruct p
         end.

(** The text of the frame is what the codec of the frame decodes from the
    [sm_length] bytes before [index]. *)
Lemma read_mandatory_short_message
    (ext : Externals) (pdu : bytes) (default_encoding : string)
    (custom_codecs : option codec_dict) (f : Sm.frame) :
  Sm.read_mandatory ext pdu default_encoding custom_codecs = Ok f ->
  exists i,
    decode (Sm.f_codec_info f)
           (slice pdu i (i + Z.to_nat (Sm.f_sm_length f)))
    = Ok (Sm.f_short_message f)
    /\ Sm.f_index f = (i + Z.to_nat (Sm.f_sm_length f))%nat.
Proof.
  unfold Sm.read_mandatory. intros H. frame_inversion H.
  inversion H; subst f; cbn. eauto.
Qed.

Lemma slice_empty (pdu : bytes) (i : nat) : slice pdu i (i + 0) = [].
Proof. unfold slice. now rewrite Nat.add_0_r, Nat.sub_diag. Qed.

(** C10: a PDU whose [sm_length] byte is 0 and whose TLVs, as the parser
    frames them, hold no [MESSAGE_PAYLOAD] tag is not decoded: [from_pdu]
    raises, for [Sm] and for its two subclasses. When the optional
    parameters and the two times are read without error, the exception is
    the one of the constructor for a message without text. The codec is
    taken to decode no byte to the empty string. *)
Theorem C10_sm_without_text_is_rejected
    (ext : Externals) (pdu : bytes) (header : PduHeader.t)
    (default_encoding : string) (custom_codecs : option codec_dict)
    (f : Sm.frame) :
  Sm.read_mandatory ext pdu default_encoding custom_codecs = Ok f ->
  Sm.f_sm_length f = 0 ->
  (forall s, decode (Sm.f_codec_info f) [] = Ok s -> s = "") ->
  ~ In MESSAGE_PAYLOAD
       (tlv_tags (List.length pdu) ext pdu (PduHeader.pdu_length header)
                 (Sm.f_index f)) ->
  (exists e, Sm.from_pdu Sm.__init__ ext pdu header default_encoding
                         custom_codecs = Err e)
  /\ (exists e, SubmitSm.from_pdu ext pdu header default_encoding
                                  custom_codecs = Err e)
  /\ (exists e, DeliverSm.from_pdu ext pdu header default_encoding
                                   custom_codecs = Err e)
  /\ (forall mp ops sdt vp,
        Sm.read_optional_params (List.length pdu) ext (Sm.f_codec_info f) pdu
          (PduHeader.pdu_length header) (Sm.f_index f) "" [] = Ok (mp, ops) ->
        Sm.smpp_time_to_datetime ext (Sm.f_schedule_delivery_time f)
        = Ok sdt ->
        Sm.smpp_time_to_datetime ext (Sm.f_validity_period f) = Ok vp ->
        Sm.from_pdu Sm.__init__ ext pdu header default_encoding custom_codecs
        = _ <- Sm.check_optional_params ops ;;
          Err (InvalidArgument
                 "Either short_message or message_payload must be specified")).
Proof.
  intros Hread Hlen Hcodec Hno.
  destruct (read_mandatory_short_message _ _ _ _ _ Hread) as (i & Hsm & _).
  rewrite Hlen in Hsm. cbn [Z.to_nat] in Hsm. rewrite slice_empty in Hsm.
  apply Hcodec in Hsm.
  (* whatever the class, the constructor is handed two empty texts *)
  assert (Hcls : forall (T : Type) (cls : Sm.constructor T),
            (forall a b c d e g h i j k l m n o p q r s,
                exists err, cls "" a b c d e g h i j k l m "" n o p q r s
                            = Err err) ->
            exists e, Sm.from_pdu cls ext pdu header default_encoding
                                  custom_codecs = Err e).
  { intros T cls Hrej. unfold Sm.from_pdu. rewrite Hread. cbn [bind].
    destruct (Sm.read_optional_params _ _ _ _ _ _ _ _)
      as [[mp ops] |] eqn:Eops; cbn [bind]; [| eauto].
    apply read_optional_params_payload in Eops; [| exact Hno]. subst mp.
    destruct (Sm.smpp_time_to_datetime ext (Sm.f_schedule_delivery_time f));
      cbn [bind]; [| eauto].
    destruct (Sm.smpp_time_to_datetime ext (Sm.f_validity_period f));
      cbn [bind]; [| eauto].
    rewrite Hsm. apply Hrej. }
  assert (Hinit : forall a b c d e g h i j k l m n o p q r s,
            Sm.__init__ "" a b c d e g h i j k l m "" n o p q r s
            = _ <- Sm.check_optional_params n ;;
              Err (InvalidArgument
                     "Either short_message or message_payload must be specified")).
  { intros. unfold Sm.__init__. reflexivity. }
  assert (Hinit_err : forall a b c d e g h i j k l m n o p q r s,
            exists err, Sm.__init__ "" a b c d e g h i j k l m "" n o p q r s
                        = Err err).
  { intros. rewrite Hinit. destruct (Sm.check_optional_params n); cbn; eauto. }
  split; [| split; [| split]].
  - apply Hcls. exact Hinit_err.
  - apply Hcls. intros. unfold SubmitSm.__init__.
    destruct (str_empty r); [eauto | apply Hinit_err].
  - unfold DeliverSm.from_pdu.
    destruct (Hcls _ DeliverSm.cls) as (e & ->); [| cbn [bind]; eauto].
    intros. unfold DeliverSm.cls, DeliverSm.__init__. cbn [DeliverSm.receipt_given].
    destruct (Hinit_err a b c d e g h i0 j k l m n o p q r s) as (err & ->).
    cbn. eauto.
  - intros mp ops sdt vp Eops Esdt Evp. unfold Sm.from_pdu.
    rewrite Hread. cbn [bind]. rewrite Eops. cbn [bind].
    apply read_optional_params_payload in Eops; [| exact Hno]. subst mp.
    rewrite Esdt, Evp. cbn [bind]. rewrite Hsm. apply Hinit.
Qed.

(** A [deliver_sm] with no text and no TLV. *)
Definition deliver_no_text : bytes :=
  [x00; x00; x00; x23; x00; x00; x00; x05; x00; x00; x00; x00;
   x00; x00; x00; x01;
   x00; x01; x01; x31; x00; x01; x01; x32; x00; x00; x00; x00;
   x00; x00; x00; x00; x03; x00; x00].

Lemma C10_sm_without_text_is_rejected_witness :
  Sm.from_pdu Sm.__init__ Reference.externals deliver_no_text
    (PduHeader.mk 35 DELIVER_SM ESME_ROK 1) "" None
  = Err (InvalidArgument
           "Either short_message or message_payload must be specified")
  /\ exists e, DeliverSm.from_pdu Reference.externals deliver_no_text
                 (PduHeader.mk 35 DELIVER_SM ESME_ROK 1) "" None = Err e.
Proof.
  pose proof (C10_sm_without_text_is_rejected
                Reference.externals deliver_no_text
                (PduHeader.mk 35 DELIVER_SM ESME_ROK 1) "" None
                (Sm.mk_frame "" (mk_PhoneNumber "1" 1 1)
                   (mk_PhoneNumber "2" 1 1) 0 0 0 "" "" 0 0 3 "latin_1"
                   Reference.latin_1 0 0 "" 35)
                ltac:(vm_compute; reflexivity) eq_refl
                ltac:(intros s [= <-]; reflexivity)
                ltac:(vm_compute; tauto)) as (_ & _ & Hd & Hs).
  split; [| exact Hd].
  exact (Hs "" [] None None eq_refl eq_refl eq_refl).
Defined.

(* ------------------------------------------------------------------ *)
(** ** Encoding and decoding: the header and the messages without text *)

Lemma slice_prefix (a r : bytes) :
  slice (a ++ r) 0 (List.length a) = a.
Proof.
  unfold slice. rewrite Nat.sub_0_r, skipn_0.
  replace (List.length a) with (List.length a + 0)%nat by lia.
  rewrite firstn_app_2. cbn [firstn]. apply app_nil_r.
Qed.

(** The header parsed from the first 16 bytes of a PDU is the one that
    was packed. *)
Lemma parse_header_packed (ext : Externals) (c s n len : Z)
                          (header rest : bytes) :
  SmppMessage.pack_header c s n len = Ok header ->
  is_SmppCommand ext c = true ->
  is_SmppCommandStatus ext s = true ->
  SmppMessage.parse_header ext (slice (header ++ rest) 0 PDU_HEADER_LENGTH)
  = Ok (PduHeader.mk len c s n).
Proof.
  intros Hp Hc Hs.
  pose proof (pack_header_length _ _ _ _ _ Hp) as Hl.
  unfold PDU_HEADER_LENGTH. rewrite <- Hl, slice_prefix.
  unfold SmppMessage.pack_header in Hp. bind_inversion Hp.
  inversion Hp; subst header; clear Hp.
  repeat match goal with
         | E : pack_I _ = Ok _ |- _ =>
             apply pack_I_inv in E; destruct E as [? ->]
         end.
  cbn [app]. unfold SmppMessage.parse_header.
  match goal with
  | |- context [unpack_I ?l 0] =>
      rewrite (unpack_I_at l 0 len _ ltac:(assumption) eq_refl),
        (unpack_I_at l 4 c _ ltac:(assumption) eq_refl),
        (unpack_I_at l 8 s _ ltac:(assumption) eq_refl),
        (unpack_I_at l 12 n _ ltac:(assumption) eq_refl)
  end.
  cbn [bind]. rewrite Hc, Hs. reflexivity.
Qed.

(** The same for a PDU that is a header and nothing else. *)
Lemma parse_header_alone (ext : Externals) (c s n len : Z) (header : bytes) :
  SmppMessage.pack_header c s n len = Ok header ->
  is_SmppCommand ext c = true ->
  is_SmppCommandStatus ext s = true ->
  SmppMessage.parse_header ext (slice header 0 PDU_HEADER_LENGTH)
  = Ok (PduHeader.mk len c s n).
Proof.
  intros Hp Hc Hs. rewrite <- (app_nil_r header) at 1.
  now apply parse_header_packed.
Qed.

Lemma slice_Z_body (header b r : bytes) :
  List.length header = 16%nat ->
  slice_Z (header ++ b ++ r) 16 (Z.of_nat (16 + List.length b)) = b.
Proof.
  intros Hl. unfold slice_Z.
  rewrite !length_app, Hl.
  replace (16 <? 0) with false by reflexivity.
  replace (Z.of_nat (16 + List.length b) <? 0) with false
    by (symmetry; apply Z.ltb_ge; lia).
  rewrite !Z.min_l by lia. rewrite Nat2Z.id.
  unfold slice. replace (Z.to_nat 16) with (List.length header) by lia.
  rewrite (at_index_start header (b ++ r)).
  replace (16 + List.length b - List.length header)%nat
    with (List.length b + 0)%nat by lia.
  rewrite firstn_app_2. cbn [firstn]. apply app_nil_r.
Qed.

(** [SmResp]: the message identifier comes back. *)
Lemma SmResp_round_trip (ext : Externals) (smpp_command : Z) (x : SmResp.t)
                        (data : bytes) :
  SmResp.pdu smpp_command x = Ok data ->
  is_SmppCommand ext smpp_command = true ->
  is_SmppCommandStatus ext (SmResp.command_status x) = true ->
  exists header,
    SmppMessage.parse_header ext (slice data 0 PDU_HEADER_LENGTH) = Ok header
    /\ PduHeader.smpp_command header = smpp_command
    /\ SmResp.from_pdu SmResp.__init__ data header = Ok x.
Proof.
  intros Hp Hc Hs. unfold SmResp.pdu in Hp.
  apply bind_inv in Hp. destruct Hp as (b & E1 & Hp). cbv zeta in Hp.
  apply bind_inv in Hp. destruct Hp as (header & Eh & Hp).
  inversion Hp; subst data; clear Hp.
  pose proof (pack_header_length _ _ _ _ _ Eh) as Hl.
  eexists. split; [now apply (parse_header_packed ext _ _ _ _ _ _ Eh) |].
  split; [reflexivity |].
  unfold SmResp.from_pdu. cbn [PduHeader.pdu_length PduHeader.sequence_num
                               PduHeader.command_status].
  replace (Z.of_nat (PDU_HEADER_LENGTH + List.length (b ++ NULL)) - 1)
    with (Z.of_nat (16 + List.length b))
    by (rewrite length_app; unfold PDU_HEADER_LENGTH, NULL;
        cbn [List.length]; lia).
  change (Z.of_nat PDU_HEADER_LENGTH) with 16.
  rewrite (slice_Z_body header b NULL Hl).
  rewrite (decode_encode_ascii _ _ E1). cbn [bind].
  unfold SmResp.__init__. now destruct x.
Qed.

Ltac bind_as H b Hb := apply bind_inv in H; destruct H as (b & Hb & H).

Lemma get_char_at (pdu : bytes) (i : nat) (n : Z) (r : bytes) :
  0 <= n <= 255 -> at_index pdu i (byte_of_Z n :: r) ->
  BindTransceiver.get_char pdu i = Ok (n, (i + 1)%nat).
Proof.
  intros Hn H. unfold BindTransceiver.get_char.
  rewrite (unpack_B_at _ _ _ _ H), Z_of_byte_of_Z by assumption. reflexivity.
Qed.

Lemma at_index_body (header body : bytes) :
  List.length header = 16%nat -> at_index (header ++ body) 16 body.
Proof. intros <-. apply at_index_start. Qed.

(** [BindTransceiver]: every field comes back. *)
Lemma BindTransceiver_round_trip (ext : Externals) (x : BindTransceiver.t)
                                 (data : bytes) :
  BindTransceiver.pdu x = Ok data ->
  is_SmppCommand ext BIND_TRANSCEIVER = true ->
  is_SmppCommandStatus ext ESME_ROK = true ->
  BindTransceiver.command_status x = ESME_ROK ->
  no_nul (BindTransceiver.system_id x) = true ->
  no_nul (BindTransceiver.password x) = true ->
  no_nul (BindTransceiver.system_type x) = true ->
  no_nul (BindTransceiver.address_range x) = true ->
  is_TON ext (BindTransceiver.addr_ton x) = true ->
  is_NPI ext (BindTransceiver.addr_npi x) = true ->
  exists header,
    SmppMessage.parse_header ext (slice data 0 PDU_HEADER_LENGTH) = Ok header
    /\ PduHeader.smpp_command header = BIND_TRANSCEIVER
    /\ BindTransceiver.from_pdu ext data header = Ok x.
Proof.
  intros Hp Hc Hs Hst N1 N2 N3 N4 Hton Hnpi.
  unfold BindTransceiver.pdu in Hp.
  bind_as Hp b1 E1. bind_as Hp b2 E2. bind_as Hp b3 E3. bind_as Hp b4 E4.
  bind_as Hp b5 E5. cbv zeta in Hp. bind_as Hp header Eh.
  inversion Hp; subst data; clear Hp.
  pose proof (pack_header_length _ _ _ _ _ Eh) as Hl.
  rewrite Hst in Eh.
  eexists. split; [now apply (parse_header_packed ext _ _ _ _ _ _ Eh) |].
  split; [reflexivity |].
  apply pack_BBB_inv in E4. destruct E4 as (R1 & R2 & R3 & ->).
  unfold NULL. cbn [app].
  match goal with
  | |- BindTransceiver.from_pdu _ (header ++ ?body) _ = _ =>
      pose proof (at_index_body header body Hl) as A
  end.
  unfold BindTransceiver.from_pdu, PDU_HEADER_LENGTH.
  change BindTransceiver.get_c_octet_string with Sm.get_c_octet_string.
  rewrite (get_c_octet_string_at _ _ _ _ _ E1 N1 A). cbn [bind].
  apply at_index_c_octet in A.
  rewrite (get_c_octet_string_at _ _ _ _ _ E2 N2 A). cbn [bind].
  apply at_index_c_octet in A.
  rewrite (get_c_octet_string_at _ _ _ _ _ E3 N3 A). cbn [bind].
  apply at_index_c_octet in A.
  rewrite (get_char_at _ _ _ _ R1 A). cbn [bind]. apply at_index_cons in A.
  rewrite (get_char_at _ _ _ _ R2 A). cbn [bind]. apply at_index_cons in A.
  unfold Sm.enum_member. rewrite Hton. cbn [bind].
  rewrite (get_char_at _ _ _ _ R3 A). cbn [bind]. apply at_index_cons in A.
  rewrite Hnpi. cbn [bind].
  rewrite (get_c_octet_string_at _ _ _ _ _ E5 N4 A). cbn [bind].
  unfold BindTransceiver.__init__. cbn [PduHeader.sequence_num].
  destruct x; cbn in *. now subst.
Qed.

(** The TLV that carries the interface version: four bytes of tag and
    length, then the version on one byte. *)
Definition version_tlv_fits (ext : Externals) (v : Z) : Prop :=
  0 <= v <= 255
  /\ exists b1 b2 b3 b4,
       OptionalParam_tlv ext (mk_OptionalParam SC_INTERFACE_VERSION (VInt v))
       = Ok [b1; b2; b3; b4; byte_of_Z v].

(** [BindTransceiverResp]: the system identifier and the version come
    back. *)
Lemma BindTransceiverResp_round_trip
    (ext : Externals) (x : BindTransceiverResp.t) (data : bytes) :
  BindTransceiverResp.pdu ext x = Ok data ->
  is_SmppCommand ext BIND_TRANSCEIVER_RESP = true ->
  is_SmppCommandStatus ext (BindTransceiverResp.command_status x) = true ->
  no_nul (BindTransceiverResp.system_id x) = true ->
  (forall v, BindTransceiverResp.sc_interface_version x = Some v ->
             version_tlv_fits ext v) ->
  exists header,
    SmppMessage.parse_header ext (slice data 0 PDU_HEADER_LENGTH) = Ok header
    /\ PduHeader.smpp_command header = BIND_TRANSCEIVER_RESP
    /\ BindTransceiverResp.from_pdu data header = Ok x.
Proof.
  intros Hp Hc Hs N1 Hv.
  unfold BindTransceiverResp.pdu in Hp.
  bind_as Hp b E1. cbv zeta in Hp. bind_as Hp body Eb.
  bind_as Hp header Eh.
  inversion Hp; subst data; clear Hp.
  pose proof (pack_header_length _ _ _ _ _ Eh) as Hl.
  eexists. split; [now apply (parse_header_packed ext _ _ _ _ _ _ Eh) |].
  split; [reflexivity |].
  assert (Hi : forall r, bytes_index (header ++ b ++ x00 :: r) x00
                                     PDU_HEADER_LENGTH
                         = Ok (16 + List.length b)%nat).
  { intros r. unfold bytes_index, PDU_HEADER_LENGTH.
    rewrite (at_index_body header _ Hl), (bytes_find_encoded _ _ r 16 E1 N1).
    reflexivity. }
  assert (Hsl : forall r, slice (header ++ b ++ x00 :: r) PDU_HEADER_LENGTH
                                (16 + List.length b) = b).
  { intros r. unfold slice, PDU_HEADER_LENGTH.
    rewrite (at_index_body header _ Hl).
    replace (16 + List.length b - 16)%nat with (List.length b + 0)%nat
      by lia.
    rewrite firstn_app_2. cbn [firstn]. apply app_nil_r. }
  unfold BindTransceiverResp.from_pdu.
  cbn [PduHeader.pdu_length PduHeader.sequence_num PduHeader.command_status].
  destruct (BindTransceiverResp.sc_interface_version x) as [v |] eqn:Ev.
  - destruct (Hv v eq_refl) as (Rv & b1 & b2 & b3 & b4 & Et).
    rewrite Et in Eb. cbn [bind] in Eb. inversion Eb; subst body; clear Eb.
    unfold NULL. rewrite <- app_assoc. cbn [app].
    rewrite Hi. cbn [bind]. rewrite Hsl.
    rewrite (decode_encode_ascii _ _ E1). cbn [bind].
    rewrite length_app. cbn [List.length]. unfold PDU_HEADER_LENGTH.
    replace (Z.of_nat (16 + List.length b + 1)
             <? Z.of_nat (16 + (List.length b + 6))) with true
      by (symmetry; apply Z.ltb_lt; lia).
    replace (Z.of_nat (16 + List.length b + 1 + 4) + 1
             =? Z.of_nat (16 + (List.length b + 6))) with true
      by (symmetry; apply Z.eqb_eq; lia).
    assert (A : at_index (header ++ b ++ x00 :: [b1; b2; b3; b4; byte_of_Z v])
                         (16 + List.length b + 1 + 4) [byte_of_Z v]).
    { pose proof (at_index_body header
                    (b ++ x00 :: [b1; b2; b3; b4; byte_of_Z v]) Hl) as A.
      apply at_index_c_octet in A.
      exact (at_index_app _ _ [b1; b2; b3; b4] _ A). }
    rewrite (unpack_B_at _ _ _ _ A), Z_of_byte_of_Z by assumption.
    cbn [bind]. unfold BindTransceiverResp.__init__.
    destruct x; cbn in *. now subst.
  - inversion Eb; subst body; clear Eb.
    unfold NULL. rewrite Hi. cbn [bind]. rewrite Hsl.
    rewrite (decode_encode_ascii _ _ E1). cbn [bind].
    rewrite length_app. cbn [List.length]. unfold PDU_HEADER_LENGTH.
    replace (Z.of_nat (16 + List.length b + 1)
             <? Z.of_nat (16 + (List.length b + 1))) with false
      by (symmetry; apply Z.ltb_ge; lia).
    cbn [bind]. unfold BindTransceiverResp.__init__.
    destruct x; cbn in *. now subst.
Qed.

(* ------------------------------------------------------------------ *)
(** ** Encoding and decoding: the optional parameters *)

Lemma get_integer_2_at (pdu : bytes) (i : nat) (n : Z) (r : bytes) :
  0 <= n <= 65535 ->
  at_index pdu i (byte_of_Z (n / 256) :: byte_of_Z (n mod 256) :: r) ->
  Sm.get_integer pdu 2 i = Ok (n, (i + 2)%nat).
Proof.
  intros Hn H. unfold Sm.get_integer. cbn [Z.eqb Pos.eqb].
  rewrite (unpack_H_at _ _ _ _ Hn H). reflexivity.
Qed.

Lemma get_integer_4_at (pdu : bytes) (i : nat) (n : Z) (r : bytes) :
  0 <= n <= 4294967295 ->
  at_index pdu i (byte_of_Z (n / 16777216) :: byte_of_Z ((n / 65536) mod 256)
                  :: byte_of_Z ((n / 256) mod 256) :: byte_of_Z (n mod 256)
                  :: r) ->
  Sm.get_integer pdu 4 i = Ok (n, (i + 4)%nat).
Proof.
  intros Hn H. unfold Sm.get_integer. cbn [Z.eqb Pos.eqb].
  rewrite (unpack_I_at _ _ _ _ Hn H). reflexivity.
Qed.

(** The value of an integer TLV on [w] bytes, big-endian. *)
Definition pack_int (w n : Z) : result bytes :=
  if w =? 1 then pack_B n
  else if w =? 2 then pack_H n
  else if w =? 4 then pack_I n
  else Err StructError.

Lemma get_integer_packed (pdu : bytes) (i : nat) (w n : Z) (v r : bytes) :
  pack_int w n = Ok v -> at_index pdu i (v ++ r) ->
  Sm.get_integer pdu w i = Ok (n, (i + List.length v)%nat)
  /\ (w = 1 \/ w = 2 \/ w = 4).
Proof.
  unfold pack_int. intros Hv H.
  destruct (w =? 1) eqn:E1.
  { apply Z.eqb_eq in E1. subst w. apply pack_B_inv in Hv.
    destruct Hv as [Hn ->]. split; [| auto].
    exact (get_integer_1_at _ _ _ _ Hn H). }
  destruct (w =? 2) eqn:E2.
  { apply Z.eqb_eq in E2. subst w. apply pack_H_inv in Hv.
    destruct Hv as [Hn ->]. split; [| auto].
    exact (get_integer_2_at _ _ _ _ Hn H). }
  destruct (w =? 4) eqn:E4; [| discriminate].
  apply Z.eqb_eq in E4. subst w. apply pack_I_inv in Hv.
  destruct Hv as [Hn ->]. split; [| auto].
  exact (get_integer_4_at _ _ _ _ Hn H).
Qed.

(** The TLV of a parameter is written as section 4.5 of the specification
    has it: tag and length on two bytes each, then an integer on the width
    given as length, nothing for a bool, the ASCII bytes of a string; and
    the parameter is one that the parser gives back as it is: not the
    payload, a bool that is true, a string that does not end in NUL. *)
Definition tlv_as_specified (ext : Externals) (p : OptionalParam) : Prop :=
  tag p <> MESSAGE_PAYLOAD
  /\ match OptionalTag_data_type ext (tag p), value p with
     | Some DInt, VInt n =>
         exists w, OptionalParam_tlv ext p
                   = (hh <- pack_HH (tag p) w ;;
                      v <- pack_int w n ;; Ok (hh ++ v))
     | Some DBool, VBool true => OptionalParam_tlv ext p = pack_HH (tag p) 0
     | Some DStr, VStr s =>
         str_endswith s zero = false
         /\ OptionalParam_tlv ext p
            = (v <- encode_ascii s ;;
               hh <- pack_HH (tag p) (Z.of_nat (List.length v)) ;;
               Ok (hh ++ v))
     | _, _ => False
     end.

Lemma pack_HH_inv (a b : Z) (bs : bytes) :
  pack_HH a b = Ok bs ->
  0 <= a <= 65535 /\ 0 <= b <= 65535
  /\ bs = [byte_of_Z (a / 256); byte_of_Z (a mod 256);
           byte_of_Z (b / 256); byte_of_Z (b mod 256)].
Proof.
  unfold pack_HH. intros H.
  apply bind_inv in H. destruct H as (x & Hx & H).
  apply bind_inv in H. destruct H as (y & Hy & H).
  apply pack_H_inv in Hx, Hy. destruct Hx as [? ->], Hy as [? ->].
  inversion H. auto.
Qed.

Lemma slice_at (pdu : bytes) (i : nat) (v r : bytes) :
  at_index pdu i (v ++ r) -> slice pdu i (i + List.length v) = v.
Proof.
  unfold at_index, slice. intros ->.
  replace (i + List.length v - i)%nat with (List.length v + 0)%nat by lia.
  rewrite firstn_app_2. cbn [firstn]. apply app_nil_r.
Qed.

(** One turn of the loop over a parameter written as specified. *)
Lemma read_one_param
    (ext : Externals) (codec_info : CodecInfo) (pdu : bytes) (pdu_length : Z)
    (fuel i : nat) (p : OptionalParam) (b rest : bytes) (mp : string)
    (ops : list OptionalParam) :
  tlv_as_specified ext p ->
  OptionalParam_tlv ext p = Ok b ->
  at_index pdu i (b ++ rest) ->
  Z.of_nat i < pdu_length ->
  Sm.read_optional_params (S fuel) ext codec_info pdu pdu_length i mp ops
  = Sm.read_optional_params fuel ext codec_info pdu pdu_length
                            (i + List.length b) mp (ops ++ [p]).
Proof.
  intros [Hnp Hspec] Hb A Hlt.
  cbn [Sm.read_optional_params].
  replace (Z.of_nat i <? pdu_length) with true
    by (symmetry; now apply Z.ltb_lt).
  cbn [negb].
  destruct (OptionalTag_data_type ext (tag p)) as [[| |] |] eqn:Ety;
    destruct p as [t v]; cbn [tag value] in *; destruct v as [n | [|] | s];
    try contradiction.
  - (* an integer *)
    destruct Hspec as (w & Hspec). rewrite Hspec in Hb.
    apply bind_inv in Hb. destruct Hb as (hh & Ehh & Hb).
    apply bind_inv in Hb. destruct Hb as (v & Ev & Hb).
    inversion Hb; subst b; clear Hb.
    apply pack_HH_inv in Ehh. destruct Ehh as (Rt & Rw & ->).
    cbn [app] in A.
    rewrite (get_integer_2_at _ _ _ _ Rt A). cbn [bind]. rewrite Ety.
    cbn [of_option bind].
    apply at_index_cons, at_index_cons in A.
    replace (i + 1 + 1)%nat with (i + 2)%nat in A by lia.
    rewrite (get_integer_2_at _ _ _ _ Rw A). cbn [bind].
    replace (t =? MESSAGE_PAYLOAD) with false
      by (symmetry; now apply Z.eqb_neq).
    apply at_index_cons, at_index_cons in A.
    replace (i + 2 + 1 + 1)%nat with (i + 2 + 2)%nat in A by lia.
    destruct (get_integer_packed _ _ _ _ _ _ Ev A) as [-> _]. cbn [bind].
    cbn [List.length app].
    replace (i + 2 + 2 + List.length v)%nat
      with (i + S (S (S (S (List.length v)))))%nat by lia.
    reflexivity.
  - (* a bool *)
    rewrite Hspec in Hb. apply pack_HH_inv in Hb. destruct Hb as (Rt & _ & ->).
    cbn [app] in A.
    rewrite (get_integer_2_at _ _ _ _ Rt A). cbn [bind]. rewrite Ety.
    cbn [of_option bind].
    apply at_index_cons, at_index_cons in A.
    replace (i + 1 + 1)%nat with (i + 2)%nat in A by lia.
    rewrite (get_integer_2_at _ _ 0 _ ltac:(lia) A). cbn [bind].
    replace (t =? MESSAGE_PAYLOAD) with false
      by (symmetry; now apply Z.eqb_neq).
    cbn [List.length].
    replace (i + 2 + 2)%nat with (i + 4)%nat by lia. reflexivity.
  - (* a string *)
    destruct Hspec as [Hend Hspec]. rewrite Hspec in Hb.
    apply bind_inv in Hb. destruct Hb as (v & Ev & Hb).
    apply bind_inv in Hb. destruct Hb as (hh & Ehh & Hb).
    inversion Hb; subst b; clear Hb.
    apply pack_HH_inv in Ehh. destruct Ehh as (Rt & Rw & ->).
    cbn [app] in A.
    rewrite (get_integer_2_at _ _ _ _ Rt A). cbn [bind]. rewrite Ety.
    cbn [of_option bind].
    apply at_index_cons, at_index_cons in A.
    replace (i + 1 + 1)%nat with (i + 2)%nat in A by lia.
    rewrite (get_integer_2_at _ _ _ _ Rw A). cbn [bind].
    replace (t =? MESSAGE_PAYLOAD) with false
      by (symmetry; now apply Z.eqb_neq).
    apply at_index_cons, at_index_cons in A.
    replace (i + 2 + 1 + 1)%nat with (i + 2 + 2)%nat in A by lia.
    unfold Sm.get_octet_string. rewrite Nat2Z.id.
    rewrite (slice_at _ _ _ _ A), (decode_encode_ascii _ _ Ev). cbn [bind].
    rewrite Hend. cbn [List.length app].
    replace (i + 2 + 2 + List.length v)%nat
      with (i + S (S (S (S (List.length v)))))%nat by lia.
    reflexivity.
Qed.

Lemma tlv_as_specified_length (ext : Externals) (p : OptionalParam)
                              (b : bytes) :
  tlv_as_specified ext p -> OptionalParam_tlv ext p = Ok b ->
  (4 <= List.length b)%nat.
Proof.
  intros [_ Hspec] Hb.
  destruct (OptionalTag_data_type ext (tag p)) as [[| |] |];
    destruct (value p) as [n | [|] | s]; try contradiction.
  - destruct Hspec as (w & Hspec). rewrite Hspec in Hb.
    apply bind_inv in Hb. destruct Hb as (hh & Ehh & Hb).
    apply bind_inv in Hb. destruct Hb as (v & Ev & Hb).
    inversion Hb. apply pack_HH_inv in Ehh. destruct Ehh as (_ & _ & ->).
    cbn. lia.
  - rewrite Hspec in Hb. apply pack_HH_inv in Hb. destruct Hb as (_ & _ & ->).
    cbn. lia.
  - destruct Hspec as [_ Hspec]. rewrite Hspec in Hb.
    apply bind_inv in Hb. destruct Hb as (v & Ev & Hb).
    apply bind_inv in Hb. destruct Hb as (hh & Ehh & Hb).
    inversion Hb. apply pack_HH_inv in Ehh. destruct Ehh as (_ & _ & ->).
    cbn. lia.
Qed.

(** The loop over the TLVs of parameters written as specified, when they
    run to the end of the PDU, appends the parameters and leaves the
    payload alone. *)
Lemma read_optional_params_encoded
    (ext : Externals) (codec_info : CodecInfo) (pdu : bytes) (mp : string) :
  forall (params : list OptionalParam) (tlvs : bytes) (fuel i : nat)
         (ops : list OptionalParam),
    Forall (tlv_as_specified ext) params ->
    join_results (map (OptionalParam_tlv ext) params) = Ok tlvs ->
    at_index pdu i tlvs ->
    (i + List.length tlvs = List.length pdu)%nat ->
    (List.length params <= fuel)%nat ->
    Sm.read_optional_params fuel ext codec_info pdu
                            (Z.of_nat (List.length pdu)) i mp ops
    = Ok (mp, ops ++ params).
Proof.
  induction params as [| p params IH]; intros tlvs fuel i ops Hall Hj A Hl Hf.
  - inversion Hj; subst tlvs. cbn [List.length] in Hl.
    rewrite app_nil_r.
    destruct fuel; cbn [Sm.read_optional_params];
      replace (Z.of_nat i <? Z.of_nat (List.length pdu)) with false
        by (symmetry; apply Z.ltb_ge; lia);
      reflexivity.
  - cbn [map join_results] in Hj.
    apply bind_inv in Hj. destruct Hj as (b & Eb & Hj).
    apply bind_inv in Hj. destruct Hj as (r & Er & Hj).
    inversion Hj; subst tlvs; clear Hj.
    inversion Hall as [| ? ? Hp Hps]; subst.
    pose proof (tlv_as_specified_length _ _ _ Hp Eb) as H4.
    rewrite length_app in Hl.
    destruct fuel as [| fuel]; [cbn in Hf; lia |].
    rewrite (read_one_param ext codec_info pdu _ fuel i p b r mp ops Hp Eb A)
      by lia.
    rewrite (IH r fuel (i + List.length b)%nat (ops ++ [p]) Hps Er).
    + now rewrite <- app_assoc.
    + now apply at_index_app.
    + lia.
    + cbn in Hf. lia.
Qed.

Lemma join_results_length (ext : Externals) (params : list OptionalParam)
                          (tlvs : bytes) :
  Forall (tlv_as_specified ext) params ->
  join_results (map (OptionalParam_tlv ext) params) = Ok tlvs ->
  (List.length params <= List.length tlvs)%nat.
Proof.
  revert tlvs. induction params as [| p params IH]; intros tlvs Hall Hj.
  - cbn. lia.
  - cbn [map join_results] in Hj.
    apply bind_inv in Hj. destruct Hj as (b & Eb & Hj).
    apply bind_inv in Hj. destruct Hj as (r & Er & Hj).
    inversion Hj; subst tlvs; clear Hj.
    inversion Hall as [| ? ? Hp Hps]; subst.
    pose proof (tlv_as_specified_length _ _ _ Hp Eb).
    pose proof (IH r Hps Er).
    rewrite length_app. cbn [List.length]. lia.
Qed.

(* ------------------------------------------------------------------ *)
(** ** Encoding and decoding: the times and the mandatory fields *)

(** A time that the two directions of the time codec agree on: none, or
    a duration that is not negative and whole in seconds. *)
Definition time_restorable (t : option time_object) : Prop :=
  match t with
  | None => True
  | Some (Relative td) =>
      timedelta_ok td /\ 0 <= days td /\ microseconds td = 0
  | Some (Absolute _) => False
  end.

Lemma no_nul_app (a b : string) :
  no_nul (a ++ b)%string = no_nul a && no_nul b.
Proof.
  induction a as [| c a IH]; cbn; [reflexivity |].
  now rewrite IH, andb_assoc.
Qed.

Lemma no_nul_two_digits (n : Z) : 0 <= n < 100 -> no_nul (two_digits n) = true.
Proof.
  intros Hn.
  apply (below_100_cases (fun n => no_nul (two_digits n))); [| exact Hn].
  vm_compute. reflexivity.
Qed.

Lemma time_round_trip (ext : Externals) (t : option time_object)
                      (s : string) :
  time_restorable t ->
  Sm.datetime_to_smpp_time t = Ok s ->
  no_nul s = true /\ Sm.smpp_time_to_datetime ext s = Ok t.
Proof.
  destruct t as [[x | td] |]; cbn [time_restorable]; intros Hr Hs.
  - contradiction.
  - destruct Hr as (Hok & Hd & Hus).
    assert (H63 : at_most_63_weeks td).
    { unfold at_most_63_weeks. unfold Sm.datetime_to_smpp_time in Hs.
      destruct (timedelta_gtb td (timedelta_weeks 63));
        [discriminate | reflexivity]. }
    destruct (decomposition_bounds td Hok Hd H63) as (? & ? & ? & ? & ? & ?).
    rewrite (relative_time_digits td Hok Hd H63) in Hs.
    inversion Hs; subst s; clear Hs. split.
    + change (no_nul (two_digits (td_years td) ++ two_digits (td_months td)
                      ++ two_digits (td_days td) ++ two_digits (td_hours td)
                      ++ two_digits (td_minutes td)
                      ++ two_digits (td_seconds td) ++ "000R")%string
              = true).
      rewrite !no_nul_app, !no_nul_two_digits by assumption. reflexivity.
    + destruct (relative_time_round_trip ext td Hok Hd H63 Hus)
        as (s & Hs & Hp).
      rewrite (relative_time_digits td Hok Hd H63) in Hs.
      inversion Hs; subst s. exact Hp.
  - inversion Hs; subst s. split; reflexivity.
Qed.

Lemma PhoneNumber_eta (p : PhoneNumber) :
  mk_PhoneNumber (number p) (ton p) (npi p) = p.
Proof. now destruct p. Qed.

(** Reading back the mandatory part of a body laid out as [pdu] does. *)
Lemma read_mandatory_encoded
    (ext : Externals) (self : Sm.t) (header head rest short : bytes)
    (dc : Z) (n : nat) (enc : string) (codec_info : CodecInfo)
    (text : string) (default_encoding : string)
    (custom_codecs : option codec_dict) :
  List.length header = 16%nat ->
  Sm_body_head self = Ok head ->
  no_nul (Sm.service_type self) = true ->
  no_nul (number (Sm.source self)) = true ->
  no_nul (number (Sm.destination self)) = true ->
  is_TON ext (ton (Sm.source self)) = true ->
  is_NPI ext (npi (Sm.source self)) = true ->
  is_TON ext (ton (Sm.destination self)) = true ->
  is_NPI ext (npi (Sm.destination self)) = true ->
  time_restorable (Sm.schedule_delivery_time self) ->
  time_restorable (Sm.validity_period self) ->
  0 <= dc <= 255 ->
  0 <= Sm.sm_default_msg_id self <= 255 ->
  (n <= 255)%nat ->
  n = List.length short ->
  (if dc =? 0 then default_encoding = enc
   else SmppDataCoding_name ext dc = Some enc) ->
  find_codec_info ext enc custom_codecs = Ok codec_info ->
  decode codec_info short = Ok text ->
  exists t1 t2,
    Sm.datetime_to_smpp_time (Sm.schedule_delivery_time self) = Ok t1
    /\ Sm.datetime_to_smpp_time (Sm.validity_period self) = Ok t2
    /\ Sm.smpp_time_to_datetime ext t1 = Ok (Sm.schedule_delivery_time self)
    /\ Sm.smpp_time_to_datetime ext t2 = Ok (Sm.validity_period self)
    /\ Sm.read_mandatory ext
         (header ++ head
          ++ [byte_of_Z dc; byte_of_Z (Sm.sm_default_msg_id self);
              byte_of_Z (Z.of_nat n)] ++ short ++ rest)
         default_encoding custom_codecs
       = Ok (Sm.mk_frame (Sm.service_type self) (Sm.source self)
               (Sm.destination self) (Sm.esm_class self)
               (Sm.protocol_id self) (Sm.priority_flag self) t1 t2
               (Sm.registered_delivery self)
               (Sm.replace_if_present_flag self) dc enc codec_info
               (Sm.sm_default_msg_id self) (Z.of_nat n) text
               (16 + List.length head + 3 + n)).
Proof.
  intros Hl Hhead N1 N2 N3 T1 P1 T2 P2 R1 R2 Rdc Rdmi Rn En Henc Hfind Hdec.
  subst n. unfold Sm_body_head in Hhead.
  bind_as Hhead b1 E1. bind_as Hhead b2 E2. bind_as Hhead b3 E3.
  bind_as Hhead b4 E4. bind_as Hhead b5 E5. bind_as Hhead b6 E6.
  bind_as Hhead t1 Et1. bind_as Hhead b7 E7. bind_as Hhead t2 Et2.
  bind_as Hhead b8 E8. bind_as Hhead b9 E9.
  inversion Hhead; subst head; clear Hhead.
  destruct (time_round_trip ext _ _ R1 Et1) as [N4 Ep1].
  destruct (time_round_trip ext _ _ R2 Et2) as [N5 Ep2].
  exists t1, t2. repeat (split; [assumption |]).
  apply pack_BB_inv in E2. destruct E2 as (Q1 & Q2 & ->).
  apply pack_BB_inv in E4. destruct E4 as (Q3 & Q4 & ->).
  apply pack_BBB_inv in E6. destruct E6 as (Q5 & Q6 & Q7 & ->).
  apply pack_BB_inv in E9. destruct E9 as (Q8 & Q9 & ->).
  unfold NULL. cbn [app].
  repeat (rewrite <- app_assoc || rewrite <- app_comm_cons).
  match goal with
  | |- Sm.read_mandatory _ (header ++ ?body) _ _ = _ =>
      pose proof (at_index_body header body Hl) as A
  end.
  unfold Sm.read_mandatory, PDU_HEADER_LENGTH, Sm.enum_member.
  rewrite (get_c_octet_string_at _ _ _ _ _ E1 N1 A). cbn [bind].
  apply at_index_c_octet in A.
  rewrite (get_integer_1_at _ _ _ _ Q1 A). cbn [bind].
  apply at_index_cons in A. rewrite T1. cbn [bind].
  rewrite (get_integer_1_at _ _ _ _ Q2 A). cbn [bind].
  apply at_index_cons in A. rewrite P1. cbn [bind].
  rewrite (get_c_octet_string_at _ _ _ _ _ E3 N2 A). cbn [bind].
  apply at_index_c_octet in A.
  rewrite (get_integer_1_at _ _ _ _ Q3 A). cbn [bind].
  apply at_index_cons in A. rewrite T2. cbn [bind].
  rewrite (get_integer_1_at _ _ _ _ Q4 A). cbn [bind].
  apply at_index_cons in A. rewrite P2. cbn [bind].
  rewrite (get_c_octet_string_at _ _ _ _ _ E5 N3 A). cbn [bind].
  apply at_index_c_octet in A.
  rewrite (get_integer_1_at _ _ _ _ Q5 A). cbn [bind].
  apply at_index_cons in A.
  rewrite (get_integer_1_at _ _ _ _ Q6 A). cbn [bind].
  apply at_index_cons in A.
  rewrite (get_integer_1_at _ _ _ _ Q7 A). cbn [bind].
  apply at_index_cons in A.
  rewrite (get_c_octet_string_at _ _ _ _ _ E7 N4 A). cbn [bind].
  apply at_index_c_octet in A.
  rewrite (get_c_octet_string_at _ _ _ _ _ E8 N5 A). cbn [bind].
  apply at_index_c_octet in A.
  rewrite (get_integer_1_at _ _ _ _ Q8 A). cbn [bind].
  apply at_index_cons in A.
  rewrite (get_integer_1_at _ _ _ _ Q9 A). cbn [bind].
  apply at_index_cons in A.
  rewrite (get_integer_1_at _ _ _ _ Rdc A). cbn [bind].
  apply at_index_cons in A.
  assert (Hname : (if negb (dc =? 0)
                   then of_option UnknownEnumValue (SmppDataCoding_name ext dc)
                   else Ok default_encoding) = Ok enc).
  { destruct (dc =? 0); cbn [negb]; [now subst | now rewrite Henc]. }
  rewrite Hname. cbn [bind]. rewrite Hfind. cbn [bind].
  rewrite (get_integer_1_at _ _ _ _ Rdmi A). cbn [bind].
  apply at_index_cons in A.
  rewrite (get_integer_1_at _ _ (Z.of_nat (List.length short)) _
             ltac:(lia) A).
  cbn [bind]. apply at_index_cons in A.
  rewrite Nat2Z.id, (slice_at _ _ _ _ A), Hdec. cbn [bind].
  rewrite !PhoneNumber_eta.
  match goal with
  | |- Ok (Sm.mk_frame _ _ _ _ _ _ _ _ _ _ _ _ _ _ _ _ ?i1)
       = Ok (Sm.mk_frame _ _ _ _ _ _ _ _ _ _ _ _ _ _ _ _ ?i2) =>
      replace i2 with i1; [reflexivity |]
  end.
  repeat (rewrite length_app || cbn [List.length]). lia.
Qed.

(* ------------------------------------------------------------------ *)
(** ** Encoding and decoding: [Sm] *)

Ltac frame_simpl :=
  cbn [bind Sm.f_service_type Sm.f_source Sm.f_destination Sm.f_esm_class
       Sm.f_protocol_id Sm.f_priority_flag Sm.f_schedule_delivery_time
       Sm.f_validity_period Sm.f_registered_delivery
       Sm.f_replace_if_present_flag Sm.f_data_coding Sm.f_encoding
       Sm.f_codec_info Sm.f_sm_default_msg_id Sm.f_sm_length
       Sm.f_short_message Sm.f_index PduHeader.pdu_length
       PduHeader.sequence_num PduHeader.command_status
       PduHeader.smpp_command].

(** One turn of the loop over the payload TLV. *)
Lemma read_payload_tlv
    (ext : Externals) (codec_info : CodecInfo) (pdu : bytes) (pdu_length : Z)
    (fuel i : nat) (hh b rest : bytes) (mp text : string)
    (ops : list OptionalParam) :
  OptionalTag_data_type ext MESSAGE_PAYLOAD <> None ->
  pack_HH MESSAGE_PAYLOAD (Z.of_nat (List.length b)) = Ok hh ->
  at_index pdu i (hh ++ b ++ rest) ->
  Z.of_nat i < pdu_length ->
  decode codec_info b = Ok text ->
  Sm.read_optional_params (S fuel) ext codec_info pdu pdu_length i mp ops
  = Sm.read_optional_params fuel ext codec_info pdu pdu_length
                            (i + List.length (hh ++ b)) text ops.
Proof.
  intros Hmem Hhh A Hlt Hdec.
  apply pack_HH_inv in Hhh. destruct Hhh as (Rt & Rl & ->).
  cbn [Sm.read_optional_params].
  replace (Z.of_nat i <? pdu_length) with true
    by (symmetry; now apply Z.ltb_lt).
  cbn [negb]. cbn [app] in A.
  rewrite (get_integer_2_at _ _ _ _ Rt A). cbn [bind].
  destruct (OptionalTag_data_type ext MESSAGE_PAYLOAD) as [ty |];
    [| contradiction].
  cbn [of_option bind].
  apply at_index_cons, at_index_cons in A.
  replace (i + 1 + 1)%nat with (i + 2)%nat in A by lia.
  rewrite (get_integer_2_at _ _ _ _ Rl A). cbn [bind].
  rewrite Z.eqb_refl.
  apply at_index_cons, at_index_cons in A.
  replace (i + 2 + 1 + 1)%nat with (i + 2 + 2)%nat in A by lia.
  rewrite Nat2Z.id, (slice_at _ _ _ _ A), Hdec. cbn [bind].
  cbn [List.length app].
  replace (i + 2 + 2 + List.length b)%nat
    with (i + S (S (S (S (List.length b)))))%nat by lia.
  reflexivity.
Qed.

(** The loop over the payload TLV followed by the TLVs of parameters
    written as specified, when they run to the end of the PDU. *)
Lemma read_payload_then_params
    (ext : Externals) (codec_info : CodecInfo) (pdu : bytes) (fuel i : nat)
    (hh b tlvs : bytes) (text : string) (params : list OptionalParam) :
  OptionalTag_data_type ext MESSAGE_PAYLOAD <> None ->
  pack_HH MESSAGE_PAYLOAD (Z.of_nat (List.length b)) = Ok hh ->
  decode codec_info b = Ok text ->
  Forall (tlv_as_specified ext) params ->
  join_results (map (OptionalParam_tlv ext) params) = Ok tlvs ->
  at_index pdu i (hh ++ b ++ tlvs) ->
  (i + List.length (hh ++ b) + List.length tlvs = List.length pdu)%nat ->
  (1 + List.length params <= fuel)%nat ->
  Sm.read_optional_params fuel ext codec_info pdu
                          (Z.of_nat (List.length pdu)) i "" []
  = Ok (text, params).
Proof.
  intros Hmem Ehh Hdec Hall Htlvs A Hlen Hfuel.
  assert (H4 : (4 <= List.length (hh ++ b))%nat).
  { pose proof Ehh as E. apply pack_HH_inv in E.
    destruct E as (_ & _ & ->). cbn. lia. }
  destruct fuel as [| fuel]; [lia |].
  rewrite (read_payload_tlv ext codec_info pdu (Z.of_nat (List.length pdu))
             fuel i hh b tlvs "" text [] Hmem Ehh A ltac:(lia) Hdec).
  rewrite (read_optional_params_encoded ext codec_info pdu text params tlvs
             fuel _ [] Hall Htlvs).
  - reflexivity.
  - apply (at_index_app _ _ (hh ++ b)). now rewrite <- app_assoc.
  - lia.
  - lia.
Qed.

(** The encoding the text of a message is sent in: its [encoding], or the
    default encoding when [encoding] is not set. Read on the message as
    [smpp_encode] leaves it, this is the encoding of the bytes in the
    PDU. *)
Definition wire_encoding (self : Sm.t) : string :=
  match Sm.encoding self with
  | Some e => if str_empty e then Sm._default_encoding self else e
  | None => Sm._default_encoding self
  end.

(** The fields of an [Sm] that the decoder gives back: the object is as
    its constructor leaves it (status [ESME_ROK], one text only); the
    strings have no NUL; the numbers have a [TON] and an [NPI] of the
    enumerations; the times are none or durations that are not negative
    and whole in seconds; the optional parameters are written as
    specified. *)
Definition Sm_fields_restorable (ext : Externals) (self : Sm.t) : Prop :=
  Sm.command_status self = ESME_ROK
  /\ ((Sm.short_message self <> "" /\ Sm.message_payload self = "")
      \/ (Sm.short_message self = "" /\ Sm.message_payload self <> ""))
  /\ OptionalTag_data_type ext MESSAGE_PAYLOAD <> None
  /\ Forall (tlv_as_specified ext) (Sm.optional_params self)
  /\ no_nul (Sm.service_type self) = true
  /\ no_nul (number (Sm.source self)) = true
  /\ no_nul (number (Sm.destination self)) = true
  /\ is_TON ext (ton (Sm.source self)) = true
  /\ is_NPI ext (npi (Sm.source self)) = true
  /\ is_TON ext (ton (Sm.destination self)) = true
  /\ is_NPI ext (npi (Sm.destination self)) = true
  /\ time_restorable (Sm.schedule_delivery_time self)
  /\ time_restorable (Sm.validity_period self).

(** The text of an [Sm] is given back by the decoder. Whatever
    [smpp_encode] returns for the text, bytes [b] and the message with
    the encoding it has then (its own, or ["ucs2"] when the call pinned
    it): the data coding that [pdu] writes is read back as the encoding
    the bytes are in (a value that [SmppDataCoding] names so, or 0 with
    that encoding the default one); the codec of that encoding decodes
    [b] to the text and no bytes to the empty text; and a text given as
    [short_message] fits 254 bytes. *)
Definition Sm_text_restorable (ext : Externals) (self : Sm.t) : Prop :=
  forall (b : bytes) (self' : Sm.t),
    Sm.smpp_encode ext self (Sm_text self) = Ok (b, self') ->
    (forall dc, Sm.data_coding_of ext (Sm.encoding self') = Ok dc ->
                if dc =? 0 then Sm._default_encoding self = wire_encoding self'
                else SmppDataCoding_name ext dc = Some (wire_encoding self'))
    /\ (forall c,
          find_codec_info ext (wire_encoding self') (Sm._custom_codecs self)
          = Ok c ->
          decode c b = Ok (Sm_text self)
          /\ decode c [] = Ok ""
          /\ (Sm.short_message self <> "" -> (List.length b <= 254)%nat)).

(** The conditions under which an [Sm] is given back by the decoder. *)
Definition Sm_restorable (ext : Externals) (self : Sm.t) : Prop :=
  Sm_fields_restorable ext self /\ Sm_text_restorable ext self.

(** What [smpp_encode] returns: the message as it was, or with its unset
    encoding pinned to ["ucs2"]; and the bytes are those of the codec of
    the encoding the message has then. *)
Lemma smpp_encode_sent (ext : Externals) (self self' : Sm.t) (text : string)
                       (b : bytes) :
  Sm.smpp_encode ext self text = Ok (b, self') ->
  (self' = self
   \/ (Sm.encoding_unset (Sm.encoding self) = true
       /\ self' = Sm.set_encoding self (Some "ucs2")))
  /\ exists c,
       find_codec_info ext (wire_encoding self') (Sm._custom_codecs self)
       = Ok c
       /\ encode c text (Sm.error_handling self) = Ok b.
Proof.
  assert (Hauto :
    Sm.encoding_unset (Sm.encoding self) = true ->
    match (codec_info <- find_codec_info ext (Sm._default_encoding self)
                                         (Sm._custom_codecs self) ;;
           encode codec_info text (Sm.error_handling self)) with
    | Ok result => Ok (result, self)
    | Err EncodingFailure =>
        codec_info <- find_codec_info ext "ucs2" (Sm._custom_codecs self) ;;
        result <- encode codec_info text (Sm.error_handling self) ;;
        Ok (result, Sm.set_encoding self (Some "ucs2"))
    | Err e => Err e
    end = Ok (b, self') ->
    (self' = self
     \/ (Sm.encoding_unset (Sm.encoding self) = true
         /\ self' = Sm.set_encoding self (Some "ucs2")))
    /\ exists c,
         find_codec_info ext (wire_encoding self') (Sm._custom_codecs self)
         = Ok c
         /\ encode c text (Sm.error_handling self) = Ok b).
  { intros Hu H.
    destruct (codec_info <- find_codec_info ext (Sm._default_encoding self)
                                            (Sm._custom_codecs self) ;;
              encode codec_info text (Sm.error_handling self))
      as [r | e] eqn:E.
    - inversion H; subst r self'; clear H. split; [now left |].
      bind_as E c Ec. exists c.
      replace (wire_encoding self) with (Sm._default_encoding self);
        [now split |].
      unfold wire_encoding, Sm.encoding_unset in *.
      destruct (Sm.encoding self); [now rewrite Hu | reflexivity].
    - destruct e; try discriminate H.
      bind_as H c Ec. bind_as H r Er. inversion H; subst r self'; clear H.
      split; [right; now split |]. exists c. now split. }
  unfold Sm.smpp_encode. intros H.
  destruct (Sm.encoding self) as [e |] eqn:Ee.
  - destruct (str_empty e) eqn:Es.
    + apply Hauto; [exact Es | exact H].
    + bind_as H c Ec. bind_as H r Er. inversion H; subst r self'; clear H.
      split; [now left |]. exists c.
      unfold wire_encoding. rewrite Ee, Es. now split.
  - apply Hauto; [reflexivity | exact H].
Qed.

(** What [from_pdu] hands to the constructor of its class, on a PDU laid
    out as [pdu] does from a message whose fields are restorable: the
    fields of the message, the encoding that the data coding names, and
    the four fields that are not on the wire at their defaults. *)
Lemma Sm_from_pdu_of_layout
    (ext : Externals) (smpp_command : Z) (self : Sm.t) (sm_bytes : bytes)
    (dc : Z) (enc : string) (c : CodecInfo) (data : bytes) :
  Sm_fields_restorable ext self ->
  is_SmppCommand ext smpp_command = true ->
  is_SmppCommandStatus ext ESME_ROK = true ->
  (if dc =? 0 then Sm._default_encoding self = enc
   else SmppDataCoding_name ext dc = Some enc) ->
  find_codec_info ext enc (Sm._custom_codecs self) = Ok c ->
  decode c sm_bytes = Ok (Sm_text self) ->
  decode c [] = Ok "" ->
  (Sm.short_message self <> "" -> (List.length sm_bytes <= 254)%nat) ->
  (promoted self sm_bytes = true ->
   exists hh, pack_HH MESSAGE_PAYLOAD (Z.of_nat (List.length sm_bytes))
              = Ok hh
              /\ Sm_layout ext smpp_command self dc 0 [] (hh ++ sm_bytes)
                           data) ->
  (promoted self sm_bytes = false ->
   Sm_layout ext smpp_command self dc (List.length sm_bytes) sm_bytes []
             data) ->
  exists header,
    SmppMessage.parse_header ext (slice data 0 PDU_HEADER_LENGTH)
    = Ok header
    /\ PduHeader.smpp_command header = smpp_command
    /\ forall (T : Type) (cls : Sm.constructor T),
         Sm.from_pdu cls ext data header (Sm._default_encoding self)
                     (Sm._custom_codecs self)
         = cls (Sm.short_message self) (Sm.source self)
               (Sm.destination self) (Sm.service_type self)
               (Sm.esm_class self) (Sm.protocol_id self)
               (Sm.priority_flag self) (Sm.schedule_delivery_time self)
               (Sm.validity_period self) (Sm.registered_delivery self)
               (Sm.replace_if_present_flag self) (Some enc)
               (Sm.sm_default_msg_id self) (Sm.message_payload self)
               (Sm.optional_params self) true "strict"
               (Sm.sequence_num self) "" "".
Proof.
  intros (Hst & Hone & Hmem & Hall
          & N1 & N2 & N3 & T1 & P1 & T2 & P2 & R1 & R2)
         Hc Hs Hname Ec Hdec Hdec0 Hfit Hprom Hnoprom.
  assert (Hcase : (promoted self sm_bytes = true
                   /\ Sm.short_message self = ""
                   /\ Sm_text self = Sm.message_payload self)
                  \/ (promoted self sm_bytes = false
                      /\ Sm.message_payload self = ""
                      /\ Sm_text self = Sm.short_message self)).
  { unfold promoted, Sm_text.
    destruct Hone as [[Hsm Hmp] | [Hsm Hmp]].
    - right. rewrite Hmp. cbn [str_empty negb]. rewrite orb_false_r.
      replace (str_empty (Sm.short_message self)) with false
        by (symmetry; now apply str_empty_false).
      split; [| auto]. apply Nat.ltb_ge. auto.
    - left. rewrite Hsm. cbn [str_empty].
      replace (str_empty (Sm.message_payload self)) with false
        by (symmetry; now apply str_empty_false).
      rewrite orb_true_r. auto. }
  destruct Hcase as [(Ep & Hsm & Htext) | (Ep & Hmp & Htext)].
  - (* the text travels in the payload TLV *)
    destruct (Hprom Ep) as (hh & Ehh & header & head & tlvs & Hhead & Htlvs
                            & Hpk & Rdc & Rdmi & Rn & ->).
    pose proof (pack_header_length _ _ _ _ _ Hpk) as Hl.
    rewrite Hst in Hpk.
    eexists. split; [now apply (parse_header_packed ext _ _ _ _ _ _ Hpk) |].
    split; [reflexivity |].
    intros T cls.
    destruct (read_mandatory_encoded ext self header head
                ((hh ++ sm_bytes) ++ tlvs) [] dc 0 enc c ""
                (Sm._default_encoding self) (Sm._custom_codecs self)
                Hl Hhead N1 N2 N3 T1 P1 T2 P2 R1 R2 Rdc Rdmi
                ltac:(lia) eq_refl Hname Ec Hdec0)
      as (t1 & t2 & _ & _ & Et1 & Et2 & Eread).
    unfold Sm.from_pdu. rewrite Eread. frame_simpl.
    match goal with
    | |- context [Sm.read_optional_params (List.length ?d) _ _ _ _ _ _ _] =>
        set (pdu := d) in *
    end.
    assert (A : at_index pdu (16 + List.length head + 3 + 0)
                         (hh ++ sm_bytes ++ tlvs)).
    { subst pdu. rewrite <- app_assoc.
      pose proof (at_index_body header
                    (head ++ [byte_of_Z dc;
                              byte_of_Z (Sm.sm_default_msg_id self);
                              byte_of_Z (Z.of_nat 0)] ++ [] ++
                     hh ++ sm_bytes ++ tlvs) Hl) as A.
      apply at_index_app in A.
      apply (at_index_app _ _ [_; _; _]) in A.
      cbn [app List.length] in A.
      now rewrite Nat.add_0_r. }
    assert (Hlen : List.length pdu
                   = (16 + List.length head + 3 + 0
                      + List.length (hh ++ sm_bytes) + List.length tlvs)%nat).
    { subst pdu. repeat (rewrite length_app || cbn [List.length]). lia. }
    pose proof (join_results_length ext _ _ Hall Htlvs) as Hfuel.
    unfold Sm_params_tlvs in Htlvs.
    assert (H4 : (4 <= List.length (hh ++ sm_bytes))%nat).
    { pose proof Ehh as E. apply pack_HH_inv in E.
      destruct E as (_ & _ & ->). cbn. lia. }
    rewrite (read_payload_then_params ext c pdu (List.length pdu)
               (16 + List.length head + 3 + 0) hh
               sm_bytes tlvs (Sm_text self) (Sm.optional_params self)
               Hmem Ehh Hdec Hall Htlvs A ltac:(lia) ltac:(lia)).
    frame_simpl. rewrite Et1, Et2. frame_simpl.
    rewrite Htext, Hsm. reflexivity.
  - (* the text is inline *)
    destruct (Hnoprom Ep) as (header & head & tlvs & Hhead & Htlvs
                              & Hpk & Rdc & Rdmi & Rn & ->).
    pose proof (pack_header_length _ _ _ _ _ Hpk) as Hl.
    rewrite Hst in Hpk.
    eexists. split; [now apply (parse_header_packed ext _ _ _ _ _ _ Hpk) |].
    split; [reflexivity |].
    intros T cls.
    destruct (read_mandatory_encoded ext self header head
                ([] ++ tlvs) sm_bytes dc (List.length sm_bytes) enc c
                (Sm_text self)
                (Sm._default_encoding self) (Sm._custom_codecs self)
                Hl Hhead N1 N2 N3 T1 P1 T2 P2 R1 R2 Rdc Rdmi
                Rn eq_refl Hname Ec Hdec)
      as (t1 & t2 & _ & _ & Et1 & Et2 & Eread).
    unfold Sm.from_pdu. rewrite Eread. frame_simpl.
    match goal with
    | |- context [Sm.read_optional_params (List.length ?d) _ _ _ _ _ _ _] =>
        set (pdu := d) in *
    end.
    assert (A : at_index pdu
                  (16 + List.length head + 3 + List.length sm_bytes) tlvs).
    { subst pdu.
      pose proof (at_index_body header
                    (head ++ [byte_of_Z dc;
                              byte_of_Z (Sm.sm_default_msg_id self);
                              byte_of_Z (Z.of_nat (List.length sm_bytes))]
                     ++ sm_bytes ++ [] ++ tlvs) Hl) as A.
      apply at_index_app in A.
      apply (at_index_app _ _ [_; _; _]) in A.
      apply at_index_app in A.
      exact A. }
    assert (Hlen : List.length pdu
                   = (16 + List.length head + 3 + List.length sm_bytes
                      + List.length tlvs)%nat).
    { subst pdu. repeat (rewrite length_app || cbn [List.length]). lia. }
    pose proof (join_results_length ext _ _ Hall Htlvs) as Hfuel.
    unfold Sm_params_tlvs in Htlvs.
    rewrite (read_optional_params_encoded ext c pdu ""
               (Sm.optional_params self) tlvs (List.length pdu) _ []
               Hall Htlvs A).
    + cbn [app]. frame_simpl. rewrite Et1, Et2. frame_simpl.
      rewrite Htext, Hmp. reflexivity.
    + lia.
    + lia.
Qed.

(** What [from_pdu] hands to the constructor of its class, on the PDU of
    a restorable [Sm]: the fields of the message, with the encoding the
    text was sent in and the four fields that are not on the wire at
    their defaults. [pdu] leaves the message as it was, or with its unset
    encoding pinned to ["ucs2"]. *)
Lemma Sm_from_pdu_of_pdu (ext : Externals) (smpp_command : Z)
                         (self self' : Sm.t) (data : bytes) :
  Sm_restorable ext self ->
  Sm.pdu ext smpp_command self = Ok (data, self') ->
  is_SmppCommand ext smpp_command = true ->
  is_SmppCommandStatus ext ESME_ROK = true ->
  (self' = self
   \/ (Sm.encoding_unset (Sm.encoding self) = true
       /\ self' = Sm.set_encoding self (Some "ucs2")))
  /\ exists header,
       SmppMessage.parse_header ext (slice data 0 PDU_HEADER_LENGTH)
       = Ok header
       /\ PduHeader.smpp_command header = smpp_command
       /\ forall (T : Type) (cls : Sm.constructor T),
            Sm.from_pdu cls ext data header (Sm._default_encoding self)
                        (Sm._custom_codecs self)
            = cls (Sm.short_message self) (Sm.source self)
                  (Sm.destination self) (Sm.service_type self)
                  (Sm.esm_class self) (Sm.protocol_id self)
                  (Sm.priority_flag self) (Sm.schedule_delivery_time self)
                  (Sm.validity_period self) (Sm.registered_delivery self)
                  (Sm.replace_if_present_flag self)
                  (Some (wire_encoding self'))
                  (Sm.sm_default_msg_id self) (Sm.message_payload self)
                  (Sm.optional_params self) true "strict"
                  (Sm.sequence_num self) "" "".
Proof.
  intros [Hfields Htext] Hpdu Hc Hs.
  pose proof Hpdu as H'. unfold Sm.pdu in H'. fold (Sm_text self) in H'.
  apply bind_inv in H'. destruct H' as ([sm_bytes s] & Eenc & H').
  apply bind_inv in H'. destruct H' as (dc & Edc & _).
  destruct (Htext sm_bytes s Eenc) as [Hname Hcodec].
  specialize (Hname dc Edc).
  destruct (smpp_encode_sent ext _ _ _ _ Eenc) as (Hrel & c & Ec & _).
  destruct (Hcodec c Ec) as (Hdec & Hdec0 & Hfit).
  destruct (Sm_pdu_layout _ _ _ _ _ _ _ _ Eenc Edc Hpdu)
    as (-> & _ & Hprom & Hnoprom).
  split; [exact Hrel |].
  destruct Hrel as [-> | [_ ->]].
  - exact (Sm_from_pdu_of_layout ext smpp_command self sm_bytes dc _ c data
             Hfields Hc Hs Hname Ec Hdec Hdec0 Hfit Hprom Hnoprom).
  - (* the pinned message has the fields of [self], its encoding apart *)
    exact (Sm_from_pdu_of_layout ext smpp_command
             (Sm.set_encoding self (Some "ucs2")) sm_bytes dc _ c data
             Hfields Hc Hs Hname Ec Hdec Hdec0 Hfit Hprom Hnoprom).
Qed.

(* ------------------------------------------------------------------ *)
(** ** Encoding and decoding: every message *)

(** Two [Sm] equal in every field but the four that are not on the wire
    ([log_id], [extra_data], [auto_message_payload], [error_handling]) and
    the two private ones set by [set_encoding_info]. *)
Definition Sm_wire_equal (a b : Sm.t) : Prop :=
  Sm.command_status a = Sm.command_status b
  /\ Sm.sequence_num a = Sm.sequence_num b
  /\ Sm.short_message a = Sm.short_message b
  /\ Sm.source a = Sm.source b
  /\ Sm.destination a = Sm.destination b
  /\ Sm.service_type a = Sm.service_type b
  /\ Sm.esm_class a = Sm.esm_class b
  /\ Sm.protocol_id a = Sm.protocol_id b
  /\ Sm.priority_flag a = Sm.priority_flag b
  /\ Sm.schedule_delivery_time a = Sm.schedule_delivery_time b
  /\ Sm.validity_period a = Sm.validity_period b
  /\ Sm.registered_delivery a = Sm.registered_delivery b
  /\ Sm.replace_if_present_flag a = Sm.replace_if_present_flag b
  /\ Sm.encoding a = Sm.encoding b
  /\ Sm.sm_default_msg_id a = Sm.sm_default_msg_id b
  /\ Sm.message_payload a = Sm.message_payload b
  /\ Sm.optional_params a = Sm.optional_params b.

(** Two messages of the same class, equal in every field but [log_id] and
    [extra_data] and, for an [Sm], the fields above. *)
Definition wire_equal (m m' : Message) : Prop :=
  match m, m' with
  | MGenericNack x, MGenericNack y =>
      GenericNack.command_status x = GenericNack.command_status y
      /\ GenericNack.sequence_num x = GenericNack.sequence_num y
  | MSubmitSm x, MSubmitSm y => Sm_wire_equal x y
  | MSubmitSmResp x, MSubmitSmResp y =>
      SubmitSmResp.base x = SubmitSmResp.base y
  | MDeliverSm x, MDeliverSm y =>
      Sm_wire_equal (DeliverSm.base x) (DeliverSm.base y)
      /\ DeliverSm.receipt x = DeliverSm.receipt y
  | MDeliverSmResp x, MDeliverSmResp y => x = y
  | MBindTransceiver x, MBindTransceiver y => x = y
  | MBindTransceiverResp x, MBindTransceiverResp y => x = y
  | MEnquireLink x, MEnquireLink y => x = y
  | MEnquireLinkResp x, MEnquireLinkResp y => x = y
  | MUnbind x, MUnbind y => x = y
  | MUnbindResp x, MUnbindResp y => x = y
  | _, _ => False
  end.

(** The default encoding and the codec overrides of a message: those
    [set_encoding_info] stored in an [Sm]; none for the other classes,
    whose decoders do not look at them. *)
Definition default_encoding_of (m : Message) : string :=
  match m with
  | MSubmitSm x => Sm._default_encoding x
  | MDeliverSm x => Sm._default_encoding (DeliverSm.base x)
  | _ => ""
  end.

Definition custom_codecs_of (m : Message) : option codec_dict :=
  match m with
  | MSubmitSm x => Sm._custom_codecs x
  | MDeliverSm x => Sm._custom_codecs (DeliverSm.base x)
  | _ => None
  end.

(** A function on [Sm] applied to the [Sm] of a message. *)
Definition Message_map_Sm (f : Sm.t -> Sm.t) (m : Message) : Message :=
  match m with
  | MSubmitSm x => MSubmitSm (f x)
  | MDeliverSm x => MDeliverSm (DeliverSm.mk (f (DeliverSm.base x))
                                             (DeliverSm.receipt x))
  | _ => m
  end.

(** [not m.encoding], for a message that has the field. *)
Definition encoding_unset_in (m : Message) : bool :=
  match m with
  | MSubmitSm x => Sm.encoding_unset (Sm.encoding x)
  | MDeliverSm x => Sm.encoding_unset (Sm.encoding (DeliverSm.base x))
  | _ => false
  end.

(** The message after [smpp_encode] fell back to UCS2:
    [self.encoding = 'ucs2']. *)
Definition pinned_to_ucs2 : Message -> Message :=
  Message_map_Sm (fun x => Sm.set_encoding x (Some "ucs2")).

(** The message with the encoding its text is sent in as its [encoding]:
    as it is when the field is set, and with the default encoding when it
    is not. *)
Definition encoding_normalized : Message -> Message :=
  Message_map_Sm (fun x => Sm.set_encoding x (Some (wire_encoding x))).

(** The messages that the decoder gives back. The command and the status
    are members of their enumerations; a request has the status its
    constructor gives it; C-octet strings have no NUL; a [DeliverSm] is
    restorable as an [Sm], has no receipt and does not announce one. A
    [SubmitSm] is never given back. *)
Definition restorable (ext : Externals) (m : Message) : Prop :=
  match m with
  | MSubmitSm _ => False
  | MDeliverSm x =>
      is_SmppCommand ext DELIVER_SM = true
      /\ is_SmppCommandStatus ext ESME_ROK = true
      /\ Sm_restorable ext (DeliverSm.base x)
      /\ DeliverSm.receipt x = None
      /\ Z.land (Z.shiftr (Sm.esm_class (DeliverSm.base x)) 2) 0x0F <> 1
  | MGenericNack x =>
      is_SmppCommand ext GENERIC_NACK = true
      /\ is_SmppCommandStatus ext (GenericNack.command_status x) = true
  | MSubmitSmResp x =>
      is_SmppCommand ext SUBMIT_SM_RESP = true
      /\ is_SmppCommandStatus ext
           (SmResp.command_status (SubmitSmResp.base x)) = true
  | MDeliverSmResp x =>
      is_SmppCommand ext DELIVER_SM_RESP = true
      /\ is_SmppCommandStatus ext (SmResp.command_status x) = true
  | MBindTransceiver x =>
      is_SmppCommand ext BIND_TRANSCEIVER = true
      /\ is_SmppCommandStatus ext ESME_ROK = true
      /\ BindTransceiver.command_status x = ESME_ROK
      /\ no_nul (BindTransceiver.system_id x) = true
      /\ no_nul (BindTransceiver.password x) = true
      /\ no_nul (BindTransceiver.system_type x) = true
      /\ no_nul (BindTransceiver.address_range x) = true
      /\ is_TON ext (BindTransceiver.addr_ton x) = true
      /\ is_NPI ext (BindTransceiver.addr_npi x) = true
  | MBindTransceiverResp x =>
      is_SmppCommand ext BIND_TRANSCEIVER_RESP = true
      /\ is_SmppCommandStatus ext (BindTransceiverResp.command_status x)
         = true
      /\ no_nul (BindTransceiverResp.system_id x) = true
      /\ (forall v, BindTransceiverResp.sc_interface_version x = Some v ->
                    version_tlv_fits ext v)
  | MEnquireLink x =>
      is_SmppCommand ext ENQUIRE_LINK = true
      /\ is_SmppCommandStatus ext ESME_ROK = true
      /\ EnquireLink.command_status x = ESME_ROK
  | MEnquireLinkResp x =>
      is_SmppCommand ext ENQUIRE_LINK_RESP = true
      /\ is_SmppCommandStatus ext (EnquireLinkResp.command_status x) = true
  | MUnbind x =>
      is_SmppCommand ext UNBIND = true
      /\ is_SmppCommandStatus ext ESME_ROK = true
      /\ Unbind.command_status x = ESME_ROK
  | MUnbindResp x =>
      is_SmppCommand ext UNBIND_RESP = true
      /\ is_SmppCommandStatus ext (UnbindResp.command_status x) = true
  end.

Lemma Sm_restorable_valid (ext : Externals) (self : Sm.t) :
  Sm_restorable ext self ->
  ~ Sm_arguments_invalid (Sm.short_message self) (Sm.message_payload self)
                         (Sm.optional_params self).
Proof.
  intros ((_ & Hone & _ & Hall & _) & _) [[A B] | [[A B] | (p & Hp & Ht)]].
  - destruct Hone as [[? ?] | [? ?]]; congruence.
  - destruct Hone as [[? ?] | [? ?]]; congruence.
  - rewrite Forall_forall in Hall. destruct (Hall p Hp) as [Hn _].
    contradiction.
Qed.

(** A PDU that is a header and nothing else is decoded to its header. *)
Lemma header_only_decoded (ext : Externals) (c s n : Z) (data : bytes) :
  SmppMessage.pdu c s n = Ok data ->
  is_SmppCommand ext c = true ->
  is_SmppCommandStatus ext s = true ->
  SmppMessage.parse_header ext (slice data 0 PDU_HEADER_LENGTH)
  = Ok (PduHeader.mk (Z.of_nat PDU_HEADER_LENGTH) c s n).
Proof.
  unfold SmppMessage.pdu. intros H Hc Hs.
  now apply (parse_header_alone ext c s n _ data).
Qed.

(** A message with its encoding set is its own normal form, up to the
    fields that are not on the wire. *)
Lemma Sm_wire_equal_normalized (a b : Sm.t) :
  Sm.encoding_unset (Sm.encoding a) = false ->
  Sm_wire_equal (Sm.set_encoding a (Some (wire_encoding a))) b ->
  Sm_wire_equal a b.
Proof.
  unfold Sm_wire_equal, wire_encoding, Sm.encoding_unset. cbn.
  destruct (Sm.encoding a) as [e |]; [| discriminate].
  intros ->. exact (fun H => H).
Qed.

(** Closes a round trip of a message without text: it is its own normal
    form. *)
Ltac as_it_is :=
  match goal with
  | |- _ /\ (_ -> ?A) =>
      cut A; [let W := fresh "W" in
              intros W; split; [exact W | intros _; exact W] |]
  end.

(** C1, amended: for every message [m] of the dispatch table that is not
    a [SubmitSm], that [pdu] encodes, and that is restorable: [pdu]
    leaves [m] as it was, or with its unset encoding pinned to ["ucs2"];
    and decoding the bytes with the default encoding and the codec
    overrides of [m] gives a message [m2] of the same class, equal to the
    message as [pdu] left it in every field except [log_id],
    [extra_data], [auto_message_payload] and [error_handling], and except
    [encoding] when it is still unset, for which [m2] has the default
    encoding. So [m2] differs from [m] on the wire fields in [encoding]
    at most, and only when [m] had it unset: [m2] then has ["ucs2"] when
    [pdu] pinned it, and the default encoding otherwise. *)
Theorem C1_round_trip_of_restorable_messages
    (ext : Externals) (m m1 : Message) (data : bytes) :
  restorable ext m ->
  message_pdu ext m = Ok (data, m1) ->
  (m1 = m \/ (encoding_unset_in m = true /\ m1 = pinned_to_ucs2 m))
  /\ exists m2,
       decode_pdu ext data (default_encoding_of m) (custom_codecs_of m)
       = Ok m2
       /\ wire_equal (encoding_normalized m1) m2
       /\ (encoding_unset_in m1 = false -> wire_equal m1 m2).
Proof.
  intros Hr Hp. unfold decode_pdu.
  destruct m as [x | x | x | x | x | x | x | x | x | x | x];
    cbn [restorable message_pdu default_encoding_of custom_codecs_of] in *.
  - (* GenericNack *)
    destruct Hr as [Hc Hs]. bind_as Hp d Ed. inversion Hp; subst d m1.
    split; [now left |].
    rewrite (header_only_decoded ext _ _ _ _ Ed Hc Hs). eexists.
    split; [reflexivity |]. as_it_is. cbn. auto.
  - contradiction.
  - (* SubmitSmResp *)
    destruct Hr as [Hc Hs]. bind_as Hp d Ed. inversion Hp; subst d m1.
    split; [now left |].
    destruct (SmResp_round_trip ext _ _ _ Ed Hc Hs) as (h & -> & Eh & Ef).
    cbn [bind]. rewrite Eh.
    change (MESSAGE_TYPE_MAP SubmitSmResp.smpp_command) with (Ok SubmitSmResp_cls).
    cbn [bind].
    unfold class_from_pdu, SubmitSmResp.from_pdu, lift.
    unfold SmResp.from_pdu, SubmitSmResp.__init__, SmResp.__init__ in Ef |- *.
    destruct (decode_ascii _) as [mid |]; cbn [bind] in Ef |- *;
      [| discriminate].
    eexists. split; [reflexivity |]. as_it_is.
    cbn [wire_equal SubmitSmResp.base]. congruence.
  - (* DeliverSm *)
    destruct Hr as (Hc & Hs & Hsm & Hrc & Hcl).
    apply bind_inv in Hp. destruct Hp as ([d b] & Ed & Hp).
    inversion Hp; subst d m1; clear Hp. unfold DeliverSm.pdu in Ed.
    apply bind_inv in Ed. destruct Ed as ([d b'] & Ed & Hp).
    inversion Hp; subst d b; clear Hp.
    destruct (Sm_from_pdu_of_pdu ext _ _ _ _ Hsm Ed Hc Hs)
      as (Hrel & h & -> & Eh & Ef).
    split.
    { destruct Hrel as [-> | [Hu ->]]; [left; now destruct x | right].
      split; [exact Hu | reflexivity]. }
    cbn [bind]. rewrite Eh.
    change (MESSAGE_TYPE_MAP DeliverSm.smpp_command) with (Ok DeliverSm_cls).
    cbn [bind].
    unfold class_from_pdu, DeliverSm.from_pdu, lift.
    rewrite (Ef _ DeliverSm.cls).
    unfold DeliverSm.cls, DeliverSm.__init__. cbn [DeliverSm.receipt_given].
    destruct (Sm_init_cases (Sm.short_message (DeliverSm.base x))
                (Sm.source (DeliverSm.base x))
                (Sm.destination (DeliverSm.base x))
                (Sm.service_type (DeliverSm.base x))
                (Sm.esm_class (DeliverSm.base x))
                (Sm.protocol_id (DeliverSm.base x))
                (Sm.priority_flag (DeliverSm.base x))
                (Sm.schedule_delivery_time (DeliverSm.base x))
                (Sm.validity_period (DeliverSm.base x))
                (Sm.registered_delivery (DeliverSm.base x))
                (Sm.replace_if_present_flag (DeliverSm.base x))
                (Some (wire_encoding b'))
                (Sm.sm_default_msg_id (DeliverSm.base x))
                (Sm.message_payload (DeliverSm.base x))
                (Sm.optional_params (DeliverSm.base x)) true "strict"
                (Sm.sequence_num (DeliverSm.base x)) "" "") as [_ Hgood].
    rewrite (Hgood (Sm_restorable_valid ext _ Hsm)).
    cbn [bind DeliverSm.base Sm.esm_class].
    rewrite message_class_bits.
    replace (Z.land (Z.shiftr (Sm.esm_class (DeliverSm.base x)) 2) 15 =? 1)
      with false by (symmetry; now apply Z.eqb_neq).
    cbn [bind]. eexists. split; [reflexivity |].
    destruct Hsm as ((Hst & _) & _).
    assert (W : Sm_wire_equal
                  (Sm.set_encoding b' (Some (wire_encoding b')))
                  (Sm.mk ESME_ROK (Sm.sequence_num (DeliverSm.base x))
                     (Sm.short_message (DeliverSm.base x))
                     (Sm.source (DeliverSm.base x))
                     (Sm.destination (DeliverSm.base x))
                     (Sm.service_type (DeliverSm.base x))
                     (Sm.esm_class (DeliverSm.base x))
                     (Sm.protocol_id (DeliverSm.base x))
                     (Sm.priority_flag (DeliverSm.base x))
                     (Sm.schedule_delivery_time (DeliverSm.base x))
                     (Sm.validity_period (DeliverSm.base x))
                     (Sm.registered_delivery (DeliverSm.base x))
                     (Sm.replace_if_present_flag (DeliverSm.base x))
                     (Some (wire_encoding b'))
                     (Sm.sm_default_msg_id (DeliverSm.base x))
                     (Sm.message_payload (DeliverSm.base x))
                     (Sm.optional_params (DeliverSm.base x)) true "strict"
                     "" "" "" None)).
    { unfold Sm_wire_equal.
      destruct Hrel as [-> | [_ ->]]; cbn; rewrite Hst; repeat split. }
    cbn [wire_equal encoding_normalized pinned_to_ucs2 Message_map_Sm
         encoding_unset_in DeliverSm.base DeliverSm.receipt].
    split; [split; [exact W | exact Hrc] |].
    intros Hset. split; [| exact Hrc].
    exact (Sm_wire_equal_normalized _ _ Hset W).
  - (* DeliverSmResp *)
    destruct Hr as [Hc Hs]. bind_as Hp d Ed. inversion Hp; subst d m1.
    split; [now left |].
    destruct (SmResp_round_trip ext _ _ _ Ed Hc Hs) as (h & -> & Eh & Ef).
    cbn [bind]. rewrite Eh.
    change (MESSAGE_TYPE_MAP DeliverSmResp.smpp_command) with (Ok DeliverSmResp_cls).
    cbn [bind].
    unfold class_from_pdu, DeliverSmResp.from_pdu, lift.
    change (@SmResp.from_pdu DeliverSmResp.t DeliverSmResp.__init__ data h)
      with (@SmResp.from_pdu SmResp.t SmResp.__init__ data h).
    rewrite Ef. cbn [bind]. eexists. split; [reflexivity |]. as_it_is. reflexivity.
  - (* BindTransceiver *)
    destruct Hr as (Hc & Hs & Hst & N1 & N2 & N3 & N4 & Ht & Hn).
    bind_as Hp d Ed. inversion Hp; subst d m1. split; [now left |].
    destruct (BindTransceiver_round_trip ext _ _ Ed Hc Hs Hst N1 N2 N3 N4
                Ht Hn) as (h & -> & Eh & Ef).
    cbn [bind]. rewrite Eh.
    change (MESSAGE_TYPE_MAP BindTransceiver.smpp_command) with (Ok BindTransceiver_cls).
    cbn [bind].
    unfold class_from_pdu, lift. rewrite Ef. cbn [bind].
    eexists. split; [reflexivity |]. as_it_is. reflexivity.
  - (* BindTransceiverResp *)
    destruct Hr as (Hc & Hs & N1 & Hv).
    bind_as Hp d Ed. inversion Hp; subst d m1. split; [now left |].
    destruct (BindTransceiverResp_round_trip ext _ _ Ed Hc Hs N1 Hv)
      as (h & -> & Eh & Ef).
    cbn [bind]. rewrite Eh.
    change (MESSAGE_TYPE_MAP BindTransceiverResp.smpp_command) with (Ok BindTransceiverResp_cls).
    cbn [bind].
    unfold class_from_pdu, lift. rewrite Ef. cbn [bind].
    eexists. split; [reflexivity |]. as_it_is. reflexivity.
  - (* EnquireLink *)
    destruct Hr as (Hc & Hs & Hst). bind_as Hp d Ed.
    inversion Hp; subst d m1. split; [now left |].
    unfold EnquireLink.pdu in Ed. rewrite Hst in Ed.
    rewrite (header_only_decoded ext _ _ _ _ Ed Hc Hs). eexists.
    split; [reflexivity |]. as_it_is. destruct x; cbn in *. now subst.
  - (* EnquireLinkResp *)
    destruct Hr as [Hc Hs]. bind_as Hp d Ed. inversion Hp; subst d m1.
    split; [now left |].
    rewrite (header_only_decoded ext _ _ _ _ Ed Hc Hs). eexists.
    split; [reflexivity |]. as_it_is. now destruct x.
  - (* Unbind *)
    destruct Hr as (Hc & Hs & Hst). bind_as Hp d Ed.
    inversion Hp; subst d m1. split; [now left |].
    unfold Unbind.pdu in Ed. rewrite Hst in Ed.
    rewrite (header_only_decoded ext _ _ _ _ Ed Hc Hs). eexists.
    split; [reflexivity |]. as_it_is. destruct x; cbn in *. now subst.
  - (* UnbindResp *)
    destruct Hr as [Hc Hs]. bind_as Hp d Ed. inversion Hp; subst d m1.
    split; [now left |].
    rewrite (header_only_decoded ext _ _ _ _ Ed Hc Hs). eexists.
    split; [reflexivity |]. as_it_is. now destruct x.
Qed.

(* ------------------------------------------------------------------ *)
(** ** C1 on concrete messages *)

(** The [SubmitSm] of the first scenario of the specification, as its
    constructor returns it. *)
Definition submit_hi : Sm.t :=
  Sm.mk ESME_ROK 1 "hi" (mk_PhoneNumber "1" 1 1) (mk_PhoneNumber "2" 1 1)
        "CMT" 3 0 0 None None 1 0 (Some "latin_1") 0 "" []
        true "strict" "L1" "" "" None.

(** A [DeliverSm] whose text of 300 characters does not fit
    [short_message]. *)
Definition deliver_300 : DeliverSm.t :=
  DeliverSm.mk
    (Sm.mk ESME_ROK 1 text_300 (mk_PhoneNumber "1" 1 1)
           (mk_PhoneNumber "2" 1 1) "CMT" 0 0 0 None None 1 0
           (Some "latin_1") 0 "" [] true "strict" "" "" "" None)
    None.

(** A [DeliverSm] valid until noon of 1 January 2024, UTC. *)
Definition deliver_until_noon : DeliverSm.t :=
  DeliverSm.mk
    (Sm.mk ESME_ROK 1 "hi" (mk_PhoneNumber "1" 1 1) (mk_PhoneNumber "2" 1 1)
           "CMT" 0 0 0 None (Some (Absolute noon_utc)) 1 0 (Some "latin_1")
           0 "" [] true "strict" "" "" "" None)
    None.

(** A [DeliverSm] that leaves the encoding to the default one, here
    [latin_1], which encodes its text. *)
Definition deliver_by_default : DeliverSm.t :=
  DeliverSm.mk
    (Sm.mk ESME_ROK 1 "hi" (mk_PhoneNumber "1" 1 1) (mk_PhoneNumber "2" 1 1)
           "CMT" 0 0 0 None None 1 0 None 0 "" [] true "strict" "" ""
           "latin_1" None)
    None.

(** C1 as stated fails. Each of the four messages is one its
    constructor returns, and [pdu] encodes each. The [SubmitSm] is not
    decoded at all: [from_pdu] calls the constructor with an empty
    [log_id]. The text of 300 characters comes back in [message_payload],
    with [short_message] empty. The absolute validity period comes back
    in year 24. The message that leaves its encoding unset, and whose
    text the default encoding encodes, is not pinned by [pdu] and comes
    back with the default encoding as its [encoding]. *)
Lemma C1_counterexample :
  (SubmitSm.__init__ "hi" (mk_PhoneNumber "1" 1 1) (mk_PhoneNumber "2" 1 1)
     "CMT" 3 0 0 None None 1 0 (Some "latin_1") 0 "" [] true "strict" 1
     "L1" "" = Ok submit_hi
   /\ exists data,
        message_pdu Reference.externals (MSubmitSm submit_hi)
        = Ok (data, MSubmitSm submit_hi)
        /\ decode_pdu Reference.externals data "" None
           = Err (InvalidArgument "Parameter `log_id` cannot be empty."))
  /\ (DeliverSm.__init__ text_300 (mk_PhoneNumber "1" 1 1)
        (mk_PhoneNumber "2" 1 1) "CMT" 0 0 0 None None 1 0 (Some "latin_1")
        0 "" [] true "strict" 1 "" "" None = Ok deliver_300
      /\ exists data y,
           message_pdu Reference.externals (MDeliverSm deliver_300)
           = Ok (data, MDeliverSm deliver_300)
           /\ decode_pdu Reference.externals data "" None = Ok (MDeliverSm y)
           /\ Sm.short_message (DeliverSm.base y) = ""
           /\ Sm.message_payload (DeliverSm.base y) = text_300)
  /\ (datetime_ok noon_utc
      /\ DeliverSm.__init__ "hi" (mk_PhoneNumber "1" 1 1)
           (mk_PhoneNumber "2" 1 1) "CMT" 0 0 0 None
           (Some (Absolute noon_utc)) 1 0 (Some "latin_1") 0 "" [] true
           "strict" 1 "" "" None = Ok deliver_until_noon
      /\ exists data y z,
           message_pdu Reference.externals (MDeliverSm deliver_until_noon)
           = Ok (data, MDeliverSm deliver_until_noon)
           /\ decode_pdu Reference.externals data "" None = Ok (MDeliverSm y)
           /\ Sm.validity_period (DeliverSm.base y) = Some (Absolute z)
           /\ year z = 24)
  /\ ((exists x,
         DeliverSm.__init__ "hi" (mk_PhoneNumber "1" 1 1)
           (mk_PhoneNumber "2" 1 1) "CMT" 0 0 0 None None 1 0 None 0 "" []
           true "strict" 1 "" "" None = Ok x
         /\ DeliverSm.mk
              (Sm.set_encoding_info (DeliverSm.base x) "latin_1" None)
              (DeliverSm.receipt x) = deliver_by_default)
      /\ exists data y,
           message_pdu Reference.externals (MDeliverSm deliver_by_default)
           = Ok (data, MDeliverSm deliver_by_default)
           /\ decode_pdu Reference.externals data "latin_1" None
              = Ok (MDeliverSm y)
           /\ Sm.encoding (DeliverSm.base deliver_by_default) = None
           /\ Sm.encoding (DeliverSm.base y) = Some "latin_1").
Proof.
  split; [| split; [| split]].
  - split; [reflexivity |]. eexists.
    split; [vm_compute; reflexivity |]. vm_compute. reflexivity.
  - split; [reflexivity |]. eexists. eexists.
    split; [vm_compute; reflexivity |].
    split; [vm_compute; reflexivity |]. split; reflexivity.
  - split; [reflexivity |]. split; [reflexivity |].
    eexists. eexists. eexists.
    split; [vm_compute; reflexivity |].
    split; [vm_compute; reflexivity |]. split; reflexivity.
  - split; [eexists; split; reflexivity |]. eexists. eexists.
    split; [vm_compute; reflexivity |].
    split; [vm_compute; reflexivity |]. split; reflexivity.
Qed.

(** A [DeliverSm] with a relative validity period and two optional
    parameters. *)
Definition deliver_sample : DeliverSm.t :=
  DeliverSm.mk
    (Sm.mk ESME_ROK 9 "hi" (mk_PhoneNumber "1" 1 1) (mk_PhoneNumber "2" 1 1)
           "CMT" 0 0 0 None (Some (Relative two_days_and_more)) 1 0
           (Some "latin_1") 0 ""
           [mk_OptionalParam Reference.USER_MESSAGE_REFERENCE (VInt 7);
            mk_OptionalParam RECEIPTED_MESSAGE_ID (VStr "abc")]
           false "replace" "L9" "x" "" None)
    None.

(** A [DeliverSm] that leaves the encoding to the default one, here
    [ascii], which cannot encode the e acute of its text; with a relative
    validity period and two optional parameters. *)
Definition deliver_auto : DeliverSm.t :=
  DeliverSm.mk
    (Sm.mk ESME_ROK 9
           (String "c" (String "a" (String "f" (String "233" ""))))
           (mk_PhoneNumber "1" 1 1) (mk_PhoneNumber "2" 1 1)
           "CMT" 0 0 0 None (Some (Relative two_days_and_more)) 1 0
           None 0 ""
           [mk_OptionalParam Reference.USER_MESSAGE_REFERENCE (VInt 7);
            mk_OptionalParam RECEIPTED_MESSAGE_ID (VStr "abc")]
           false "strict" "L9" "x" "ascii" None)
    None.

Lemma deliver_auto_restorable :
  restorable Reference.externals (MDeliverSm deliver_auto).
Proof.
  cbn [restorable]. split; [reflexivity |]. split; [reflexivity |].
  split; [| split; [reflexivity | discriminate]].
  split.
  - unfold Sm_fields_restorable.
    split; [reflexivity |].
    split; [left; split; [discriminate | reflexivity] |].
    split; [discriminate |].
    split.
    { apply Forall_cons; [| apply Forall_cons; [| apply Forall_nil]].
      - split; [intros H; vm_compute in H; discriminate H |].
        exists 2. reflexivity.
      - split; [intros H; vm_compute in H; discriminate H |].
        split; reflexivity. }
    do 7 (split; [reflexivity |]).
    split; [exact I |].
    cbn. unfold timedelta_ok. cbn. lia.
  - intros b s' H. vm_compute in H. inversion H; subst b s'; clear H.
    split.
    + intros dc Hdc. vm_compute in Hdc. inversion Hdc; subst dc.
      reflexivity.
    + intros c Hf. vm_compute in Hf. inversion Hf; subst c; clear Hf.
      split; [vm_compute; reflexivity |].
      split; [vm_compute; reflexivity |].
      intros _. cbn. lia.
Qed.

Lemma C1_round_trip_of_restorable_messages_witness :
  exists data m2,
    message_pdu Reference.externals (MDeliverSm deliver_auto)
    = Ok (data, pinned_to_ucs2 (MDeliverSm deliver_auto))
    /\ decode_pdu Reference.externals data "ascii" None = Ok m2
    /\ wire_equal (pinned_to_ucs2 (MDeliverSm deliver_auto)) m2.
Proof.
  destruct (message_pdu Reference.externals (MDeliverSm deliver_auto))
    as [[data m1] |] eqn:E; [| vm_compute in E; discriminate].
  destruct (C1_round_trip_of_restorable_messages
              Reference.externals (MDeliverSm deliver_auto) m1 data
              deliver_auto_restorable E) as (_ & m2 & Hd & _ & Hw).
  assert (E1 : m1 = pinned_to_ucs2 (MDeliverSm deliver_auto)).
  { vm_compute in E. inversion E. reflexivity. }
  subst m1. exists data, m2.
  split; [reflexivity |]. split; [exact Hd |]. apply Hw. reflexivity.
Defined.

(* ================================================================== *)
(** * Further properties of the codec *)

(* ------------------------------------------------------------------ *)
(** ** The PDU header *)

Lemma pack_I_ok (n : Z) :
  0 <= n <= 4294967295 ->
  pack_I n = Ok [byte_of_Z (n / 16777216); byte_of_Z ((n / 65536) mod 256);
                 byte_of_Z ((n / 256) mod 256); byte_of_Z (n mod 256)].
Proof.
  intros Hn. unfold pack_I.
  replace ((0 <=? n) && (n <=? 4294967295)) with true; [reflexivity |].
  symmetry. apply andb_true_iff. split; apply Z.leb_le; lia.
Qed.

Lemma pack_I_outside (n : Z) :
  ~ 0 <= n <= 4294967295 -> pack_I n = Err StructError.
Proof.
  intros Hn. unfold pack_I.
  destruct ((0 <=? n) && (n <=? 4294967295)) eqn:E; [| reflexivity].
  apply andb_true_iff in E. lia.
Qed.

Lemma unpack_I_short (pdu : bytes) (i : nat) :
  (List.length pdu < i + 4)%nat -> unpack_I pdu i = Err StructError.
Proof.
  intros H. unfold unpack_I.
  assert (E : nth_error pdu (i + 3) = None) by (apply nth_error_None; lia).
  rewrite E.
  destruct (nth_error pdu i); [| reflexivity].
  destruct (nth_error pdu (i + 1)); [| reflexivity].
  destruct (nth_error pdu (i + 2)); reflexivity.
Qed.

Lemma nth_error_in_range (pdu : bytes) (i : nat) :
  (i < List.length pdu)%nat -> exists b, nth_error pdu i = Some b.
Proof.
  intros H. destruct (nth_error pdu i) as [b |] eqn:E; [now exists b |].
  apply nth_error_None in E. lia.
Qed.

Lemma unpack_I_long (pdu : bytes) (i : nat) :
  (i + 4 <= List.length pdu)%nat ->
  exists v, unpack_I pdu i = Ok v /\ 0 <= v <= 4294967295.
Proof.
  intros H. unfold unpack_I.
  destruct (nth_error_in_range pdu i ltac:(lia)) as [a ->].
  destruct (nth_error_in_range pdu (i + 1) ltac:(lia)) as [b ->].
  destruct (nth_error_in_range pdu (i + 2) ltac:(lia)) as [c ->].
  destruct (nth_error_in_range pdu (i + 3) ltac:(lia)) as [d ->].
  eexists. split; [reflexivity |].
  pose proof (Z_of_byte_range a). pose proof (Z_of_byte_range b).
  pose proof (Z_of_byte_range c). pose proof (Z_of_byte_range d). lia.
Qed.

(** X1: [parse_header] raises [struct.error] on fewer than 16 bytes. On 16
    bytes or more it reads four big-endian 32-bit numbers, and raises the
    [ValueError] of the enumerations when the second is not a command or
    the third is not a status; otherwise it returns the four numbers. *)
Theorem parse_header_result (ext : Externals) (header_data : bytes) :
  ((List.length header_data < 16)%nat ->
   SmppMessage.parse_header ext header_data = Err StructError)
  /\ ((16 <= List.length header_data)%nat ->
      exists len c s n,
        unpack_I header_data 0 = Ok len /\ unpack_I header_data 4 = Ok c
        /\ unpack_I header_data 8 = Ok s /\ unpack_I header_data 12 = Ok n
        /\ 0 <= len <= 4294967295 /\ 0 <= n <= 4294967295
        /\ SmppMessage.parse_header ext header_data
           = if is_SmppCommand ext c && is_SmppCommandStatus ext s
             then Ok (PduHeader.mk len c s n)
             else Err UnknownEnumValue).
Proof.
  split.
  - intros H. unfold SmppMessage.parse_header.
    destruct (Nat.lt_ge_cases (List.length header_data) 4) as [H0 | H0].
    { now rewrite (unpack_I_short header_data 0) by lia. }
    destruct (unpack_I_long header_data 0 ltac:(lia)) as (v0 & -> & _).
    cbn [bind].
    destruct (Nat.lt_ge_cases (List.length header_data) 8) as [H1 | H1].
    { now rewrite (unpack_I_short header_data 4) by lia. }
    destruct (unpack_I_long header_data 4 ltac:(lia)) as (v1 & -> & _).
    cbn [bind].
    destruct (Nat.lt_ge_cases (List.length header_data) 12) as [H2 | H2].
    { now rewrite (unpack_I_short header_data 8) by lia. }
    destruct (unpack_I_long header_data 8 ltac:(lia)) as (v2 & -> & _).
    cbn [bind].
    now rewrite (unpack_I_short header_data 12) by lia.
  - intros H.
    destruct (unpack_I_long header_data 0 ltac:(lia)) as (len & E0 & B0).
    destruct (unpack_I_long header_data 4 ltac:(lia)) as (c & E1 & _).
    destruct (unpack_I_long header_data 8 ltac:(lia)) as (s & E2 & _).
    destruct (unpack_I_long header_data 12 ltac:(lia)) as (n & E3 & B3).
    exists len, c, s, n. repeat (split; [assumption |]).
    unfold SmppMessage.parse_header. rewrite E0, E1, E2, E3. cbn [bind].
    destruct (is_SmppCommand ext c); [| reflexivity].
    destruct (is_SmppCommandStatus ext s); reflexivity.
Qed.

Lemma pack_header_ok (c s n len : Z) :
  0 <= len <= 4294967295 -> 0 <= c <= 4294967295 ->
  0 <= s <= 4294967295 -> 0 <= n <= 4294967295 ->
  exists header, SmppMessage.pack_header c s n len = Ok header.
Proof.
  intros Hl Hc Hs Hn. unfold SmppMessage.pack_header.
  rewrite (pack_I_ok len Hl), (pack_I_ok c Hc), (pack_I_ok s Hs),
    (pack_I_ok n Hn).
  cbn [bind]. eexists. reflexivity.
Qed.

(** X2: [pack_header] returns 16 bytes when the length, the command, the
    status and the sequence number are unsigned 32-bit numbers, and raises
    [struct.error] when one of them is not; [parse_header] gives the four
    numbers back when the command and the status are members of their
    enumerations. *)
Theorem header_round_trip (ext : Externals) (c s n len : Z) :
  (0 <= len <= 4294967295 /\ 0 <= c <= 4294967295
   /\ 0 <= s <= 4294967295 /\ 0 <= n <= 4294967295 ->
   exists header,
     SmppMessage.pack_header c s n len = Ok header
     /\ List.length header = 16%nat
     /\ (is_SmppCommand ext c = true -> is_SmppCommandStatus ext s = true ->
         SmppMessage.parse_header ext header = Ok (PduHeader.mk len c s n)))
  /\ (~ (0 <= len <= 4294967295 /\ 0 <= c <= 4294967295
         /\ 0 <= s <= 4294967295 /\ 0 <= n <= 4294967295) ->
      SmppMessage.pack_header c s n len = Err StructError).
Proof.
  split.
  - intros (Hl & Hc & Hs & Hn).
    destruct (pack_header_ok c s n len Hl Hc Hs Hn) as [header Hp].
    pose proof (pack_header_length _ _ _ _ _ Hp) as Hlen.
    exists header. split; [exact Hp |]. split; [exact Hlen |].
    intros Mc Ms.
    pose proof (parse_header_alone ext c s n len header Hp Mc Ms) as H.
    unfold PDU_HEADER_LENGTH in H. rewrite <- Hlen in H.
    rewrite <- (app_nil_r header) in H at 1.
    now rewrite slice_prefix in H.
  - intros Hno. unfold SmppMessage.pack_header.
    destruct (pack_I len) as [a |] eqn:Ea;
      [apply pack_I_inv in Ea; destruct Ea as [Hl _] |
       now rewrite (pack_I_err _ _ Ea)].
    cbn [bind].
    destruct (pack_I c) as [b |] eqn:Eb;
      [apply pack_I_inv in Eb; destruct Eb as [Hc _] |
       now rewrite (pack_I_err _ _ Eb)].
    cbn [bind].
    destruct (pack_I s) as [d |] eqn:Ed;
      [apply pack_I_inv in Ed; destruct Ed as [Hs _] |
       now rewrite (pack_I_err _ _ Ed)].
    cbn [bind].
    destruct (pack_I n) as [e |] eqn:Ee;
      [apply pack_I_inv in Ee; destruct Ee as [Hn _] |
       now rewrite (pack_I_err _ _ Ee)].
    tauto.
Qed.

Lemma header_round_trip_witness :
  exists header,
    SmppMessage.pack_header ENQUIRE_LINK ESME_ROK 7 16 = Ok header
    /\ List.length header = 16%nat
    /\ SmppMessage.parse_header Reference.externals header
       = Ok (PduHeader.mk 16 ENQUIRE_LINK ESME_ROK 7).
Proof.
  destruct (header_round_trip Reference.externals ENQUIRE_LINK ESME_ROK 7 16)
    as [H _].
  destruct H as (header & Hp & Hl & Hparse).
  { unfold ENQUIRE_LINK, ESME_ROK. lia. }
  exists header. split; [exact Hp |]. split; [exact Hl |].
  apply Hparse; reflexivity.
Defined.

(** The command of the class of a message, its status and its sequence
    number: the three attributes [pack_header] reads. *)
Definition smpp_command_of (m : Message) : Z :=
  match m with
  | MGenericNack _ => GenericNack.smpp_command
  | MSubmitSm _ => SubmitSm.smpp_command
  | MSubmitSmResp _ => SubmitSmResp.smpp_command
  | MDeliverSm _ => DeliverSm.smpp_command
  | MDeliverSmResp _ => DeliverSmResp.smpp_command
  | MBindTransceiver _ => BindTransceiver.smpp_command
  | MBindTransceiverResp _ => BindTransceiverResp.smpp_command
  | MEnquireLink _ => EnquireLink.smpp_command
  | MEnquireLinkResp _ => EnquireLinkResp.smpp_command
  | MUnbind _ => Unbind.smpp_command
  | MUnbindResp _ => UnbindResp.smpp_command
  end.

Definition command_status_of (m : Message) : Z :=
  match m with
  | MGenericNack x => GenericNack.command_status x
  | MSubmitSm x => Sm.command_status x
  | MSubmitSmResp x => SmResp.command_status (SubmitSmResp.base x)
  | MDeliverSm x => Sm.command_status (DeliverSm.base x)
  | MDeliverSmResp x => SmResp.command_status x
  | MBindTransceiver x => BindTransceiver.command_status x
  | MBindTransceiverResp x => BindTransceiverResp.command_status x
  | MEnquireLink x => EnquireLink.command_status x
  | MEnquireLinkResp x => EnquireLinkResp.command_status x
  | MUnbind x => Unbind.command_status x
  | MUnbindResp x => UnbindResp.command_status x
  end.

Definition sequence_num_of (m : Message) : Z :=
  match m with
  | MGenericNack x => GenericNack.sequence_num x
  | MSubmitSm x => Sm.sequence_num x
  | MSubmitSmResp x => SmResp.sequence_num (SubmitSmResp.base x)
  | MDeliverSm x => Sm.sequence_num (DeliverSm.base x)
  | MDeliverSmResp x => SmResp.sequence_num x
  | MBindTransceiver x => BindTransceiver.sequence_num x
  | MBindTransceiverResp x => BindTransceiverResp.sequence_num x
  | MEnquireLink x => EnquireLink.sequence_num x
  | MEnquireLinkResp x => EnquireLinkResp.sequence_num x
  | MUnbind x => Unbind.sequence_num x
  | MUnbindResp x => UnbindResp.sequence_num x
  end.

Definition class_of (m : Message) : message_class :=
  match m with
  | MGenericNack _ => GenericNack_cls
  | MSubmitSm _ => SubmitSm_cls
  | MSubmitSmResp _ => SubmitSmResp_cls
  | MDeliverSm _ => DeliverSm_cls
  | MDeliverSmResp _ => DeliverSmResp_cls
  | MBindTransceiver _ => BindTransceiver_cls
  | MBindTransceiverResp _ => BindTransceiverResp_cls
  | MEnquireLink _ => EnquireLink_cls
  | MEnquireLinkResp _ => EnquireLinkResp_cls
  | MUnbind _ => Unbind_cls
  | MUnbindResp _ => UnbindResp_cls
  end.

(** A PDU that is a packed header followed by a body, with the length of
    the whole in the header. *)
Definition framed (c s n : Z) (data : bytes) : Prop :=
  exists header body,
    data = header ++ body
    /\ SmppMessage.pack_header c s n (Z.of_nat (List.length data)) = Ok header.

Lemma framed_intro (c s n : Z) (header body : bytes) :
  SmppMessage.pack_header c s n
    (Z.of_nat (PDU_HEADER_LENGTH + List.length body)) = Ok header ->
  framed c s n (header ++ body).
Proof.
  intros H. exists header, body. split; [reflexivity |].
  rewrite length_app, (pack_header_length _ _ _ _ _ H). exact H.
Qed.

Lemma framed_fields (c s n : Z) (data : bytes) :
  framed c s n data ->
  (16 <= List.length data)%nat
  /\ unpack_I data 0 = Ok (Z.of_nat (List.length data))
  /\ unpack_I data 4 = Ok c
  /\ unpack_I data 8 = Ok s
  /\ unpack_I data 12 = Ok n.
Proof.
  intros (header & body & -> & Hp).
  pose proof (pack_header_length _ _ _ _ _ Hp) as Hl.
  split; [rewrite length_app; lia |].
  remember (Z.of_nat (List.length (header ++ body))) as len eqn:Elen.
  clear Elen.
  unfold SmppMessage.pack_header in Hp. bind_inversion Hp.
  inversion Hp; subst header; clear Hp.
  repeat match goal with
         | E : pack_I _ = Ok _ |- _ =>
             apply pack_I_inv in E; destruct E as [? ->]
         end.
  cbn [app].
  match goal with
  | |- unpack_I ?l 0 = _ /\ _ =>
      rewrite (unpack_I_at l 0 len _ ltac:(assumption) eq_refl),
        (unpack_I_at l 4 c _ ltac:(assumption) eq_refl),
        (unpack_I_at l 8 s _ ltac:(assumption) eq_refl),
        (unpack_I_at l 12 n _ ltac:(assumption) eq_refl)
  end.
  repeat split.
Qed.

Lemma framed_parse_header (ext : Externals) (c s n : Z) (data : bytes) :
  framed c s n data ->
  is_SmppCommand ext c = true -> is_SmppCommandStatus ext s = true ->
  SmppMessage.parse_header ext (slice data 0 PDU_HEADER_LENGTH)
  = Ok (PduHeader.mk (Z.of_nat (List.length data)) c s n).
Proof.
  intros (header & body & E & Hp) Hc Hs. rewrite E at 1.
  now apply parse_header_packed.
Qed.

(** What [Sm.pdu] returns comes from the three steps it is made of. *)
Lemma Sm_pdu_decomposed (ext : Externals) (smpp_command : Z)
                        (self self' : Sm.t) (data : bytes) :
  Sm.pdu ext smpp_command self = Ok (data, self') ->
  exists sm_bytes dc n short payload,
    Sm.smpp_encode ext self (Sm_text self) = Ok (sm_bytes, self')
    /\ Sm.data_coding_of ext (Sm.encoding self') = Ok dc
    /\ too_long self' sm_bytes = false
    /\ Sm_layout ext smpp_command self' dc n short payload data.
Proof.
  intros Hp. pose proof Hp as H. unfold Sm.pdu in H.
  fold (Sm_text self) in H.
  destruct (Sm.smpp_encode ext self (Sm_text self)) as [[b s'] |] eqn:Henc;
    [| discriminate].
  cbn [bind] in H.
  destruct (Sm.data_coding_of ext (Sm.encoding s')) as [dc |] eqn:Hdc;
    [| discriminate].
  clear H.
  destruct (Sm_pdu_layout ext smpp_command self s' b dc data self' Henc Hdc Hp)
    as (-> & Hlong & H1 & H2).
  exists b, dc.
  destruct (promoted s' b) eqn:Epr.
  - destruct (H1 eq_refl) as (hh & _ & Hl).
    exists 0%nat, [], (hh ++ b). auto.
  - exists (List.length b), b, []. auto.
Qed.

Lemma Sm_pdu_framed (ext : Externals) (smpp_command : Z)
                    (self self' : Sm.t) (data : bytes) :
  Sm.pdu ext smpp_command self = Ok (data, self') ->
  framed smpp_command (Sm.command_status self) (Sm.sequence_num self) data.
Proof.
  intros Hp.
  destruct (Sm_pdu_decomposed _ _ _ _ _ Hp)
    as (b & dc & n & short & payload & Henc & _ & _ & Hl).
  destruct Hl as (header & head & tlvs & _ & _ & Hh & _ & _ & _ & E).
  assert (Sm.command_status self' = Sm.command_status self
          /\ Sm.sequence_num self' = Sm.sequence_num self) as [Es En].
  { destruct (smpp_encode_self _ _ _ _ _ Henc) as [-> | ->]; now cbn. }
  rewrite Es, En in Hh.
  eexists. eexists. split; [exact E | exact Hh].
Qed.

Lemma SmResp_pdu_framed (smpp_command : Z) (x : SmResp.t) (data : bytes) :
  SmResp.pdu smpp_command x = Ok data ->
  framed smpp_command (SmResp.command_status x) (SmResp.sequence_num x) data.
Proof.
  unfold SmResp.pdu. intros H. bind_as H b Eb. cbv zeta in H.
  bind_as H header Eh. inversion H; subst data.
  now apply framed_intro.
Qed.

Lemma header_only_framed (c s n : Z) (data : bytes) :
  SmppMessage.pdu c s n = Ok data -> framed c s n data.
Proof.
  unfold SmppMessage.pdu. intros H.
  rewrite <- (app_nil_r data). apply framed_intro.
  cbn [List.length]. now rewrite Nat.add_0_r.
Qed.

Lemma message_pdu_framed (ext : Externals) (m m1 : Message) (data : bytes) :
  message_pdu ext m = Ok (data, m1) ->
  framed (smpp_command_of m) (command_status_of m) (sequence_num_of m) data.
Proof.
  intros H.
  destruct m as [x | x | x | x | x | x | x | x | x | x | x];
    cbn [message_pdu smpp_command_of command_status_of sequence_num_of] in *.
  - bind_as H d Ed. inversion H; subst. now apply header_only_framed.
  - bind_as H d Ed. destruct d as [d x']. inversion H; subst.
    now apply (Sm_pdu_framed ext _ x x').
  - bind_as H d Ed. inversion H; subst. now apply SmResp_pdu_framed.
  - bind_as H d Ed. destruct d as [d x']. inversion H; subst.
    unfold DeliverSm.pdu in Ed. bind_as Ed r Er. destruct r as [d' b].
    inversion Ed; subst. now apply (Sm_pdu_framed ext _ _ b).
  - bind_as H d Ed. inversion H; subst. now apply SmResp_pdu_framed.
  - bind_as H d Ed. inversion H; subst.
    unfold BindTransceiver.pdu in Ed.
    bind_as Ed b1 E1. bind_as Ed b2 E2. bind_as Ed b3 E3.
    bind_as Ed b4 E4. bind_as Ed b5 E5. cbv zeta in Ed.
    bind_as Ed header Eh. inversion Ed; subst.
    now apply framed_intro.
  - bind_as H d Ed. inversion H; subst.
    unfold BindTransceiverResp.pdu in Ed.
    bind_as Ed b1 E1. cbv zeta in Ed. bind_as Ed body Eb.
    bind_as Ed header Eh. inversion Ed; subst.
    now apply framed_intro.
  - bind_as H d Ed. inversion H; subst. now apply header_only_framed.
  - bind_as H d Ed. inversion H; subst. now apply header_only_framed.
  - bind_as H d Ed. inversion H; subst. now apply header_only_framed.
  - bind_as H d Ed. inversion H; subst. now apply header_only_framed.
Qed.

(** X3: the PDU of a message of any class has at least 16 bytes and starts
    with its own length, the command of the class, the status and the
    sequence number of the message, as big-endian 32-bit numbers; the
    dispatch table maps that command to the class of the message; and
    [parse_header] on the first 16 bytes returns these four values when
    the command and the status are members of their enumerations. *)
Theorem pdu_starts_with_its_header (ext : Externals) (m m1 : Message)
                                   (data : bytes) :
  message_pdu ext m = Ok (data, m1) ->
  (16 <= List.length data)%nat
  /\ unpack_I data 0 = Ok (Z.of_nat (List.length data))
  /\ unpack_I data 4 = Ok (smpp_command_of m)
  /\ unpack_I data 8 = Ok (command_status_of m)
  /\ unpack_I data 12 = Ok (sequence_num_of m)
  /\ MESSAGE_TYPE_MAP (smpp_command_of m) = Ok (class_of m)
  /\ (is_SmppCommand ext (smpp_command_of m) = true ->
      is_SmppCommandStatus ext (command_status_of m) = true ->
      SmppMessage.parse_header ext (slice data 0 PDU_HEADER_LENGTH)
      = Ok (PduHeader.mk (Z.of_nat (List.length data)) (smpp_command_of m)
                         (command_status_of m) (sequence_num_of m))).
Proof.
  intros H. pose proof (message_pdu_framed ext m m1 data H) as Hf.
  destruct (framed_fields _ _ _ _ Hf) as (H16 & E0 & E4 & E8 & E12).
  repeat (split; [assumption |]).
  split; [destruct m; reflexivity |].
  intros Hc Hs. now apply framed_parse_header.
Qed.

Lemma pdu_starts_with_its_header_witness :
  exists data,
    message_pdu Reference.externals (MSubmitSm submit_hi)
    = Ok (data, MSubmitSm submit_hi)
    /\ unpack_I data 0 = Ok (Z.of_nat (List.length data))
    /\ unpack_I data 4 = Ok SUBMIT_SM
    /\ unpack_I data 12 = Ok 1
    /\ MESSAGE_TYPE_MAP SUBMIT_SM = Ok SubmitSm_cls.
Proof.
  destruct (message_pdu Reference.externals (MSubmitSm submit_hi))
    as [[data m1] |] eqn:E; [| vm_compute in E; discriminate].
  assert (Em : m1 = MSubmitSm submit_hi).
  { vm_compute in E. inversion E. reflexivity. }
  subst m1.
  destruct (pdu_starts_with_its_header Reference.externals
              (MSubmitSm submit_hi) (MSubmitSm submit_hi) data E)
    as (_ & E0 & E4 & _ & E12 & Em & _).
  exists data. repeat split; assumption.
Defined.

(* ------------------------------------------------------------------ *)
(** ** Relative and absolute times *)

(** X4: a duration that is not negative and at most 63 weeks is written
    as 16 characters, and reading them gives the duration back to the
    second: the days and the seconds are restored and the microseconds
    are dropped. *)
Theorem relative_time_restored_to_the_second (ext : Externals)
                                             (t : timedelta) :
  timedelta_ok t -> 0 <= days t -> at_most_63_weeks t ->
  exists s,
    Sm.datetime_to_smpp_time (Some (Relative t)) = Ok s
    /\ String.length s = 16%nat
    /\ Sm.smpp_time_to_datetime ext s
       = Ok (Some (Relative (mk_timedelta (days t) (seconds t) 0))).
Proof.
  intros Hok Hd H63.
  destruct (decomposition_bounds t Hok Hd H63) as (? & ? & ? & ? & ? & ?).
  eexists. split; [apply relative_time_digits; assumption |].
  split; [reflexivity |].
  rewrite relative_time_parse by assumption.
  destruct (decomposition_exact t) as [-> ->].
  destruct Hok as (Hdays & Hsec & _).
  unfold py_timedelta.
  rewrite Z.div_small, Z.mod_small by lia.
  rewrite Z.add_0_r.
  replace ((-999999999 <=? days t) && (days t <=? 999999999)) with true
    by (symmetry; apply andb_true_iff; split; apply Z.leb_le; lia).
  reflexivity.
Qed.

(** Nine days, an hour, a minute, a second and 250 milliseconds. *)
Definition nine_days_and_more : timedelta := mk_timedelta 9 3661 250000.

Lemma relative_time_restored_to_the_second_witness :
  exists s,
    Sm.datetime_to_smpp_time (Some (Relative nine_days_and_more)) = Ok s
    /\ String.length s = 16%nat
    /\ Sm.smpp_time_to_datetime Reference.externals s
       = Ok (Some (Relative (mk_timedelta 9 3661 0))).
Proof.
  apply (relative_time_restored_to_the_second Reference.externals
           nine_days_and_more).
  - unfold timedelta_ok, nine_days_and_more. cbn. lia.
  - cbn. lia.
  - reflexivity.
Defined.

(** X5: the other direction. A relative time whose six fields are the
    canonical ones of a duration of at most 63 weeks (days below 30, months
    and days together below 365, hours below 24, minutes and seconds below
    60) is read as that duration, and writing the duration gives the same
    16 characters back. *)
Theorem relative_time_string_restored (ext : Externals)
                                      (y mo d h mi s : Z) :
  0 <= y -> 0 <= mo -> 0 <= d < 30 -> mo * 30 + d < 365 ->
  0 <= h < 24 -> 0 <= mi < 60 -> 0 <= s < 60 ->
  y * 365 + mo * 30 + d < 441
  \/ (y * 365 + mo * 30 + d = 441 /\ h = 0 /\ mi = 0 /\ s = 0) ->
  let validity :=
    (two_digits y ++ two_digits mo ++ two_digits d ++ two_digits h
     ++ two_digits mi ++ two_digits s ++ "000R")%string in
  Sm.smpp_time_to_datetime ext validity
  = Ok (Some (Relative (mk_timedelta (y * 365 + mo * 30 + d)
                                     (h * 3600 + mi * 60 + s) 0)))
  /\ Sm.datetime_to_smpp_time
       (Some (Relative (mk_timedelta (y * 365 + mo * 30 + d)
                                     (h * 3600 + mi * 60 + s) 0)))
     = Ok validity.
Proof.
  intros Hy Hmo Hd Hmd Hh Hmi Hs H63 validity. subst validity.
  set (D := y * 365 + mo * 30 + d). set (T := h * 3600 + mi * 60 + s).
  assert (HD : 0 <= D <= 441) by (unfold D; lia).
  assert (HT : 0 <= T < 86400) by (unfold T; lia).
  split.
  - rewrite relative_time_parse by lia. fold D T.
    unfold py_timedelta.
    rewrite Z.div_small, Z.mod_small by lia. rewrite Z.add_0_r.
    replace ((-999999999 <=? D) && (D <=? 999999999)) with true
      by (symmetry; apply andb_true_iff; split; apply Z.leb_le; lia).
    reflexivity.
  - set (t := mk_timedelta D T 0).
    assert (Hok : timedelta_ok t) by (unfold timedelta_ok, t; cbn; lia).
    assert (H63' : at_most_63_weeks t).
    { unfold at_most_63_weeks, timedelta_gtb, timedelta_weeks, t.
      cbn [days seconds microseconds].
      apply orb_false_iff. split; [apply Z.ltb_ge; lia |].
      destruct H63 as [Hlt | (He & -> & -> & ->)].
      - apply andb_false_iff. left. apply Z.eqb_neq. fold D in Hlt. lia.
      - apply andb_false_iff. right. reflexivity. }
    rewrite (relative_time_digits t Hok ltac:(cbn; lia) H63').
    unfold td_years, td_months, td_days, td_hours, td_minutes, td_seconds, t.
    cbn [days seconds].
    assert (Ey : D / 365 = y)
      by (symmetry; apply (Z.div_unique D 365 y (mo * 30 + d)); unfold D; lia).
    assert (Er : D mod 365 = mo * 30 + d)
      by (symmetry; apply (Z.mod_unique D 365 y (mo * 30 + d)); unfold D; lia).
    assert (Emo : (mo * 30 + d) / 30 = mo)
      by (symmetry; apply (Z.div_unique _ 30 mo d); lia).
    assert (Ed : (mo * 30 + d) mod 30 = d)
      by (symmetry; apply (Z.mod_unique _ 30 mo d); lia).
    assert (Eh : T / 3600 = h)
      by (symmetry; apply (Z.div_unique T 3600 h (mi * 60 + s)); unfold T; lia).
    assert (Ers : T mod 3600 = mi * 60 + s)
      by (symmetry; apply (Z.mod_unique T 3600 h (mi * 60 + s));
          unfold T; lia).
    assert (Emi : (mi * 60 + s) / 60 = mi)
      by (symmetry; apply (Z.div_unique _ 60 mi s); lia).
    assert (Es : (mi * 60 + s) mod 60 = s)
      by (symmetry; apply (Z.mod_unique _ 60 mi s); lia).
    rewrite Ey, Er, Emo, Ed, Eh, Ers, Emi, Es. reflexivity.
Qed.

Lemma relative_time_string_restored_witness :
  Sm.smpp_time_to_datetime Reference.externals "010214233059000R"
  = Ok (Some (Relative (mk_timedelta 439 84659 0)))
  /\ Sm.datetime_to_smpp_time (Some (Relative (mk_timedelta 439 84659 0)))
     = Ok "010214233059000R".
Proof.
  apply (relative_time_string_restored Reference.externals 1 2 14 23 30 59);
    lia.
Defined.

Lemma two_digits_length (n : Z) : String.length (two_digits n) = 2%nat.
Proof. reflexivity. Qed.

Lemma py_str_digit (k : Z) :
  0 <= k < 10 -> py_str k = String (digit_char k) "".
Proof.
  intros Hk.
  assert (k = 0 \/ k = 1 \/ k = 2 \/ k = 3 \/ k = 4 \/ k = 5 \/ k = 6
          \/ k = 7 \/ k = 8 \/ k = 9) as H by lia.
  repeat (destruct H as [-> | H]; [reflexivity |]). subst. reflexivity.
Qed.

Lemma py_int_digit (k : Z) :
  0 <= k < 10 -> py_int (String (digit_char k) "") = Ok k.
Proof.
  intros Hk.
  assert (k = 0 \/ k = 1 \/ k = 2 \/ k = 3 \/ k = 4 \/ k = 5 \/ k = 6
          \/ k = 7 \/ k = 8 \/ k = 9) as H by lia.
  repeat (destruct H as [-> | H]; [reflexivity |]). subst. reflexivity.
Qed.

(** The fields of a datetime, as [datetime_ok] bounds them. *)
Lemma datetime_ok_bounds (x : datetime) :
  datetime_ok x ->
  1 <= year x <= 9999 /\ 1 <= month x <= 12
  /\ 1 <= day x <= days_in_month (year x) (month x)
  /\ 0 <= hour x <= 23 /\ 0 <= minute x <= 59 /\ 0 <= second x <= 59
  /\ 0 <= microsecond x <= 999999.
Proof.
  unfold datetime_ok, datetime_fields_ok. intros H.
  repeat match type of H with
         | _ && _ = true => apply andb_true_iff in H; destruct H as [H ?]
         end.
  repeat match goal with
         | E : (_ <=? _) = true |- _ => apply Z.leb_le in E
         end.
  lia.
Qed.

Lemma days_in_month_bound (y m : Z) : 28 <= days_in_month y m <= 31.
Proof.
  unfold days_in_month.
  destruct (m =? 2); [destruct (is_leap y); lia |].
  destruct ((m =? 4) || (m =? 6) || (m =? 9) || (m =? 11)); lia.
Qed.

Lemma strftime_ymdHMS_digits (x : datetime) :
  datetime_ok x ->
  strftime_ymdHMS x
  = (two_digits (year x mod 100) ++ two_digits (month x)
     ++ two_digits (day x) ++ two_digits (hour x)
     ++ two_digits (minute x) ++ two_digits (second x))%string.
Proof.
  intros H. destruct (datetime_ok_bounds x H) as (? & ? & ? & ? & ? & ? & ?).
  pose proof (days_in_month_bound (year x) (month x)).
  pose proof (Z.mod_pos_bound (year x) 100).
  unfold strftime_ymdHMS. now rewrite !py_format_0d_2 by lia.
Qed.

(** The offset of a datetime, as Python bounds it: strictly between minus
    one day and one day, so [days] of the normalised duration is 0 or -1. *)
Definition offset_ok (x : datetime) : Prop :=
  match tzinfo x with
  | Some (mk_tzinfo (Some o)) => timedelta_ok o /\ -1 <= days o <= 0
  | _ => True
  end.

(** The absolute time that [datetime_to_smpp_time] writes: twelve digits,
    the tenths of second, a number on two digits and a sign. *)
Lemma absolute_time_written (x : datetime) :
  datetime_ok x -> offset_ok x ->
  exists q p,
    0 <= q < 100 /\ (p = "+" \/ p = "-")
    /\ Sm.datetime_to_smpp_time (Some (Absolute x))
       = Ok (strftime_ymdHMS x ++ py_str (microsecond x / 100000)
             ++ two_digits q ++ p)%string.
Proof.
  intros Hok Hoff.
  unfold Sm.datetime_to_smpp_time, offset_ok in *.
  destruct (tzinfo x) as [[[o |]] |];
    try (exists 0, "+"; split; [lia |]; split; [now left | reflexivity]).
  cbn [utcoffset]. destruct Hoff as ((_ & Hs & _) & _).
  destruct (timedelta_is_zero o).
  - exists 0, "+". split; [lia |]. split; [now left | reflexivity].
  - assert (Hq : 0 <= seconds o / 900 < 100).
    { split; [apply Z.div_pos; lia | apply Z.div_lt_upper_bound; lia]. }
    exists (seconds o / 900), (if days o <? 0 then "-" else "+").
    split; [exact Hq |].
    split; [destruct (days o <? 0); [now right | now left] |].
    change (60 * 15) with 900. now rewrite (py_format_0d_2 _ Hq).
Qed.

(** X6: for every datetime, [datetime_to_smpp_time] returns 16 characters:
    [YYMMDDhhmmss], the tenths of second, two digits and a sign. Without a
    timezone and east of UTC the two digits are the quarter-hours of the
    offset and the sign is [+]. West of UTC the sign is [-] and the two
    digits are the quarter-hours of one day plus the (negative) offset,
    since the source reads the [seconds] field of the normalised
    duration. *)
Theorem absolute_time_format (x : datetime) :
  datetime_ok x -> offset_ok x ->
  exists nn p,
    Sm.datetime_to_smpp_time (Some (Absolute x))
    = Ok (strftime_ymdHMS x ++ py_str (microsecond x / 100000) ++ nn ++ p)%string
    /\ String.length (strftime_ymdHMS x ++ py_str (microsecond x / 100000)
                      ++ nn ++ p)%string = 16%nat
    /\ (0 <= offset_seconds x ->
        nn = two_digits (offset_seconds x / 900) /\ p = "+")
    /\ (offset_seconds x < 0 ->
        nn = two_digits ((86400 + offset_seconds x) / 900) /\ p = "-").
Proof.
  intros Hok Hoff.
  destruct (datetime_ok_bounds x Hok) as (_ & _ & _ & _ & _ & _ & Hus).
  assert (Ht : 0 <= microsecond x / 100000 < 10).
  { split; [apply Z.div_pos; lia | apply Z.div_lt_upper_bound; lia]. }
  assert (Hlen : forall nn p,
            String.length nn = 2%nat -> String.length p = 1%nat ->
            String.length (strftime_ymdHMS x
                           ++ py_str (microsecond x / 100000) ++ nn ++ p)%string
            = 16%nat).
  { intros nn p Hn Hp.
    rewrite (strftime_ymdHMS_digits x Hok), (py_str_digit _ Ht).
    destruct nn as [| a [| b [| c nn]]]; try discriminate.
    destruct p as [| e [| f p]]; try discriminate. reflexivity. }
  unfold Sm.datetime_to_smpp_time, offset_seconds, offset_ok in *.
  destruct (tzinfo x) as [[[o |]] |].
  - cbn [utcoffset]. destruct Hoff as ((_ & Hs & Hmu) & Hd).
    assert (Hq : 0 <= seconds o / 900 < 100).
    { split; [apply Z.div_pos; lia | apply Z.div_lt_upper_bound; lia]. }
    destruct (timedelta_is_zero o) eqn:Ez.
    + unfold timedelta_is_zero in Ez.
      apply andb_true_iff in Ez. destruct Ez as [Ez _].
      apply andb_true_iff in Ez. destruct Ez as [Ed Es].
      apply Z.eqb_eq in Ed. apply Z.eqb_eq in Es.
      exists "00", "+". split; [reflexivity |].
      split; [now apply Hlen |]. rewrite Ed, Es.
      split; [intros _; split; reflexivity | intros C; cbn in C; lia].
    + exists (py_format_0d 2 (seconds o / 900)),
             (if days o <? 0 then "-" else "+").
      change (60 * 15) with 900.
      split; [reflexivity |].
      rewrite (py_format_0d_2 _ Hq).
      split; [apply Hlen; [reflexivity | destruct (days o <? 0); reflexivity] |].
      assert (days o = 0 \/ days o = -1) as [E | E] by lia; rewrite E.
      * cbn [Z.ltb Z.compare]. rewrite Z.mul_0_l, Z.add_0_l.
        split; [intros _; split; reflexivity | lia].
      * change (-1 <? 0) with true.
        split; [lia |]. intros _. split; [| reflexivity].
        f_equal. f_equal. lia.
  - exists "00", "+". split; [reflexivity |]. split; [now apply Hlen |].
    split; [intros _; split; reflexivity | intros C; cbn in C; lia].
  - exists "00", "+". split; [reflexivity |]. split; [now apply Hlen |].
    split; [intros _; split; reflexivity | intros C; cbn in C; lia].
Qed.

(** Noon of 1 January 2024, five hours and a half east of UTC. *)
Definition noon_east : datetime :=
  mk_datetime 2024 1 1 12 0 0 300000
              (Some (mk_tzinfo (Some (mk_timedelta 0 19800 0)))).

Lemma absolute_time_format_witness :
  Sm.datetime_to_smpp_time (Some (Absolute noon_east))
  = Ok "240101120000322+"
  /\ Sm.datetime_to_smpp_time (Some (Absolute noon_west))
     = Ok "240101120000076-".
Proof.
  split.
  - destruct (absolute_time_format noon_east) as (nn & p & E & _ & He & _).
    + reflexivity.
    + unfold offset_ok, timedelta_ok. cbn. lia.
    + destruct (He ltac:(cbn; lia)) as [-> ->]. exact E.
  - destruct (absolute_time_format noon_west) as (nn & p & E & _ & _ & Hw).
    + reflexivity.
    + unfold offset_ok, timedelta_ok. cbn. lia.
    + destruct (Hw ltac:(cbn; lia)) as [-> ->]. exact E.
Defined.

(** X7: an absolute time is not read back. When [smpp_time_to_datetime]
    returns on the 16 characters written for a datetime, the datetime had
    no tenth of second (with one, the microsecond handed to [datetime] is
    a million or more and it raises), and what is returned carries the
    two-digit year: it is the datetime given only for a year below 100. *)
Theorem absolute_time_not_read_back (ext : Externals) (x : datetime)
                                    (s : string) (r : option time_object) :
  datetime_ok x -> offset_ok x ->
  Sm.datetime_to_smpp_time (Some (Absolute x)) = Ok s ->
  Sm.smpp_time_to_datetime ext s = Ok r ->
  microsecond x < 100000
  /\ (exists tz,
        r = Some (Absolute (mk_datetime (year x mod 100) (month x) (day x)
                                        (hour x) (minute x) (second x) 0
                                        (Some tz))))
  /\ (100 <= year x -> r <> Some (Absolute x)).
Proof.
  intros Hok Hoff Hs Hr.
  destruct (datetime_ok_bounds x Hok)
    as (Hy & Hmo & Hd & Hh & Hmi & Hse & Hus).
  pose proof (days_in_month_bound (year x) (month x)) as Hdim.
  pose proof (Z.mod_pos_bound (year x) 100 ltac:(lia)) as Hyy.
  assert (Ht : 0 <= microsecond x / 100000 < 10).
  { split; [apply Z.div_pos; lia | apply Z.div_lt_upper_bound; lia]. }
  destruct (absolute_time_written x Hok Hoff) as (q & p & _ & Hp & E).
  rewrite E in Hs. inversion Hs; subst s; clear Hs E.
  rewrite (strftime_ymdHMS_digits x Hok), (py_str_digit _ Ht) in Hr.
  pose proof (py_int_two_digits (year x mod 100) ltac:(lia)) as Ey.
  pose proof (py_int_two_digits (month x) ltac:(lia)) as Emo.
  pose proof (py_int_two_digits (day x) ltac:(lia)) as Ed.
  pose proof (py_int_two_digits (hour x) ltac:(lia)) as Eh.
  pose proof (py_int_two_digits (minute x) ltac:(lia)) as Emi.
  pose proof (py_int_two_digits (second x) ltac:(lia)) as Ese.
  pose proof (py_int_digit _ Ht) as Et.
  unfold two_digits in *. unfold Sm.smpp_time_to_datetime in Hr.
  assert (Hfields :
    forall tz y,
      py_datetime (year x mod 100) (month x) (day x) (hour x) (minute x)
                  (second x) (microsecond x / 100000 * 1000000) tz = Ok y ->
      microsecond x < 100000
      /\ y = mk_datetime (year x mod 100) (month x) (day x) (hour x)
                         (minute x) (second x) 0 tz).
  { intros tz y Hdt. unfold py_datetime in Hdt.
    destruct (datetime_fields_ok _ _ _ _ _ _ _) eqn:F; [| discriminate].
    inversion Hdt; subst y; clear Hdt.
    unfold datetime_fields_ok in F.
    apply andb_true_iff in F. destruct F as [_ F]. apply Z.leb_le in F.
    assert (Ez : microsecond x / 100000 = 0) by lia.
    rewrite Ez. split; [| reflexivity].
    pose proof (Z.div_mod (microsecond x) 100000 ltac:(lia)).
    pose proof (Z.mod_pos_bound (microsecond x) 100000 ltac:(lia)). lia. }
  assert (Hres : microsecond x < 100000
            /\ exists tz,
                 r = Some (Absolute (mk_datetime (year x mod 100) (month x)
                                       (day x) (hour x) (minute x) (second x)
                                       0 (Some tz)))).
  { destruct Hp as [-> | ->];
      cbn [append str_empty str_slice substring Nat.sub str_endswith
           Ascii.eqb Bool.eqb] in Hr;
      rewrite Ey, Emo, Ed, Eh, Emi, Ese in Hr; cbn [bind] in Hr;
      rewrite Et in Hr; cbn [bind] in Hr;
      (destruct (FixedOffset_from_timezone ext _) as [tz |];
       cbn [bind] in Hr; [| discriminate]);
      bind_as Hr y Hy'; inversion Hr; subst r;
      destruct (Hfields _ _ Hy') as [Hlt ->];
      (split; [exact Hlt | now exists tz]). }
  destruct Hres as (Hlt & tz & ->).
  split; [exact Hlt |]. split; [now exists tz |].
  intros H100 C. inversion C as [Cy].
  pose proof (Z.mod_pos_bound (year x) 100 ltac:(lia)).
  destruct x as [yy ? ? ? ? ? ? ?]. cbn in *. inversion Cy. lia.
Qed.

Lemma absolute_time_not_read_back_witness :
  exists tz,
    Sm.smpp_time_to_datetime Reference.externals "240101120000000+"
    = Ok (Some (Absolute (mk_datetime 24 1 1 12 0 0 0 (Some tz)))).
Proof.
  destruct (Sm.smpp_time_to_datetime Reference.externals "240101120000000+")
    as [r |] eqn:E; [| vm_compute in E; discriminate].
  destruct (absolute_time_not_read_back Reference.externals noon_utc
              "240101120000000+" r) as (_ & (tz & ->) & _).
  - reflexivity.
  - unfold offset_ok, timedelta_ok. cbn. lia.
  - reflexivity.
  - exact E.
  - exists tz. reflexivity.
Defined.

(* ------------------------------------------------------------------ *)
(** ** What [Sm.pdu] does to the message, and what it accepts *)

Lemma smpp_encode_again (ext : Externals) (self self' : Sm.t) (text : string)
                        (b : bytes) :
  Sm.smpp_encode ext self text = Ok (b, self') ->
  Sm.smpp_encode ext self' text = Ok (b, self')
  /\ (self' = self
      \/ (Sm.encoding_unset (Sm.encoding self) = true
          /\ self' = Sm.set_encoding self (Some "ucs2"))).
Proof.
  unfold Sm.smpp_encode. intros H.
  assert (Hauto :
    match (codec_info <- find_codec_info ext (Sm._default_encoding self)
                                         (Sm._custom_codecs self) ;;
           encode codec_info text (Sm.error_handling self)) with
    | Ok result => Ok (result, self)
    | Err EncodingFailure =>
        codec_info <- find_codec_info ext "ucs2" (Sm._custom_codecs self) ;;
        result <- encode codec_info text (Sm.error_handling self) ;;
        Ok (result, Sm.set_encoding self (Some "ucs2"))
    | Err e => Err e
    end = Ok (b, self') ->
    (self' = self
     /\ (codec_info <- find_codec_info ext (Sm._default_encoding self)
                                       (Sm._custom_codecs self) ;;
         encode codec_info text (Sm.error_handling self)) = Ok b)
    \/ (self' = Sm.set_encoding self (Some "ucs2")
        /\ (codec_info <- find_codec_info ext "ucs2" (Sm._custom_codecs self) ;;
            encode codec_info text (Sm.error_handling self)) = Ok b)).
  { intros Ha.
    destruct (codec_info <- find_codec_info ext (Sm._default_encoding self)
                                            (Sm._custom_codecs self) ;;
              encode codec_info text (Sm.error_handling self))
      as [res | err].
    - inversion Ha; subst. left. split; reflexivity.
    - destruct err; try discriminate. right.
      bind_as Ha ci Eci. bind_as Ha res Eres. inversion Ha; subst.
      split; [reflexivity |]. rewrite Eci. cbn [bind]. exact Eres. }
  assert (Hfin :
    Sm.encoding_unset (Sm.encoding self) = true ->
    (self' = self
     /\ (codec_info <- find_codec_info ext (Sm._default_encoding self)
                                       (Sm._custom_codecs self) ;;
         encode codec_info text (Sm.error_handling self)) = Ok b)
    \/ (self' = Sm.set_encoding self (Some "ucs2")
        /\ (codec_info <- find_codec_info ext "ucs2" (Sm._custom_codecs self) ;;
            encode codec_info text (Sm.error_handling self)) = Ok b) ->
    match Sm.encoding self' with
    | Some e =>
        if str_empty e then
          match (codec_info <- find_codec_info ext (Sm._default_encoding self')
                                               (Sm._custom_codecs self') ;;
                 encode codec_info text (Sm.error_handling self')) with
          | Ok result => Ok (result, self')
          | Err EncodingFailure =>
              codec_info <- find_codec_info ext "ucs2"
                                            (Sm._custom_codecs self') ;;
              result <- encode codec_info text (Sm.error_handling self') ;;
              Ok (result, Sm.set_encoding self' (Some "ucs2"))
          | Err e => Err e
          end
        else
          codec_info <- find_codec_info ext e (Sm._custom_codecs self') ;;
          result <- encode codec_info text (Sm.error_handling self') ;;
          Ok (result, self')
    | None =>
        match (codec_info <- find_codec_info ext (Sm._default_encoding self')
                                             (Sm._custom_codecs self') ;;
               encode codec_info text (Sm.error_handling self')) with
        | Ok result => Ok (result, self')
        | Err EncodingFailure =>
            codec_info <- find_codec_info ext "ucs2"
                                          (Sm._custom_codecs self') ;;
            result <- encode codec_info text (Sm.error_handling self') ;;
            Ok (result, Sm.set_encoding self' (Some "ucs2"))
        | Err e => Err e
        end
    end = Ok (b, self')
    /\ (self' = self
        \/ (Sm.encoding_unset (Sm.encoding self) = true
            /\ self' = Sm.set_encoding self (Some "ucs2")))).
  { intros Hu [[-> E] | [-> E]].
    - split; [| now left].
      unfold Sm.encoding_unset in Hu.
      destruct (Sm.encoding self) as [e |]; [rewrite Hu |]; now rewrite E.
    - split; [| right; split; [exact Hu | reflexivity]].
      cbn [Sm.encoding Sm.set_encoding str_empty Sm._custom_codecs
           Sm.error_handling].
      bind_as E ci Eci. rewrite Eci. cbn [bind]. rewrite E. reflexivity. }
  destruct (Sm.encoding self) as [e |] eqn:Eenc.
  - destruct (str_empty e) eqn:Ee.
    + apply Hfin; [exact Ee | apply Hauto; exact H].
    + bind_as H ci Eci. bind_as H res Eres. inversion H; subst.
      split; [| now left].
      rewrite Eenc, Ee, Eci. cbn [bind]. rewrite Eres. reflexivity.
  - apply Hfin; [reflexivity | apply Hauto; exact H].
Qed.

(** X8: [pdu] changes nothing of an [Sm] but its [encoding], and that only
    from unset to ["ucs2"], when the default encoding could not encode the
    text; and calling [pdu] again on the message it leaves returns the
    same bytes and changes nothing more. *)
Theorem Sm_pdu_repeatable (ext : Externals) (smpp_command : Z)
                          (self self' : Sm.t) (data : bytes) :
  Sm.pdu ext smpp_command self = Ok (data, self') ->
  Sm.pdu ext smpp_command self' = Ok (data, self')
  /\ (self' = self
      \/ (Sm.encoding_unset (Sm.encoding self) = true
          /\ self' = Sm.set_encoding self (Some "ucs2"))).
Proof.
  intros Hp.
  destruct (Sm_pdu_decomposed _ _ _ _ _ Hp)
    as (b & dc & n & short & payload & Henc & _).
  destruct (smpp_encode_again _ _ _ _ _ Henc) as [Hagain Hself].
  split; [| exact Hself].
  assert (Etext : Sm_text self' = Sm_text self).
  { destruct Hself as [-> | [_ ->]]; reflexivity. }
  pose proof Hp as H. unfold Sm.pdu in H |- *.
  fold (Sm_text self) in H. fold (Sm_text self').
  rewrite Henc in H. rewrite Etext, Hagain. exact H.
Qed.

(** A message with no encoding of its own whose text has a character,
    e acute, that the default encoding [ascii] cannot encode. *)
Definition deliver_accent : Sm.t :=
  Sm.mk ESME_ROK 1 (String "c" (String "a" (String "f" (String "233" ""))))
        (mk_PhoneNumber "1" 1 1) (mk_PhoneNumber "2" 1 1)
        "CMT" 0 0 0 None None 1 0 None 0 "" [] true "strict" "" ""
        "ascii" None.

Lemma Sm_pdu_repeatable_witness :
  exists data,
    Sm.pdu Reference.externals DELIVER_SM deliver_accent
    = Ok (data, Sm.set_encoding deliver_accent (Some "ucs2"))
    /\ Sm.pdu Reference.externals DELIVER_SM
         (Sm.set_encoding deliver_accent (Some "ucs2"))
       = Ok (data, Sm.set_encoding deliver_accent (Some "ucs2")).
Proof.
  destruct (Sm.pdu Reference.externals DELIVER_SM deliver_accent)
    as [[data s'] |] eqn:E; [| vm_compute in E; discriminate].
  assert (Es : s' = Sm.set_encoding deliver_accent (Some "ucs2")).
  { vm_compute in E. inversion E. reflexivity. }
  subst s'.
  destruct (Sm_pdu_repeatable Reference.externals DELIVER_SM deliver_accent
              _ data E) as [H _].
  exists data. split; [reflexivity | exact H].
Defined.

(** A string that [encode('ascii')] accepts. *)
Fixpoint is_ascii (s : string) : bool :=
  match s with
  | EmptyString => true
  | String c s' => (N_of_ascii c <? 128)%N && is_ascii s'
  end.

Lemma encode_ascii_is_ascii (s : string) (b : bytes) :
  encode_ascii s = Ok b -> is_ascii s = true.
Proof.
  revert b. induction s as [| c s IH]; intros b H; [reflexivity |].
  cbn [encode_ascii] in H. cbn [is_ascii].
  destruct (N_of_ascii c <? 128)%N; [| discriminate].
  bind_as H r Er. now rewrite (IH r Er).
Qed.

Lemma encode_ascii_not_ascii (s : string) :
  is_ascii s = false -> encode_ascii s = Err EncodingFailure.
Proof.
  induction s as [| c s IH]; intros H; [discriminate |].
  cbn [is_ascii] in H. cbn [encode_ascii].
  destruct (N_of_ascii c <? 128)%N; [| reflexivity].
  cbn [andb] in H. now rewrite (IH H).
Qed.

(** X9: [pdu] does not truncate a number and does not replace a character.
    When it returns a PDU, the type and plan of both addresses, the five
    flags before the text and [sm_default_msg_id] are within 0..255, the
    command, the status and the sequence number are unsigned 32-bit
    numbers, and [service_type] and both phone numbers are ASCII. *)
Theorem Sm_pdu_fields_fit (ext : Externals) (smpp_command : Z)
                          (self self' : Sm.t) (data : bytes) :
  Sm.pdu ext smpp_command self = Ok (data, self') ->
  (0 <= ton (Sm.source self) <= 255 /\ 0 <= npi (Sm.source self) <= 255
   /\ 0 <= ton (Sm.destination self) <= 255
   /\ 0 <= npi (Sm.destination self) <= 255)
  /\ (0 <= Sm.esm_class self <= 255 /\ 0 <= Sm.protocol_id self <= 255
      /\ 0 <= Sm.priority_flag self <= 255
      /\ 0 <= Sm.registered_delivery self <= 255
      /\ 0 <= Sm.replace_if_present_flag self <= 255
      /\ 0 <= Sm.sm_default_msg_id self <= 255)
  /\ (0 <= smpp_command <= 4294967295
      /\ 0 <= Sm.command_status self <= 4294967295
      /\ 0 <= Sm.sequence_num self <= 4294967295
      /\ Z.of_nat (List.length data) <= 4294967295)
  /\ (is_ascii (Sm.service_type self) = true
      /\ is_ascii (number (Sm.source self)) = true
      /\ is_ascii (number (Sm.destination self)) = true).
Proof.
  intros Hp.
  destruct (Sm_pdu_decomposed _ _ _ _ _ Hp)
    as (b & dc & n & short & payload & Henc & _ & _ & Hl).
  destruct Hl as (header & head & tlvs & Hhead & _ & Hh & _ & Hm & _ & _).
  assert (Hsame :
    Sm.source self' = Sm.source self
    /\ Sm.destination self' = Sm.destination self
    /\ Sm.esm_class self' = Sm.esm_class self
    /\ Sm.protocol_id self' = Sm.protocol_id self
    /\ Sm.priority_flag self' = Sm.priority_flag self
    /\ Sm.registered_delivery self' = Sm.registered_delivery self
    /\ Sm.replace_if_present_flag self' = Sm.replace_if_present_flag self
    /\ Sm.sm_default_msg_id self' = Sm.sm_default_msg_id self
    /\ Sm.command_status self' = Sm.command_status self
    /\ Sm.sequence_num self' = Sm.sequence_num self
    /\ Sm.service_type self' = Sm.service_type self).
  { destruct (smpp_encode_self _ _ _ _ _ Henc) as [-> | ->];
      repeat split; reflexivity. }
  destruct Hsame as (E1 & E2 & E3 & E4 & E5 & E6 & E7 & E8 & E9 & E10 & E11).
  rewrite E8 in Hm. rewrite E9, E10 in Hh.
  unfold Sm_body_head in Hhead.
  rewrite E1, E2, E3, E4, E5, E6, E7, E11 in Hhead.
  bind_as Hhead b1 Hb1. bind_as Hhead b2 Hb2. bind_as Hhead b3 Hb3.
  bind_as Hhead b4 Hb4. bind_as Hhead b5 Hb5. bind_as Hhead b6 Hb6.
  bind_as Hhead t1 Ht1. bind_as Hhead b7 Hb7. bind_as Hhead t2 Ht2.
  bind_as Hhead b8 Hb8. bind_as Hhead b9 Hb9. clear Hhead.
  apply pack_BB_inv in Hb2. apply pack_BB_inv in Hb4.
  apply pack_BBB_inv in Hb6. apply pack_BB_inv in Hb9.
  apply encode_ascii_is_ascii in Hb1. apply encode_ascii_is_ascii in Hb3.
  apply encode_ascii_is_ascii in Hb5.
  unfold SmppMessage.pack_header in Hh.
  bind_as Hh h1 Hh1. bind_as Hh h2 Hh2. bind_as Hh h3 Hh3.
  bind_as Hh h4 Hh4. clear Hh.
  apply pack_I_inv in Hh1. apply pack_I_inv in Hh2.
  apply pack_I_inv in Hh3. apply pack_I_inv in Hh4.
  repeat split; try tauto; try lia.
Qed.

Lemma Sm_pdu_fields_fit_witness :
  0 <= Sm.esm_class submit_hi <= 255
  /\ 0 <= Sm.sequence_num submit_hi <= 4294967295
  /\ is_ascii (Sm.service_type submit_hi) = true.
Proof.
  destruct (Sm.pdu Reference.externals SUBMIT_SM submit_hi)
    as [[data s'] |] eqn:E; [| vm_compute in E; discriminate].
  destruct (Sm_pdu_fields_fit Reference.externals SUBMIT_SM submit_hi s'
              data E) as (_ & (He & _) & (_ & _ & Hn & _) & (Ha & _)).
  repeat split; tauto.
Defined.

(* ------------------------------------------------------------------ *)
(** ** What the decoders reject, and what they return *)

Lemma bytes_find_none (l : bytes) (pos : nat) :
  (forall b, In b l -> b <> x00) -> bytes_find l x00 pos = None.
Proof.
  revert pos. induction l as [| a l IH]; intros pos H; [reflexivity |].
  cbn [bytes_find].
  destruct (Byte.eqb a x00) eqn:E.
  - apply Byte.byte_dec_bl in E. exfalso. apply (H a); [now left | exact E].
  - apply IH. intros b Hb. apply H. now right.
Qed.

Lemma bytes_index_missing (pdu : bytes) (i : nat) :
  (forall j, (i <= j)%nat -> nth_error pdu j <> Some x00) ->
  bytes_index pdu x00 i = Err MissingTerminator.
Proof.
  intros H. unfold bytes_index. rewrite bytes_find_none; [reflexivity |].
  intros b Hb ->. apply In_nth_error in Hb. destruct Hb as [k Hk].
  rewrite nth_error_skipn in Hk. apply (H (i + k)%nat); [lia | exact Hk].
Qed.

(** X10: a PDU with no NUL byte after its header, such as one of 16 bytes,
    makes the decoders of [Sm] (hence [SubmitSm] and [DeliverSm]),
    [BindTransceiver] and [BindTransceiverResp] raise the [ValueError] of
    [bytes.index]: the first C-octet string has no end. *)
Theorem from_pdu_without_terminator
    (ext : Externals) (pdu : bytes) (header : PduHeader.t)
    (default_encoding : string) (custom_codecs : option codec_dict) :
  (forall j, (16 <= j)%nat -> nth_error pdu j <> Some x00) ->
  SubmitSm.from_pdu ext pdu header default_encoding custom_codecs
  = Err MissingTerminator
  /\ DeliverSm.from_pdu ext pdu header default_encoding custom_codecs
     = Err MissingTerminator
  /\ BindTransceiver.from_pdu ext pdu header = Err MissingTerminator
  /\ BindTransceiverResp.from_pdu pdu header = Err MissingTerminator.
Proof.
  intros H. pose proof (bytes_index_missing pdu 16 H) as E.
  assert (Hsm : forall (T : Type) (cls : Sm.constructor T),
            Sm.from_pdu cls ext pdu header default_encoding custom_codecs
            = Err MissingTerminator).
  { intros T cls. unfold Sm.from_pdu, Sm.read_mandatory,
      Sm.get_c_octet_string, PDU_HEADER_LENGTH.
    rewrite E. reflexivity. }
  split; [apply Hsm |].
  split; [unfold DeliverSm.from_pdu; now rewrite Hsm |].
  split.
  - unfold BindTransceiver.from_pdu, BindTransceiver.get_c_octet_string,
      PDU_HEADER_LENGTH.
    rewrite E. reflexivity.
  - unfold BindTransceiverResp.from_pdu, PDU_HEADER_LENGTH.
    rewrite E. reflexivity.
Qed.

(** The PDU of an [enquire_link]: a header and nothing else. *)
Definition enquire_link_pdu : bytes :=
  [x00; x00; x00; x10; x00; x00; x00; x15; x00; x00; x00; x00;
   x00; x00; x00; x07].

Lemma from_pdu_without_terminator_witness :
  DeliverSm.from_pdu Reference.externals enquire_link_pdu
    (PduHeader.mk 16 ENQUIRE_LINK ESME_ROK 7) "" None
  = Err MissingTerminator
  /\ BindTransceiverResp.from_pdu enquire_link_pdu
       (PduHeader.mk 16 ENQUIRE_LINK ESME_ROK 7)
     = Err MissingTerminator.
Proof.
  destruct (from_pdu_without_terminator Reference.externals enquire_link_pdu
              (PduHeader.mk 16 ENQUIRE_LINK ESME_ROK 7) "" None)
    as (_ & Hd & _ & Hr).
  - intros j Hj C.
    assert (Hlen : (j < List.length enquire_link_pdu)%nat)
      by (apply nth_error_Some; rewrite C; discriminate).
    cbn in Hlen. lia.
  - split; assumption.
Defined.

(** X11: [SubmitSm.from_pdu] never returns a message. [Sm.from_pdu] calls
    the class with [log_id=''], which the constructor of [SubmitSm]
    refuses: a PDU that the rest of [from_pdu] accepts ends in that
    [ValueError], and any other PDU in the error of the step that
    failed. *)
Theorem SubmitSm_from_pdu_never_returns
    (ext : Externals) (pdu : bytes) (header : PduHeader.t)
    (default_encoding : string) (custom_codecs : option codec_dict) :
  (exists e,
     SubmitSm.from_pdu ext pdu header default_encoding custom_codecs = Err e)
  /\ (forall m,
        Sm.from_pdu Sm.__init__ ext pdu header default_encoding custom_codecs
        = Ok m ->
        SubmitSm.from_pdu ext pdu header default_encoding custom_codecs
        = Err (InvalidArgument "Parameter `log_id` cannot be empty.")).
Proof.
  unfold SubmitSm.from_pdu, Sm.from_pdu. split.
  - destruct (Sm.read_mandatory ext pdu default_encoding custom_codecs)
      as [f | e]; cbn [bind]; [| now exists e].
    destruct (Sm.read_optional_params _ _ _ _ _ _ _ _) as [[mp ops] | e];
      cbn [bind]; [| now exists e].
    destruct (Sm.smpp_time_to_datetime ext (Sm.f_schedule_delivery_time f))
      as [t1 | e]; cbn [bind]; [| now exists e].
    destruct (Sm.smpp_time_to_datetime ext (Sm.f_validity_period f))
      as [t2 | e]; cbn [bind]; [| now exists e].
    eexists. reflexivity.
  - intros m H.
    bind_as H f Ef. rewrite Ef. cbn [bind].
    bind_as H r Er. rewrite Er. cbn [bind]. destruct r as [mp ops].
    bind_as H t1 E1. rewrite E1. cbn [bind].
    bind_as H t2 E2. rewrite E2. cbn [bind]. reflexivity.
Qed.

Lemma Sm_init_ok_inv
    (short_message : string) (source destination : PhoneNumber)
    (service_type : string) (esm_class protocol_id priority_flag : Z)
    (schedule_delivery_time validity_period : option time_object)
    (registered_delivery replace_if_present_flag : Z)
    (encoding : option string) (sm_default_msg_id : Z)
    (message_payload : string) (optional_params : list OptionalParam)
    (auto_message_payload : bool) (error_handling : string)
    (sequence_num : Z) (log_id extra_data : string) (self : Sm.t) :
  Sm.__init__ short_message source destination service_type esm_class
    protocol_id priority_flag schedule_delivery_time validity_period
    registered_delivery replace_if_present_flag encoding
    sm_default_msg_id message_payload optional_params
    auto_message_payload error_handling sequence_num log_id extra_data
  = Ok self ->
  ~ Sm_arguments_invalid short_message message_payload optional_params
  /\ self = Sm.mk ESME_ROK sequence_num short_message source destination
              service_type esm_class protocol_id priority_flag
              schedule_delivery_time validity_period registered_delivery
              replace_if_present_flag encoding sm_default_msg_id
              message_payload optional_params auto_message_payload
              error_handling log_id extra_data "" None.
Proof.
  intros H.
  destruct (Sm_init_cases short_message source destination service_type
              esm_class protocol_id priority_flag schedule_delivery_time
              validity_period registered_delivery replace_if_present_flag
              encoding sm_default_msg_id message_payload optional_params
              auto_message_payload error_handling sequence_num log_id
              extra_data) as [Hbad Hgood].
  destruct (Sm_arguments_invalid_dec short_message message_payload
              optional_params) as [Hi | Hv].
  - destruct (Hbad Hi) as (msg & E). rewrite E in H. discriminate.
  - split; [exact Hv |]. rewrite (Hgood Hv) in H. now inversion H.
Qed.

(** X12: what [DeliverSm.from_pdu] returns, when it returns. Exactly one
    of [short_message] and [message_payload] is not empty; no optional
    parameter carries the tag of [message_payload]; the sequence number is
    that of the header and the status is [ESME_ROK] whatever the header
    says; the four attributes that are not on the wire have their
    defaults; the encoding is set; and there is a receipt exactly when
    the message-type bits of [esm_class] are 1. *)
Theorem DeliverSm_from_pdu_returns
    (ext : Externals) (pdu : bytes) (header : PduHeader.t)
    (default_encoding : string) (custom_codecs : option codec_dict)
    (d : DeliverSm.t) :
  DeliverSm.from_pdu ext pdu header default_encoding custom_codecs = Ok d ->
  let m := DeliverSm.base d in
  (Sm.short_message m = "" <-> Sm.message_payload m <> "")
  /\ Forall (fun p => tag p <> MESSAGE_PAYLOAD) (Sm.optional_params m)
  /\ Sm.sequence_num m = PduHeader.sequence_num header
  /\ Sm.command_status m = ESME_ROK
  /\ (Sm.auto_message_payload m = true /\ Sm.error_handling m = "strict"
      /\ Sm.log_id m = "" /\ Sm.extra_data m = "")
  /\ (exists enc, Sm.encoding m = Some enc)
  /\ (DeliverSm.receipt d <> None
      <-> Z.land (Z.shiftr (Sm.esm_class m) 2) 0x0F = 1).
Proof.
  intros H m. subst m. unfold DeliverSm.from_pdu in H.
  bind_as H sm Hsm. unfold Sm.from_pdu in Hsm.
  bind_as Hsm f Ef. bind_as Hsm r Er. destruct r as [mp ops].
  bind_as Hsm t1 E1. bind_as Hsm t2 E2.
  unfold DeliverSm.cls, DeliverSm.__init__ in Hsm.
  cbn [DeliverSm.receipt_given] in Hsm.
  bind_as Hsm self Eself. inversion Hsm; subst sm; clear Hsm.
  apply Sm_init_ok_inv in Eself. destruct Eself as [Hv ->].
  cbn [DeliverSm.base] in H.
  assert (Hbase : DeliverSm.base d
                  = Sm.mk ESME_ROK (PduHeader.sequence_num header)
                      (Sm.f_short_message f) (Sm.f_source f)
                      (Sm.f_destination f) (Sm.f_service_type f)
                      (Sm.f_esm_class f) (Sm.f_protocol_id f)
                      (Sm.f_priority_flag f) t1 t2
                      (Sm.f_registered_delivery f)
                      (Sm.f_replace_if_present_flag f)
                      (Some (Sm.f_encoding f)) (Sm.f_sm_default_msg_id f)
                      mp ops true "strict" "" "" "" None
                  /\ (DeliverSm.receipt d <> None
                      <-> Z.land (Z.shiftr (Sm.f_esm_class f) 2) 0x0F = 1)).
  { cbn [Sm.esm_class] in H. rewrite message_class_bits in H.
    destruct (Z.land (Z.shiftr (Sm.f_esm_class f) 2) 15 =? 1) eqn:Ec.
    - bind_as H rcpt Ercpt. inversion H; subst d. cbn.
      apply Z.eqb_eq in Ec. split; [reflexivity |].
      split; [intros _; exact Ec | intros _; discriminate].
    - inversion H; subst d. cbn. apply Z.eqb_neq in Ec.
      split; [reflexivity |]. split; [congruence | contradiction]. }
  destruct Hbase as [-> Hrc]. cbn.
  unfold Sm_arguments_invalid in Hv.
  split.
  { destruct (Sm.f_short_message f), mp; split; intros A; try congruence;
      exfalso; apply Hv; [right; left | left]; split; congruence. }
  split.
  { apply Forall_forall. intros p Hp Ht. apply Hv. right. right.
    now exists p. }
  split; [reflexivity |]. split; [reflexivity |].
  split; [repeat split |].
  split; [eexists; reflexivity | exact Hrc].
Qed.

Lemma DeliverSm_from_pdu_returns_witness :
  exists d,
    DeliverSm.from_pdu Reference.externals receipt_pdu
      (PduHeader.mk (Z.of_nat (List.length receipt_pdu)) DELIVER_SM
                    ESME_ROK 1) "" None = Ok d
    /\ Sm.message_payload (DeliverSm.base d) = ""
    /\ DeliverSm.receipt d <> None.
Proof.
  destruct (DeliverSm.from_pdu Reference.externals receipt_pdu
              (PduHeader.mk (Z.of_nat (List.length receipt_pdu)) DELIVER_SM
                            ESME_ROK 1) "" None) as [d |] eqn:E;
    [| vm_compute in E; discriminate].
  destruct (DeliverSm_from_pdu_returns _ _ _ _ _ _ E)
    as (Hone & _ & _ & _ & _ & _ & Hr).
  exists d. split; [reflexivity |].
  assert (Hc : Z.land (Z.shiftr (Sm.esm_class (DeliverSm.base d)) 2) 0x0F = 1)
    by (vm_compute in E; inversion E; reflexivity).
  assert (Hs : Sm.short_message (DeliverSm.base d) <> "")
    by (vm_compute in E; inversion E; discriminate).
  split; [| now apply Hr].
  destruct (Sm.message_payload (DeliverSm.base d)) eqn:Emp; [reflexivity |].
  exfalso. apply Hs. apply Hone. discriminate.
Defined.

(* ------------------------------------------------------------------ *)
(** ** A [DeliverSm] built from a receipt *)

(** X13: the [DeliverSm] that the constructor returns for a receipt that
    is not empty. Its [esm_class] is 0b00000100 whatever was passed, so
    that its message-type bits are 1, and the receipt is kept. A text that
    was given is kept as it is. The receipt is written into
    [short_message] only when no text was given, and then
    [message_payload] was given (the constructor of [Sm] has already
    refused two empty texts) and is kept: the message carries both. *)
Theorem DeliverSm_built_from_receipt
    (short_message : string) (source destination : PhoneNumber)
    (service_type : string) (esm_class protocol_id priority_flag : Z)
    (schedule_delivery_time validity_period : option time_object)
    (registered_delivery replace_if_present_flag : Z)
    (encoding : option string) (sm_default_msg_id : Z)
    (message_payload : string) (optional_params : list OptionalParam)
    (auto_message_payload : bool) (error_handling : string)
    (sequence_num : Z) (log_id extra_data : string)
    (kv : string * receipt_value) (r : receipt_dict) (d : DeliverSm.t) :
  DeliverSm.__init__ short_message source destination service_type
    esm_class protocol_id priority_flag schedule_delivery_time
    validity_period registered_delivery replace_if_present_flag encoding
    sm_default_msg_id message_payload optional_params auto_message_payload
    error_handling sequence_num log_id extra_data (Some (kv :: r)) = Ok d ->
  Sm.esm_class (DeliverSm.base d) = 4
  /\ Z.shiftr (Z.land (Sm.esm_class (DeliverSm.base d)) 0x3C) 2 = 1
  /\ DeliverSm.receipt d = Some (kv :: r)
  /\ Sm.message_payload (DeliverSm.base d) = message_payload
  /\ (short_message <> "" ->
      Sm.short_message (DeliverSm.base d) = short_message
      /\ message_payload = "")
  /\ (short_message = "" ->
      message_payload <> ""
      /\ DeliverSm.receipt_text (kv :: r)
         = Ok (Sm.short_message (DeliverSm.base d))
      /\ Sm.short_message (DeliverSm.base d) <> "").
Proof.
  unfold DeliverSm.__init__. cbn [DeliverSm.receipt_given]. intros H.
  bind_as H self Eself. apply Sm_init_ok_inv in Eself.
  destruct Eself as [Hv ->]. unfold Sm_arguments_invalid in Hv.
  destruct (str_empty short_message) eqn:Ee.
  - apply str_empty_true in Ee. subst short_message.
    bind_as H text Et. inversion H; subst d; clear H. cbn.
    repeat (split; [reflexivity |]).
    split; [intros C; now contradiction C |].
    intros _. split; [intros C; apply Hv; right; left; now split |].
    split; [exact Et |].
    unfold DeliverSm.receipt_text in Et.
    bind_as Et a1 E1. bind_as Et a2 E2. bind_as Et a3 E3. bind_as Et a4 E4.
    bind_as Et a5 E5. bind_as Et a6 E6. bind_as Et a7 E7. bind_as Et a8 E8.
    inversion Et. discriminate.
  - apply str_empty_false in Ee. inversion H; subst d; clear H. cbn.
    repeat (split; [reflexivity |]).
    split; [| intros C; contradiction].
    intros _. split; [reflexivity |].
    destruct message_payload; [reflexivity |].
    exfalso. apply Hv. left. split; [exact Ee | discriminate].
Qed.

Lemma DeliverSm_built_from_receipt_witness :
  exists d,
    DeliverSm.__init__ "" (mk_PhoneNumber "1" 1 1) (mk_PhoneNumber "2" 1 1)
      "CMT" 0 0 0 None None 1 0 (Some "latin_1") 0 "payload" [] true
      "strict" 1 "" "" (Some [("id", RStr "abc"); ("sub", RInt 1)]) = Ok d
    /\ Sm.esm_class (DeliverSm.base d) = 4
    /\ Sm.message_payload (DeliverSm.base d) = "payload"
    /\ Sm.short_message (DeliverSm.base d)
       = "id:abc sub:001 dlvrd:000 submit date: done date: stat: err: Text:                    ".
Proof.
  destruct (DeliverSm.__init__ "" (mk_PhoneNumber "1" 1 1)
              (mk_PhoneNumber "2" 1 1) "CMT" 0 0 0 None None 1 0
              (Some "latin_1") 0 "payload" [] true "strict" 1 "" ""
              (Some [("id", RStr "abc"); ("sub", RInt 1)]))
    as [d |] eqn:E; [| vm_compute in E; discriminate].
  destruct (DeliverSm_built_from_receipt _ _ _ _ _ _ _ _ _ _ _ _ _ _ _ _ _
              _ _ _ _ _ d E) as (Hc & _ & _ & Hmp & _ & Hs).
  destruct (Hs eq_refl) as (_ & Ht & _).
  exists d. split; [reflexivity |]. split; [exact Hc |].
  split; [exact Hmp |].
  assert (Et : DeliverSm.receipt_text [("id", RStr "abc"); ("sub", RInt 1)]
               = Ok "id:abc sub:001 dlvrd:000 submit date: done date: stat: err: Text:                    ")
    by (vm_compute; reflexivity).
  rewrite Et in Ht. inversion Ht. reflexivity.
Defined.

(* ------------------------------------------------------------------ *)
(** ** The loops of the decoders *)

Lemma get_integer_2_past_end (pdu : bytes) (index : nat) :
  (List.length pdu <= index)%nat ->
  Sm.get_integer pdu 2 index = Err StructError.
Proof.
  intros H. unfold Sm.get_integer. cbn [Z.eqb Pos.eqb]. unfold unpack_H.
  assert (E : nth_error pdu index = None) by (apply nth_error_None; lia).
  rewrite E. reflexivity.
Qed.

Lemma read_optional_params_fuel
    (ext : Externals) (codec_info : CodecInfo) (pdu : bytes)
    (pdu_length : Z) (fuel : nat) :
  forall (fuel' index : nat) (mp : string) (ops : list OptionalParam),
    (fuel <= fuel')%nat -> (List.length pdu <= index + fuel)%nat ->
    Sm.read_optional_params fuel ext codec_info pdu pdu_length index mp ops
    = Sm.read_optional_params fuel' ext codec_info pdu pdu_length index mp ops.
Proof.
  induction fuel as [| fuel IH]; intros fuel' index mp ops Hle Hlen.
  - destruct fuel' as [| fuel']; [reflexivity |].
    cbn [Sm.read_optional_params].
    destruct (negb (Z.of_nat index <? pdu_length)); [reflexivity |].
    now rewrite get_integer_2_past_end by lia.
  - destruct fuel' as [| fuel']; [lia |].
    cbn [Sm.read_optional_params].
    destruct (negb (Z.of_nat index <? pdu_length)); [reflexivity |].
    destruct (Sm.get_integer pdu 2 index) as [[tag_value i1] |] eqn:E1;
      cbn [bind]; [| reflexivity].
    apply get_integer_index in E1.
    destruct (OptionalTag_data_type ext tag_value) as [ty |];
      cbn [of_option bind]; [| reflexivity].
    destruct (Sm.get_integer pdu 2 i1) as [[len i2] |] eqn:E2;
      cbn [bind]; [| reflexivity].
    apply get_integer_index in E2.
    destruct (tag_value =? MESSAGE_PAYLOAD).
    { destruct (decode codec_info _); cbn [bind]; [| reflexivity].
      apply IH; lia. }
    destruct ty.
    + destruct (Sm.get_integer pdu len i2) as [[v i3] |] eqn:E3;
        cbn [bind]; [| reflexivity].
      apply get_integer_index in E3. apply IH; lia.
    + apply IH; lia.
    + destruct (Sm.get_octet_string pdu len i2) as [[v i3] |] eqn:E3;
        cbn [bind]; [| reflexivity].
      apply get_octet_string_index in E3. apply IH; lia.
Qed.

Lemma str_find_from_bounds (s : string) (c : ascii) (start : nat) :
  forall pos k,
    str_find_from s c start pos = Some k ->
    (start <= k /\ pos <= k < pos + String.length s)%nat.
Proof.
  induction s as [| a s IH]; intros pos k H; [discriminate |].
  cbn [str_find_from String.length] in *.
  destruct ((start <=? pos)%nat && Ascii.eqb a c) eqn:E.
  - inversion H; subst. apply andb_true_iff in E. destruct E as [E _].
    apply Nat.leb_le in E. lia.
  - apply IH in H. lia.
Qed.

Lemma str_find_from_past_end (s : string) (c : ascii) (start : nat) :
  forall pos,
    (pos + String.length s <= start)%nat ->
    str_find_from s c start pos = None.
Proof.
  induction s as [| a s IH]; intros pos H; [reflexivity |].
  cbn [str_find_from String.length] in *.
  replace (start <=? pos)%nat with false
    by (symmetry; apply Nat.leb_gt; lia).
  cbn [andb]. apply IH. lia.
Qed.

Lemma get_receipt_param_moves (s : string) (index : nat) (param value : string)
                              (index' : nat) :
  DeliverSm.get_receipt_param s index = Some (param, value, index') ->
  (index < index')%nat.
Proof.
  unfold DeliverSm.get_receipt_param, str_find. intros H.
  destruct (str_find_from s ":" index 0) as [e1 |] eqn:E1; [| discriminate].
  apply str_find_from_bounds in E1.
  destruct (str_find_from s " " (e1 + 1) 0) as [e2 |] eqn:E2.
  - apply str_find_from_bounds in E2.
    destruct (String.eqb _ "text"); inversion H; lia.
  - inversion H. lia.
Qed.

Lemma get_receipt_param_past_end (s : string) (index : nat) :
  (String.length s <= index)%nat ->
  DeliverSm.get_receipt_param s index = None.
Proof.
  intros H. unfold DeliverSm.get_receipt_param, str_find.
  now rewrite str_find_from_past_end by lia.
Qed.

Lemma read_receipt_fuel (s : string) (fuel : nat) :
  forall (fuel' index : nat) (rcpt_data : receipt_dict),
    (fuel <= fuel')%nat -> (String.length s < index + fuel)%nat ->
    DeliverSm.read_receipt fuel s index rcpt_data
    = DeliverSm.read_receipt fuel' s index rcpt_data.
Proof.
  induction fuel as [| fuel IH]; intros fuel' index rcpt_data Hle Hlen.
  - destruct fuel' as [| fuel']; [reflexivity |].
    cbn [DeliverSm.read_receipt].
    now rewrite get_receipt_param_past_end by lia.
  - destruct fuel' as [| fuel']; [lia |].
    cbn [DeliverSm.read_receipt].
    destruct (DeliverSm.get_receipt_param s index) as [[[p v] i'] |] eqn:E;
      [| reflexivity].
    apply get_receipt_param_moves in E.
    match goal with
    | |- bind ?r _ = _ => destruct r; cbn [bind]; [| reflexivity]
    end.
    apply IH; lia.
Qed.

(** X14: the two loops of the decoders end. The loop of [Sm.from_pdu] over
    the optional parameters reads at least four bytes in every turn or
    raises, so it makes no more turns than the PDU has bytes, whatever
    length the header announces; the loop of [DeliverSm.from_pdu] over the
    receipt moves its index forward in every turn and ends when no colon
    is left, so it makes no more turns than the text has characters, and
    one. A larger bound on the number of turns gives the same result. *)
Theorem decoder_loops_end :
  (forall (fuel : nat) (ext : Externals) (codec_info : CodecInfo)
          (pdu : bytes) (pdu_length : Z) (index : nat) (mp : string)
          (ops : list OptionalParam),
     (List.length pdu <= index + fuel)%nat ->
     Sm.read_optional_params fuel ext codec_info pdu pdu_length index mp ops
     = Sm.read_optional_params (List.length pdu) ext codec_info pdu
                               pdu_length index mp ops)
  /\ (forall (fuel : nat) (short_message : string) (index : nat)
             (rcpt_data : receipt_dict),
        (String.length short_message < index + fuel)%nat ->
        DeliverSm.read_receipt fuel short_message index rcpt_data
        = DeliverSm.read_receipt (S (String.length short_message))
                                 short_message index rcpt_data).
Proof.
  split.
  - intros fuel ext ci pdu pdu_length index mp ops H.
    destruct (Nat.le_ge_cases fuel (List.length pdu)) as [L | L].
    + apply read_optional_params_fuel; assumption.
    + symmetry. apply read_optional_params_fuel; [assumption | lia].
  - intros fuel s index rc H.
    destruct (Nat.le_ge_cases fuel (S (String.length s))) as [L | L].
    + apply read_receipt_fuel; assumption.
    + symmetry. apply read_receipt_fuel; [assumption | lia].
Qed.

(* ------------------------------------------------------------------ *)
(** ** The responses to [submit_sm] and [deliver_sm] *)

Lemma decode_ascii_err (data : bytes) (e : error) :
  decode_ascii data = Err e ->
  e = DecodingFailure /\ exists b, In b data /\ 128 <= Z_of_byte b.
Proof.
  induction data as [| a data IH]; intros H; [discriminate |].
  cbn [decode_ascii] in H.
  destruct (Byte.to_N a <? 128)%N eqn:E.
  - destruct (decode_ascii data) as [r |] eqn:Er; cbn [bind] in H;
      [discriminate |].
    inversion H; subst. destruct (IH eq_refl) as (He & b & Hb & Hv).
    split; [exact He |]. exists b. split; [now right | exact Hv].
  - inversion H. split; [reflexivity |]. exists a. split; [now left |].
    apply N.ltb_ge in E. unfold Z_of_byte. lia.
Qed.

Lemma decode_ascii_ok (data : bytes) :
  (forall b, In b data -> Z_of_byte b < 128) ->
  exists s, decode_ascii data = Ok s /\ encode_ascii s = Ok data.
Proof.
  induction data as [| a data IH]; intros H.
  - exists "". split; reflexivity.
  - destruct IH as (s & Hs & He); [intros b Hb; apply H; now right |].
    assert (Ha : (Byte.to_N a <? 128)%N = true).
    { apply N.ltb_lt. pose proof (H a (or_introl eq_refl)) as Hlt.
      unfold Z_of_byte in Hlt. lia. }
    exists (String (ascii_of_byte a) s).
    cbn [decode_ascii encode_ascii]. rewrite Ha, Hs. cbn [bind].
    split; [reflexivity |].
    assert (En : N_of_ascii (ascii_of_byte a) = Byte.to_N a).
    { rewrite <- (byte_of_ascii_to_N (ascii_of_byte a)).
      now rewrite byte_of_ascii_of_byte. }
    rewrite En, Ha, He. cbn [bind]. now rewrite byte_of_ascii_of_byte.
Qed.

(** X15: [SmResp.from_pdu], for [SubmitSmResp] and [DeliverSmResp]. The
    message identifier is what lies between the header and the last byte
    that the header announces. A response with no body, or with one byte
    of body, is read with an empty identifier. The only error is the
    [UnicodeDecodeError] of a byte above 127; when there is none the
    identifier is returned, along with the status and the sequence number
    of the header, and encodes to the bytes it was read from. *)
Theorem SmResp_from_pdu_result (pdu : bytes) (header : PduHeader.t) :
  let body :=
    slice_Z pdu (Z.of_nat PDU_HEADER_LENGTH)
            (PduHeader.pdu_length header - 1) in
  let response message_id :=
    SmResp.mk (PduHeader.command_status header)
              (PduHeader.sequence_num header) message_id in
  (1 <= PduHeader.pdu_length header <= 17 ->
   DeliverSmResp.from_pdu pdu header = Ok (response "")
   /\ SubmitSmResp.from_pdu pdu header
      = Ok (SubmitSmResp.mk (response "") "" ""))
  /\ (forall e,
        DeliverSmResp.from_pdu pdu header = Err e
        \/ SubmitSmResp.from_pdu pdu header = Err e ->
        e = DecodingFailure /\ exists b, In b body /\ 128 <= Z_of_byte b)
  /\ ((forall b, In b body -> Z_of_byte b < 128) ->
      exists message_id,
        encode_ascii message_id = Ok body
        /\ DeliverSmResp.from_pdu pdu header = Ok (response message_id)
        /\ SubmitSmResp.from_pdu pdu header
           = Ok (SubmitSmResp.mk (response message_id) "" "")).
Proof.
  intros body response.
  unfold DeliverSmResp.from_pdu, SubmitSmResp.from_pdu, SmResp.from_pdu,
    DeliverSmResp.__init__, SubmitSmResp.__init__, SmResp.__init__.
  fold body.
  split; [| split].
  - intros Hl.
    assert (Eb : body = []).
    { subst body. unfold slice_Z, slice, PDU_HEADER_LENGTH.
      replace (Z.of_nat 16 <? 0) with false by reflexivity.
      replace (PduHeader.pdu_length header - 1 <? 0) with false
        by (symmetry; apply Z.ltb_ge; lia).
      match goal with
      | |- firstn ?n _ = [] => replace n with 0%nat by lia
      end.
      reflexivity. }
    rewrite Eb. cbn. split; reflexivity.
  - intros e [H | H].
    + destruct (decode_ascii body) as [s |] eqn:E; cbn [bind] in H;
        [discriminate |].
      inversion H; subst. now apply decode_ascii_err.
    + destruct (decode_ascii body) as [s |] eqn:E; cbn [bind] in H;
        [discriminate |].
      inversion H; subst. now apply decode_ascii_err.
  - intros Hb. destruct (decode_ascii_ok body Hb) as (s & Hs & He).
    exists s. rewrite Hs. cbn [bind]. repeat split. exact He.
Qed.

Lemma SmResp_from_pdu_result_witness :
  DeliverSmResp.from_pdu enquire_link_pdu
    (PduHeader.mk 16 DELIVER_SM_RESP ESME_RUNKNOWNERR 7)
  = Ok (SmResp.mk ESME_RUNKNOWNERR 7 "").
Proof.
  destruct (SmResp_from_pdu_result enquire_link_pdu
              (PduHeader.mk 16 DELIVER_SM_RESP ESME_RUNKNOWNERR 7))
    as [H _].
  destruct H as [H _]; [cbn; lia | exact H].
Defined.

(* ------------------------------------------------------------------ *)
(** ** [as_dict] *)

(** A value of an attribute of a message. *)
Inductive py_value : Type :=
| PNone
| PInt (n : Z)
| PStr (s : string)
| PBool (b : bool)
| PPhoneNumber (p : PhoneNumber)
| PTime (t : time_object)
| PParams (l : list OptionalParam)
| PCodecs (c : codec_dict).

(** The [__dict__] of an object: its attributes in the order in which
    [__init__] assigned them. *)
Definition attrs : Type := list (string * py_value).

Fixpoint attrs_get (d : attrs) (k : string) : option py_value :=
  match d with
  | [] => None
  | (k', v) :: d' => if String.eqb k' k then Some v else attrs_get d' k
  end.

(** [d[k] = v]. *)
Fixpoint attrs_set (d : attrs) (k : string) (v : py_value) : attrs :=
  match d with
  | [] => [(k, v)]
  | (k', v') :: d' =>
      if String.eqb k' k then (k', v) :: d' else (k', v') :: attrs_set d' k v
  end.

(** [s.startswith(c)] for a one-character [c]. *)
Definition str_startswith (s : string) (c : ascii) : bool :=
  match s with
  | EmptyString => false
  | String a _ => Ascii.eqb a c
  end.

(** [SmppMessage.as_dict], on the [__dict__] of [self]. *)
Definition SmppMessage_as_dict (self_dict : attrs) : attrs :=
  filter (fun item => negb (str_startswith (fst item) "_")) self_dict.

Definition of_optional {A : Type} (f : A -> py_value) (o : option A)
  : py_value :=
  match o with
  | Some a => f a
  | None => PNone
  end.

(** The attributes that [SmppMessage.__init__] and [Sm.__init__] assign. *)
Definition Sm_dict (self : Sm.t) : attrs :=
  [("command_status", PInt (Sm.command_status self));
   ("sequence_num", PInt (Sm.sequence_num self));
   ("short_message", PStr (Sm.short_message self));
   ("source", PPhoneNumber (Sm.source self));
   ("destination", PPhoneNumber (Sm.destination self));
   ("service_type", PStr (Sm.service_type self));
   ("esm_class", PInt (Sm.esm_class self));
   ("protocol_id", PInt (Sm.protocol_id self));
   ("priority_flag", PInt (Sm.priority_flag self));
   ("schedule_delivery_time",
    of_optional PTime (Sm.schedule_delivery_time self));
   ("validity_period", of_optional PTime (Sm.validity_period self));
   ("registered_delivery", PInt (Sm.registered_delivery self));
   ("replace_if_present_flag", PInt (Sm.replace_if_present_flag self));
   ("encoding", of_optional PStr (Sm.encoding self));
   ("sm_default_msg_id", PInt (Sm.sm_default_msg_id self));
   ("message_payload", PStr (Sm.message_payload self));
   ("optional_params", PParams (Sm.optional_params self));
   ("auto_message_payload", PBool (Sm.auto_message_payload self));
   ("error_handling", PStr (Sm.error_handling self));
   ("log_id", PStr (Sm.log_id self));
   ("extra_data", PStr (Sm.extra_data self));
   ("_default_encoding", PStr (Sm._default_encoding self));
   ("_custom_codecs", of_optional PCodecs (Sm._custom_codecs self))].

(** The attributes that [SmppMessage.__init__] and
    [BindTransceiver.__init__] assign. *)
Definition BindTransceiver_dict (self : BindTransceiver.t) : attrs :=
  [("command_status", PInt (BindTransceiver.command_status self));
   ("sequence_num", PInt (BindTransceiver.sequence_num self));
   ("system_id", PStr (BindTransceiver.system_id self));
   ("password", PStr (BindTransceiver.password self));
   ("system_type", PStr (BindTransceiver.system_type self));
   ("interface_version", PInt (BindTransceiver.interface_version self));
   ("addr_ton", PInt (BindTransceiver.addr_ton self));
   ("addr_npi", PInt (BindTransceiver.addr_npi self));
   ("address_range", PStr (BindTransceiver.address_range self))].

(** [BindTransceiver.as_dict], on the [__dict__] of [self]. *)
Definition BindTransceiver_as_dict (self_dict : attrs) : attrs :=
  let result_dict := SmppMessage_as_dict self_dict in
  attrs_set result_dict "password" (PStr "{REDACTED}").

Lemma attrs_get_set_same (d : attrs) (k : string) (v : py_value) :
  attrs_get (attrs_set d k v) k = Some v.
Proof.
  induction d as [| [k' v'] d IH]; cbn [attrs_set attrs_get].
  - now rewrite String.eqb_refl.
  - destruct (String.eqb k' k) eqn:E; cbn [attrs_get]; rewrite E;
      [reflexivity | exact IH].
Qed.

Lemma attrs_get_set_other (d : attrs) (k k0 : string) (v : py_value) :
  k0 <> k -> attrs_get (attrs_set d k v) k0 = attrs_get d k0.
Proof.
  intros Hk. induction d as [| [k' v'] d IH]; cbn [attrs_set attrs_get].
  - replace (String.eqb k k0) with false; [reflexivity |].
    symmetry. apply String.eqb_neq. congruence.
  - destruct (String.eqb k' k) eqn:E; cbn [attrs_get].
    + apply String.eqb_eq in E. subst k'.
      replace (String.eqb k k0) with false; [reflexivity |].
      symmetry. apply String.eqb_neq. congruence.
    + now rewrite IH.
Qed.

Lemma attrs_get_as_dict (d : attrs) (k : string) :
  attrs_get (SmppMessage_as_dict d) k
  = if str_startswith k "_" then None else attrs_get d k.
Proof.
  induction d as [| [k' v'] d IH]; cbn [SmppMessage_as_dict filter attrs_get fst].
  - now destruct (str_startswith k "_").
  - fold (SmppMessage_as_dict d).
    destruct (str_startswith k' "_") eqn:E'; cbn [negb attrs_get].
    + rewrite IH. destruct (String.eqb k' k) eqn:E; [| reflexivity].
      apply String.eqb_eq in E. subst k'. now rewrite E'.
    + rewrite IH. destruct (String.eqb k' k) eqn:E; [| reflexivity].
      apply String.eqb_eq in E. subst k'. now rewrite E'.
Qed.

Lemma attrs_set_keys (d : attrs) (k : string) (v1 v2 : py_value) :
  attrs_set (attrs_set d k v1) k v2 = attrs_set d k v2.
Proof.
  induction d as [| [k' v'] d IH]; cbn [attrs_set].
  - now rewrite String.eqb_refl.
  - destruct (String.eqb k' k) eqn:E; cbn [attrs_set]; rewrite E;
      [reflexivity | now rewrite IH].
Qed.

Lemma as_dict_set_public (d : attrs) (k : string) (v : py_value) :
  str_startswith k "_" = false ->
  attrs_set (SmppMessage_as_dict (attrs_set d k v)) k v
  = attrs_set (SmppMessage_as_dict d) k v.
Proof.
  intros Hk. induction d as [| [k' v'] d IH].
  - cbn [attrs_set SmppMessage_as_dict filter fst]. rewrite Hk.
    cbn [negb attrs_set]. now rewrite String.eqb_refl.
  - cbn [attrs_set].
    destruct (String.eqb k' k) eqn:E.
    + apply String.eqb_eq in E. subst k'.
      cbn [SmppMessage_as_dict filter fst]. rewrite Hk. cbn [negb attrs_set].
      now rewrite String.eqb_refl.
    + cbn [SmppMessage_as_dict filter fst].
      fold (SmppMessage_as_dict (attrs_set d k v)).
      fold (SmppMessage_as_dict d).
      destruct (str_startswith k' "_"); cbn [negb]; [exact IH |].
      cbn [attrs_set]. rewrite E. now rewrite IH.
Qed.

(** X16: [as_dict] shows the attributes whose name does not start with an
    underscore, in the order of [__dict__], and no other. For an [Sm] these
    are its 21 public attributes, without [_default_encoding] and
    [_custom_codecs]. For a [BindTransceiver] the value under [password] is
    [{REDACTED}] whatever attributes the object has, the other public
    attributes are shown as they are, and two objects that differ in the
    password only have the same [as_dict]. *)
Theorem as_dict_hides_private_and_password :
  (forall (d : attrs) (k : string),
     attrs_get (SmppMessage_as_dict d) k
     = if str_startswith k "_" then None else attrs_get d k)
  /\ (forall self : Sm.t,
        map fst (SmppMessage_as_dict (Sm_dict self))
        = ["command_status"; "sequence_num"; "short_message"; "source";
           "destination"; "service_type"; "esm_class"; "protocol_id";
           "priority_flag"; "schedule_delivery_time"; "validity_period";
           "registered_delivery"; "replace_if_present_flag"; "encoding";
           "sm_default_msg_id"; "message_payload"; "optional_params";
           "auto_message_payload"; "error_handling"; "log_id";
           "extra_data"]%string)
  /\ (forall (d : attrs) (k : string),
        attrs_get (BindTransceiver_as_dict d) k
        = if String.eqb k "password" then Some (PStr "{REDACTED}")
          else if str_startswith k "_" then None
          else attrs_get d k)
  /\ (forall (d : attrs) (v : py_value),
        BindTransceiver_as_dict (attrs_set d "password" v)
        = BindTransceiver_as_dict d)
  /\ (forall self : BindTransceiver.t,
        BindTransceiver_as_dict (BindTransceiver_dict self)
        = attrs_set (BindTransceiver_dict self) "password"
                    (PStr "{REDACTED}")).
Proof.
  split; [exact attrs_get_as_dict |].
  split; [reflexivity |].
  split.
  { intros d k. unfold BindTransceiver_as_dict.
    destruct (String.eqb k "password") eqn:E.
    - apply String.eqb_eq in E. subst k. apply attrs_get_set_same.
    - apply String.eqb_neq in E.
      rewrite attrs_get_set_other by exact E. apply attrs_get_as_dict. }
  split; [| reflexivity].
  intros d v. unfold BindTransceiver_as_dict.
  rewrite <- (attrs_set_keys (SmppMessage_as_dict (attrs_set d "password" v))
                "password" v (PStr "{REDACTED}")).
  rewrite as_dict_set_public by reflexivity.
  apply attrs_set_keys.
Qed.

(* ------------------------------------------------------------------ *)
(** ** The receipt is read from [short_message] only *)

(** X17: a delivery receipt that arrives in [message_payload] is not
    parsed. When [DeliverSm.from_pdu] returns a message whose message-type
    bits are 1 and whose [short_message] is empty, the receipt is the empty
    dictionary, or holds only the [id] taken from the first
    [receipted_message_id] optional parameter when there is one. *)
Theorem receipt_is_read_from_short_message_only
    (ext : Externals) (pdu : bytes) (header : PduHeader.t)
    (default_encoding : string) (custom_codecs : option codec_dict)
    (d : DeliverSm.t) :
  DeliverSm.from_pdu ext pdu header default_encoding custom_codecs = Ok d ->
  Sm.short_message (DeliverSm.base d) = "" ->
  Z.land (Z.shiftr (Sm.esm_class (DeliverSm.base d)) 2) 0x0F = 1 ->
  DeliverSm.receipt d
  = Some match find (fun param => tag param =? RECEIPTED_MESSAGE_ID)
                    (Sm.optional_params (DeliverSm.base d)) with
         | Some id_param =>
             [("id", DeliverSm.receipt_of_param (value id_param))]
         | None => []
         end.
Proof.
  unfold DeliverSm.from_pdu. intros H Hs Hc. bind_as H sm Hsm.
  rewrite message_class_bits in H.
  destruct (Z.land (Z.shiftr (Sm.esm_class (DeliverSm.base sm)) 2) 15 =? 1)
    eqn:Ec.
  - bind_as H rcpt Er. inversion H; subst d; clear H.
    cbn [DeliverSm.base DeliverSm.receipt] in *.
    rewrite Hs in Er. cbn in Er. inversion Er; subst rcpt; clear Er.
    cbn [dict_get DeliverSm.falsy].
    destruct (find _ _); reflexivity.
  - inversion H; subst sm. apply Z.eqb_neq in Ec. contradiction.
Qed.

(** A [DeliverSm] whose receipt text is in [message_payload], as [pdu]
    writes it for a message built from a receipt. *)
Definition receipt_in_payload : Sm.t :=
  Sm.mk ESME_ROK 7 "" (mk_PhoneNumber "1" 1 1) (mk_PhoneNumber "2" 1 1) ""
        4 0 0 None None 0 0 (Some "latin_1") 0 receipt_literal
        [mk_OptionalParam RECEIPTED_MESSAGE_ID (VStr "abc")]
        true "strict" "" "" "" None.

Definition receipt_in_payload_pdu : bytes :=
  match Sm.pdu Reference.externals DELIVER_SM receipt_in_payload with
  | Ok (data, _) => data
  | Err _ => []
  end.

Lemma receipt_is_read_from_short_message_only_witness :
  exists d,
    DeliverSm.from_pdu Reference.externals receipt_in_payload_pdu
      (PduHeader.mk (Z.of_nat (List.length receipt_in_payload_pdu))
                    DELIVER_SM ESME_ROK 7) "" None = Ok d
    /\ Sm.message_payload (DeliverSm.base d) = receipt_literal
    /\ DeliverSm.receipt d = Some [("id", RStr "abc")].
Proof.
  destruct (DeliverSm.from_pdu Reference.externals receipt_in_payload_pdu
              (PduHeader.mk (Z.of_nat (List.length receipt_in_payload_pdu))
                            DELIVER_SM ESME_ROK 7) "" None)
    as [d |] eqn:E; [| vm_compute in E; discriminate].
  assert (Hd : DeliverSm.base d
               = Sm.mk ESME_ROK 7 "" (mk_PhoneNumber "1" 1 1)
                   (mk_PhoneNumber "2" 1 1) "" 4 0 0 None None 0 0
                   (Some "latin_1") 0 receipt_literal
                   [mk_OptionalParam RECEIPTED_MESSAGE_ID (VStr "abc")]
                   true "strict" "" "" "" None).
  { pose proof E as E'. vm_compute in E'. inversion E'. reflexivity. }
  pose proof (receipt_is_read_from_short_message_only _ _ _ _ _ d E) as H.
  rewrite Hd in H. exists d. split; [reflexivity |].
  split; [now rewrite Hd |].
  apply H; reflexivity.
Defined.

(* ------------------------------------------------------------------ *)
(** ** Times that are too short *)

Lemma py_int_err (s : string) (e : error) : py_int s = Err e -> e = ValueError.
Proof.
  unfold py_int, of_option, option_map. intros H.
  repeat match type of H with
         | context [match ?x with _ => _ end] => destruct x
         end;
    congruence.
Qed.

Lemma substring_past_end (s : string) (n m : nat) :
  (String.length s <= n)%nat -> substring n m s = "".
Proof.
  revert n. induction s as [| c s IH]; intros n H.
  - destruct n, m; reflexivity.
  - destruct n as [| n]; [cbn in H; lia |].
    cbn [substring]. apply IH. cbn in H. lia.
Qed.

Lemma py_int_empty : py_int "" = Err ValueError.
Proof. reflexivity. Qed.

(** X18: a time of 1 to 10 characters, or of 11 or 12 characters that does
    not end in [R], makes [smpp_time_to_datetime] raise [ValueError]: a
    field that it slices out is empty, or an earlier one is no number. *)
Theorem time_too_short_is_refused (ext : Externals) (validity : string) :
  validity <> "" ->
  (String.length validity <= 10)%nat
  \/ ((String.length validity <= 12)%nat
      /\ str_endswith validity "R" = false) ->
  Sm.smpp_time_to_datetime ext validity = Err ValueError.
Proof.
  intros Hne Hlen. unfold Sm.smpp_time_to_datetime.
  replace (str_empty validity) with false
    by (symmetry; now apply str_empty_false).
  assert (Hstep : forall (s : string) (k : Z -> result (option time_object)),
            (forall v, k v = Err ValueError) ->
            bind (py_int s) k = Err ValueError).
  { intros s k Hk. destruct (py_int s) as [v |] eqn:E; cbn [bind].
    - apply Hk.
    - now rewrite (py_int_err _ _ E). }
  assert (Hlast : forall (s : string) (k : Z -> result (option time_object)),
            s = "" -> bind (py_int s) k = Err ValueError).
  { intros s k ->. reflexivity. }
  destruct Hlen as [H10 | [H12 HR]].
  - do 5 (apply Hstep; intros ?).
    apply Hlast. unfold str_slice. now apply substring_past_end.
  - do 6 (apply Hstep; intros ?). rewrite HR.
    apply Hlast. unfold str_slice. now apply substring_past_end.
Qed.

Lemma time_too_short_is_refused_witness :
  Sm.smpp_time_to_datetime Reference.externals "2401011200"
  = Err ValueError.
Proof.
  apply (time_too_short_is_refused Reference.externals "2401011200").
  - discriminate.
  - left. cbn. lia.
Defined.

(* ------------------------------------------------------------------ *)
(** ** The receipt text is read back *)

Lemma str_app_assoc (a b c : string) :
  ((a ++ b) ++ c)%string = (a ++ b ++ c)%string.
Proof. induction a as [| x a IH]; cbn; [reflexivity | now rewrite IH]. Qed.

Lemma str_length_app (a b : string) :
  String.length (a ++ b)%string = (String.length a + String.length b)%nat.
Proof. induction a as [| x a IH]; cbn; [reflexivity | now rewrite IH]. Qed.

(** A string without the character [c]. *)
Fixpoint no_char (c : ascii) (s : string) : bool :=
  match s with
  | EmptyString => true
  | String a s' => negb (Ascii.eqb a c) && no_char c s'
  end.

Lemma no_char_app (c : ascii) (a b : string) :
  no_char c (a ++ b)%string = no_char c a && no_char c b.
Proof.
  induction a as [| x a IH]; cbn; [reflexivity |].
  now rewrite IH, andb_assoc.
Qed.

Lemma str_find_from_skip (pre s : string) (c : ascii) (start : nat) :
  forall pos,
    (pos + String.length pre <= start)%nat ->
    str_find_from (pre ++ s)%string c start pos
    = str_find_from s c start (pos + String.length pre).
Proof.
  induction pre as [| a pre IH]; intros pos H; cbn [append String.length] in *.
  - now rewrite Nat.add_0_r.
  - cbn [str_find_from].
    replace (start <=? pos)%nat with false
      by (symmetry; apply Nat.leb_gt; lia).
    cbn [andb]. rewrite IH by lia. f_equal. lia.
Qed.

Lemma str_find_from_hit (key rest : string) (c : ascii) (start : nat) :
  no_char c key = true ->
  forall pos,
    (start <= pos)%nat ->
    str_find_from (key ++ String c rest)%string c start pos
    = Some (pos + String.length key)%nat.
Proof.
  intros Hk.
  induction key as [| a key IH]; intros pos H;
    cbn [append String.length str_find_from no_char] in *.
  - replace (start <=? pos)%nat with true
      by (symmetry; apply Nat.leb_le; lia).
    rewrite Ascii.eqb_refl. cbn [andb]. f_equal. lia.
  - apply andb_true_iff in Hk. destruct Hk as [Ha Hk].
    apply negb_true_iff in Ha. rewrite Ha, andb_false_r.
    rewrite (IH Hk) by lia. f_equal. lia.
Qed.

Lemma str_find_from_miss (s : string) (c : ascii) (start : nat) :
  no_char c s = true -> forall pos, str_find_from s c start pos = None.
Proof.
  induction s as [| a s IH]; intros H pos; [reflexivity |].
  cbn [str_find_from no_char] in *.
  apply andb_true_iff in H. destruct H as [Ha Hs].
  apply negb_true_iff in Ha. rewrite Ha, andb_false_r. now apply IH.
Qed.

(** The position of the first [c] at or after the end of [pre], when
    [key] has none. *)
Lemma str_find_at (pre key rest : string) (c : ascii) :
  no_char c key = true ->
  str_find (pre ++ key ++ String c rest)%string c (String.length pre)
  = Some (String.length pre + String.length key)%nat.
Proof.
  intros Hk. unfold str_find.
  rewrite str_find_from_skip by lia.
  now rewrite (str_find_from_hit key rest c _ Hk) by lia.
Qed.

Lemma substring_skip (pre s : string) (m : nat) :
  substring (String.length pre) m (pre ++ s)%string = substring 0 m s.
Proof.
  induction pre as [| a pre IH]; cbn [append String.length substring];
    [reflexivity | exact IH].
Qed.

Lemma substring_prefix (mid rest : string) :
  substring 0 (String.length mid) (mid ++ rest)%string = mid.
Proof.
  induction mid as [| a mid IH]; cbn [append String.length substring].
  - now destruct rest.
  - now rewrite IH.
Qed.

Lemma str_slice_mid (pre mid rest : string) :
  str_slice (pre ++ mid ++ rest)%string (String.length pre)
            (String.length pre + String.length mid)
  = mid.
Proof.
  unfold str_slice.
  replace (String.length pre + String.length mid - String.length pre)%nat
    with (String.length mid) by lia.
  rewrite substring_skip. apply substring_prefix.
Qed.

Lemma str_slice_tail (pre mid : string) :
  str_slice (pre ++ mid)%string (String.length pre)
            (String.length (pre ++ mid)%string)
  = mid.
Proof.
  unfold str_slice. rewrite str_length_app.
  replace (String.length pre + String.length mid - String.length pre)%nat
    with (String.length mid) by lia.
  rewrite substring_skip.
  induction mid as [| a mid IH]; cbn [String.length substring];
    [reflexivity | now rewrite IH].
Qed.

(** One field [key:value ] of the receipt, read at the end of [pre]. *)
Lemma get_receipt_param_field (pre key value rest : string) :
  no_char ":" key = true -> no_char " " value = true ->
  String.eqb (py_lower key) "text" = false ->
  DeliverSm.get_receipt_param
    (pre ++ key ++ ":" ++ value ++ " " ++ rest)%string (String.length pre)
  = Some (py_lower key, value,
          String.length (pre ++ key ++ ":" ++ value ++ " ")%string).
Proof.
  intros Hk Hv Ht. unfold DeliverSm.get_receipt_param.
  change (":" ++ value ++ " " ++ rest)%string
    with (String ":" (value ++ String " " rest))%string.
  rewrite (str_find_at pre key _ ":" Hk).
  rewrite (str_slice_mid pre key).
  set (pre' := (pre ++ key ++ ":")%string).
  assert (Es : (pre ++ key ++ String ":" (value ++ String " " rest))%string
               = (pre' ++ value ++ String " " rest)%string).
  { unfold pre'. rewrite !str_app_assoc. reflexivity. }
  assert (El : (String.length pre + String.length key + 1)%nat
               = String.length pre').
  { unfold pre'. rewrite !str_length_app. cbn. lia. }
  rewrite Es, El.
  rewrite (str_find_at pre' value rest " " Hv). rewrite Ht.
  rewrite (str_slice_mid pre' value).
  f_equal. f_equal. unfold pre'. rewrite !str_length_app. cbn. lia.
Qed.

(** The last field, [Text:value], which takes what is left. *)
Lemma get_receipt_param_text (pre key value : string) :
  no_char ":" key = true -> py_lower key = "text" ->
  DeliverSm.get_receipt_param (pre ++ key ++ ":" ++ value)%string
                              (String.length pre)
  = Some ("text", value,
          S (String.length (pre ++ key ++ ":" ++ value)%string)).
Proof.
  intros Hk Ht. unfold DeliverSm.get_receipt_param.
  change (":" ++ value)%string with (String ":" value).
  rewrite (str_find_at pre key _ ":" Hk).
  rewrite (str_slice_mid pre key (String ":" value)). rewrite Ht.
  set (pre' := (pre ++ key ++ ":")%string).
  assert (Es : (pre ++ key ++ String ":" value)%string
               = (pre' ++ value)%string).
  { unfold pre'. rewrite !str_app_assoc. reflexivity. }
  assert (El : (String.length pre + String.length key + 1)%nat
               = String.length pre').
  { unfold pre'. rewrite !str_length_app. cbn. lia. }
  rewrite Es, El. cbn [String.eqb Ascii.eqb Bool.eqb].
  assert (Ev : str_slice (pre' ++ value)%string (String.length pre')
                         (String.length (pre' ++ value)%string) = value)
    by apply str_slice_tail.
  destruct (str_find (pre' ++ value)%string " " (String.length pre'));
    rewrite Ev; f_equal; f_equal; lia.
Qed.

(** The value that the loop of [from_pdu] stores for a parameter. *)
Definition receipt_convert (rcpt_param rcpt_value : string)
  : result receipt_value :=
  if String.eqb rcpt_param "sub" || String.eqb rcpt_param "dlvrd"
  then n <- py_int rcpt_value ;; Ok (RInt n)
  else if String.eqb rcpt_param "submit date"
          || String.eqb rcpt_param "done date"
  then x <- strptime_ymdHM rcpt_value ;; Ok (RDate x)
  else Ok (RStr rcpt_value).

(** The loop of [from_pdu] on a text, from [index] on. *)
Definition run_receipt (s : string) (index : nat) (rcpt_data : receipt_dict)
  : result receipt_dict :=
  DeliverSm.read_receipt (S (String.length s)) s index rcpt_data.

Lemma run_receipt_step (s : string) (index : nat) (rcpt_data : receipt_dict)
                       (p v : string) (index' : nat) :
  DeliverSm.get_receipt_param s index = Some (p, v, index') ->
  run_receipt s index rcpt_data
  = (x <- receipt_convert p v ;;
     run_receipt s index' (dict_set rcpt_data p x)).
Proof.
  intros H. unfold run_receipt at 1. cbn [DeliverSm.read_receipt].
  rewrite H. fold (receipt_convert p v).
  destruct (receipt_convert p v) as [x |]; cbn [bind]; [| reflexivity].
  apply get_receipt_param_moves in H.
  apply read_receipt_fuel; lia.
Qed.

Lemma run_receipt_end (s : string) (index : nat) (rcpt_data : receipt_dict) :
  (String.length s <= index)%nat -> run_receipt s index rcpt_data = Ok rcpt_data.
Proof.
  intros H. unfold run_receipt. cbn [DeliverSm.read_receipt].
  now rewrite get_receipt_param_past_end.
Qed.

(** A receipt text: fields [key:value] each followed by a space, then
    [Text:] and what is left. *)
Fixpoint render (fields : list (string * string)) (text : string) : string :=
  match fields with
  | [] => ("Text" ++ ":" ++ text)%string
  | (k, v) :: fields' => (k ++ ":" ++ v ++ " " ++ render fields' text)%string
  end.

(** What the loop stores for such a text. *)
Fixpoint store (fields : list (string * string)) (text : string)
               (rcpt_data : receipt_dict) : result receipt_dict :=
  match fields with
  | [] => Ok (dict_set rcpt_data "text" (RStr text))
  | (k, v) :: fields' =>
      x <- receipt_convert (py_lower k) v ;;
      store fields' text (dict_set rcpt_data (py_lower k) x)
  end.

Definition field_ok (f : string * string) : bool :=
  no_char ":" (fst f) && no_char " " (snd f)
  && negb (String.eqb (py_lower (fst f)) "text").

Lemma run_receipt_render (fields : list (string * string)) (text : string) :
  forallb field_ok fields = true ->
  forall (pre : string) (rcpt_data : receipt_dict),
    run_receipt (pre ++ render fields text)%string (String.length pre)
                rcpt_data
    = store fields text rcpt_data.
Proof.
  induction fields as [| [k v] fields IH]; intros Hok pre rc;
    cbn [render store].
  - rewrite (run_receipt_step _ _ _ _ _ _
               (get_receipt_param_text pre "Text" text eq_refl eq_refl)).
    cbn [receipt_convert String.eqb Ascii.eqb Bool.eqb orb bind].
    apply run_receipt_end. lia.
  - cbn [forallb] in Hok. apply andb_true_iff in Hok.
    destruct Hok as [Hf Hok]. unfold field_ok in Hf. cbn [fst snd] in Hf.
    apply andb_true_iff in Hf. destruct Hf as [Hf Ht].
    apply andb_true_iff in Hf. destruct Hf as [Hk Hv].
    apply negb_true_iff in Ht.
    rewrite (run_receipt_step _ _ _ _ _ _
               (get_receipt_param_field pre k v (render fields text)
                  Hk Hv Ht)).
    destruct (receipt_convert (py_lower k) v) as [x |]; cbn [bind];
      [| reflexivity].
    replace (pre ++ k ++ ":" ++ v ++ " " ++ render fields text)%string
      with ((pre ++ k ++ ":" ++ v ++ " ") ++ render fields text)%string
      by (rewrite !str_app_assoc; reflexivity).
    apply IH. exact Hok.
Qed.

Lemma below_cases (k : nat) (P : Z -> bool) :
  forallb P (map Z.of_nat (seq 0 k)) = true ->
  forall n, 0 <= n < Z.of_nat k -> P n = true.
Proof.
  intros H n Hn. rewrite forallb_forall in H. apply H.
  apply in_map_iff. exists (Z.to_nat n). split; [lia |].
  apply in_seq. lia.
Qed.

(** A count below 1000, as ['{:03d}'] writes it, is read back by [int] and
    holds no space. *)
Lemma count_read_back (n : Z) :
  0 <= n < 1000 ->
  py_int (py_format_0d 3 n) = Ok n /\ no_char " " (py_format_0d 3 n) = true.
Proof.
  intros Hn.
  assert (H : (fun n => match py_int (py_format_0d 3 n) with
                        | Ok m => (m =? n) && no_char " " (py_format_0d 3 n)
                        | Err _ => false
                        end) n = true).
  { revert n Hn. apply (below_cases 1000). vm_compute. reflexivity. }
  cbv beta in H. destruct (py_int (py_format_0d 3 n)); [| discriminate].
  apply andb_true_iff in H. destruct H as [H1 H2].
  apply Z.eqb_eq in H1. now subst.
Qed.

(** Whether a group of the regular expression matches the two characters
    [a] and [b] by an alternative of two characters, every alternative
    before it failing on them. *)
Fixpoint two_char_match (g : list alternative) (a b : ascii) : bool :=
  match g with
  | [] => false
  | [p1; p2] :: g' => if p1 a && p2 b then true else two_char_match g' a b
  | [p1] :: g' => if p1 a then false else two_char_match g' a b
  | _ :: _ => false
  end.

Lemma match_groups_two_chars (g : list alternative)
                             (groups : list (list alternative))
                             (a b : ascii) (rest : string)
                             (ms : list string) (r : string) :
  two_char_match g a b = true ->
  match_groups groups rest = Some (ms, r) ->
  match_groups (g :: groups) (String a (String b rest))
  = Some (String a (String b "") :: ms, r).
Proof.
  intros Hg Hr. cbn [match_groups].
  induction g as [| alt g IH]; [discriminate |].
  destruct alt as [| p1 [| p2 [| p3 alt]]]; try discriminate.
  - cbn [two_char_match] in Hg. cbn [match_alternative].
    destruct (p1 a); [discriminate |]. now apply IH.
  - cbn [two_char_match] in Hg. cbn [match_alternative].
    destruct (p1 a); cbn [andb] in Hg.
    + destruct (p2 b); [now rewrite Hr |]. now apply IH.
    + now apply IH.
Qed.

Definition in_range (lo hi : Z) (g : list alternative) (v : Z) : bool :=
  negb ((lo <=? v) && (v <=? hi))
  || two_char_match g (digit_char (v / 10)) (digit_char (v mod 10)).

Lemma two_digits_match (lo hi : Z) (g : list alternative) :
  forallb (in_range lo hi g) (map Z.of_nat (seq 0 100)) = true ->
  forall v, 0 <= v < 100 -> lo <= v <= hi ->
            two_char_match g (digit_char (v / 10)) (digit_char (v mod 10))
            = true.
Proof.
  intros H v Hv Hr.
  pose proof (below_100_cases (in_range lo hi g) H v Hv) as E.
  unfold in_range in E.
  replace ((lo <=? v) && (v <=? hi)) with true in E
    by (symmetry; apply andb_true_iff; split; apply Z.leb_le; lia).
  exact E.
Qed.

(** A datetime with its seconds, microseconds and timezone dropped. *)
Definition to_the_minute (x : datetime) : datetime :=
  mk_datetime (year x) (month x) (day x) (hour x) (minute x) 0 0 None.

(** A date of the years 1969 to 2068, as [strftime('%y%m%d%H%M')] writes
    it, is read back to the minute by [strptime], and holds no space. *)
Lemma date_read_back (x : datetime) :
  datetime_ok x -> 1969 <= year x <= 2068 ->
  strptime_ymdHM (strftime_ymdHM x) = Ok (to_the_minute x)
  /\ no_char " " (strftime_ymdHM x) = true.
Proof.
  intros Hok Hy.
  destruct (datetime_ok_bounds x Hok)
    as (_ & Hmo & Hd & Hh & Hmi & _ & _).
  pose proof (days_in_month_bound (year x) (month x)) as Hdim.
  pose proof (Z.mod_pos_bound (year x) 100 ltac:(lia)) as Hyy.
  assert (Es : strftime_ymdHM x
               = (two_digits (year x mod 100) ++ two_digits (month x)
                  ++ two_digits (day x) ++ two_digits (hour x)
                  ++ two_digits (minute x))%string).
  { unfold strftime_ymdHM. now rewrite !py_format_0d_2 by lia. }
  rewrite Es. split.
  - unfold strptime_ymdHM.
    assert (Em : match_groups [re_y; re_m; re_d; re_H; re_M]
                   (two_digits (year x mod 100) ++ two_digits (month x)
                    ++ two_digits (day x) ++ two_digits (hour x)
                    ++ two_digits (minute x))%string
                 = Some ([two_digits (year x mod 100); two_digits (month x);
                          two_digits (day x); two_digits (hour x);
                          two_digits (minute x)], "")).
    { unfold two_digits. cbn [append].
      apply match_groups_two_chars;
        [apply (two_digits_match 0 99 re_y); [vm_compute; reflexivity | lia | lia] |].
      apply match_groups_two_chars;
        [apply (two_digits_match 1 12 re_m); [vm_compute; reflexivity | lia | lia] |].
      apply match_groups_two_chars;
        [apply (two_digits_match 1 31 re_d); [vm_compute; reflexivity | lia | lia] |].
      apply match_groups_two_chars;
        [apply (two_digits_match 0 23 re_H); [vm_compute; reflexivity | lia | lia] |].
      apply match_groups_two_chars;
        [apply (two_digits_match 0 59 re_M); [vm_compute; reflexivity | lia | lia] |].
      reflexivity. }
    rewrite Em.
    rewrite !py_int_two_digits by lia. cbn [bind].
    assert (Eyear : (if year x mod 100 <=? 68 then year x mod 100 + 2000
                     else year x mod 100 + 1900) = year x).
    { pose proof (Z.div_mod (year x) 100 ltac:(lia)) as Hdm.
      destruct (year x mod 100 <=? 68) eqn:E.
      - apply Z.leb_le in E.
        assert (year x / 100 = 20 \/ year x / 100 = 19) as [Q | Q] by lia; lia.
      - apply Z.leb_gt in E.
        assert (year x / 100 = 20 \/ year x / 100 = 19) as [Q | Q] by lia; lia. }
    rewrite Eyear. unfold py_datetime.
    replace (datetime_fields_ok (year x) (month x) (day x) (hour x)
                                (minute x) 0 0) with true; [reflexivity |].
    symmetry. unfold datetime_fields_ok.
    repeat (apply andb_true_iff; split); apply Z.leb_le; lia.
  - rewrite !no_char_app.
    assert (Hsp : forall v, 0 <= v < 100 -> no_char " " (two_digits v) = true).
    { apply (below_100_cases (fun v => no_char " " (two_digits v))).
      vm_compute. reflexivity. }
    rewrite !Hsp by lia. reflexivity.
Qed.

(** X19: the receipt text that the constructor of [DeliverSm] writes is
    what the loop of [from_pdu] reads. For a receipt with an [id], a [stat]
    and an [err] that hold no space, counts [sub] and [dlvrd] from 0 to
    999, and two dates of the years 1969 to 2068, the text is written, and
    reading it gives the eight values back under their keys, in the order
    of the text: the strings and the counts as they were, the dates to the
    minute and without timezone, and the [text] padded with spaces to 20
    characters. *)
Theorem receipt_text_is_read_back
    (receipt : receipt_dict) (msg_id stat err text : string) (sub dlvrd : Z)
    (submit_date done_date : datetime) :
  dict_get receipt "id" = Some (RStr msg_id) ->
  dict_get receipt "sub" = Some (RInt sub) ->
  dict_get receipt "dlvrd" = Some (RInt dlvrd) ->
  dict_get receipt "submit date" = Some (RDate submit_date) ->
  dict_get receipt "done date" = Some (RDate done_date) ->
  dict_get receipt "stat" = Some (RStr stat) ->
  dict_get receipt "err" = Some (RStr err) ->
  dict_get receipt "text" = Some (RStr text) ->
  no_char " " msg_id = true -> no_char " " stat = true ->
  no_char " " err = true ->
  0 <= sub < 1000 -> 0 <= dlvrd < 1000 ->
  datetime_ok submit_date -> 1969 <= year submit_date <= 2068 ->
  datetime_ok done_date -> 1969 <= year done_date <= 2068 ->
  exists short_message,
    DeliverSm.receipt_text receipt = Ok short_message
    /\ DeliverSm.read_receipt (S (String.length short_message))
                              short_message 0 []
       = Ok [("id", RStr msg_id); ("sub", RInt sub); ("dlvrd", RInt dlvrd);
             ("submit date", RDate (to_the_minute submit_date));
             ("done date", RDate (to_the_minute done_date));
             ("stat", RStr stat); ("err", RStr err);
             ("text", RStr (py_ljust text 20))].
Proof.
  intros Gid Gsub Gdlvrd Gsd Gdd Gstat Gerr Gtext Hid Hstat Herr Hsub Hdlvrd
         Hsd Hsdy Hdd Hddy.
  destruct (count_read_back sub Hsub) as [Isub Ssub].
  destruct (count_read_back dlvrd Hdlvrd) as [Idlvrd Sdlvrd].
  destruct (date_read_back submit_date Hsd Hsdy) as [Psd Ssd].
  destruct (date_read_back done_date Hdd Hddy) as [Pdd Sdd].
  set (fields :=
         [("id", msg_id); ("sub", py_format_0d 3 sub);
          ("dlvrd", py_format_0d 3 dlvrd);
          ("submit date", strftime_ymdHM submit_date);
          ("done date", strftime_ymdHM done_date);
          ("stat", stat); ("err", err)]%string).
  exists (render fields (py_ljust text 20)).
  split.
  - unfold DeliverSm.receipt_text, DeliverSm.get_str, DeliverSm.get_int,
      DeliverSm.get_date_str.
    rewrite Gid, Gsub, Gdlvrd, Gsd, Gdd, Gstat, Gerr, Gtext.
    cbn [bind]. reflexivity.
  - change (DeliverSm.read_receipt
              (S (String.length (render fields (py_ljust text 20))))
              (render fields (py_ljust text 20)) 0 [])
      with (run_receipt ("" ++ render fields (py_ljust text 20))%string
                        (String.length "") []).
    rewrite run_receipt_render.
    + unfold fields. cbn [store py_lower lower_char].
      unfold receipt_convert.
      cbn [py_lower String.eqb Ascii.eqb Bool.eqb orb].
      change (py_lower "id") with "id".
      change (py_lower "sub") with "sub".
      change (py_lower "dlvrd") with "dlvrd".
      change (py_lower "submit date") with "submit date".
      change (py_lower "done date") with "done date".
      change (py_lower "stat") with "stat".
      change (py_lower "err") with "err".
      cbn [String.eqb Ascii.eqb Bool.eqb orb bind].
      rewrite Isub. cbn [bind]. rewrite Idlvrd. cbn [bind].
      rewrite Psd. cbn [bind]. rewrite Pdd. cbn [bind].
      reflexivity.
    + unfold fields, field_ok. cbn [forallb fst snd].
      rewrite Hid, Ssub, Sdlvrd, Ssd, Sdd, Hstat, Herr. reflexivity.
Qed.

Definition sample_receipt : receipt_dict :=
  [("id", RStr "abc"); ("sub", RInt 1); ("dlvrd", RInt 1);
   ("submit date", RDate noon_utc); ("done date", RDate noon_utc_half);
   ("stat", RStr "DELIVRD"); ("err", RStr "000"); ("text", RStr "hello")].

Lemma receipt_text_is_read_back_witness :
  exists short_message,
    DeliverSm.receipt_text sample_receipt = Ok short_message
    /\ DeliverSm.read_receipt (S (String.length short_message))
                              short_message 0 []
       = Ok [("id", RStr "abc"); ("sub", RInt 1); ("dlvrd", RInt 1);
             ("submit date", RDate (to_the_minute noon_utc));
             ("done date", RDate (to_the_minute noon_utc_half));
             ("stat", RStr "DELIVRD"); ("err", RStr "000");
             ("text", RStr "hello               ")].
Proof.
  apply (receipt_text_is_read_back sample_receipt "abc" "DELIVRD" "000"
           "hello" 1 1 noon_utc noon_utc_half);
    try reflexivity; cbn; lia.
Defined.

(* ------------------------------------------------------------------ *)
(** ** Optional parameters that are refused *)

Lemma unknown_tag_stops_the_loop
    (ext : Externals) (codec_info : CodecInfo) (pdu : bytes)
    (pdu_length : Z) (fuel : nat) :
  forall (index : nat) (mp : string) (ops : list OptionalParam),
    (exists tag_value,
       In tag_value (tlv_tags fuel ext pdu pdu_length index)
       /\ OptionalTag_data_type ext tag_value = None) ->
    exists e,
      Sm.read_optional_params fuel ext codec_info pdu pdu_length index mp ops
      = Err e.
Proof.
  induction fuel as [| fuel IH]; intros index mp ops (t & Hin & Hty);
    cbn [Sm.read_optional_params tlv_tags] in *.
  - destruct (negb (Z.of_nat index <? pdu_length)); contradiction.
  - destruct (negb (Z.of_nat index <? pdu_length)); [contradiction |].
    destruct (Sm.get_integer pdu 2 index) as [[tag_value i1] |];
      cbn [bind]; [| eexists; reflexivity].
    destruct (OptionalTag_data_type ext tag_value) as [ty |] eqn:Ety;
      cbn [of_option bind]; [| eexists; reflexivity].
    destruct (Sm.get_integer pdu 2 i1) as [[len i2] |];
      cbn [bind]; [| eexists; reflexivity].
    destruct Hin as [E | Hin]; [subst t; congruence |].
    destruct (tag_value =? MESSAGE_PAYLOAD).
    { destruct (decode codec_info _); cbn [bind]; [| eexists; reflexivity].
      apply IH. now exists t. }
    destruct ty.
    + destruct (Sm.get_integer pdu len i2) as [[v i3] |] eqn:Ev;
        cbn [bind]; [| eexists; reflexivity].
      apply get_integer_index in Ev. subst i3. apply IH. now exists t.
    + apply IH. now exists t.
    + destruct (Sm.get_octet_string pdu len i2) as [[v i3] |] eqn:Ev;
        cbn [bind]; [| eexists; reflexivity].
      apply get_octet_string_index in Ev. subst i3. apply IH. now exists t.
Qed.

(** X20: an optional parameter that [OptionalTag] does not know is not
    skipped: when the mandatory part of the body has been read and one of
    the tags that follow, as the loop frames them, is not a member of
    [OptionalTag], [Sm.from_pdu] raises, for [SubmitSm] and for
    [DeliverSm]; when the unknown tag is the first one, with its two bytes
    in the PDU, the error is the [ValueError] of the enumeration. *)
Theorem unknown_optional_parameter_is_refused
    (ext : Externals) (pdu : bytes) (header : PduHeader.t)
    (default_encoding : string) (custom_codecs : option codec_dict)
    (f : Sm.frame) (tag_value : Z) :
  Sm.read_mandatory ext pdu default_encoding custom_codecs = Ok f ->
  In tag_value (tlv_tags (List.length pdu) ext pdu
                         (PduHeader.pdu_length header) (Sm.f_index f)) ->
  OptionalTag_data_type ext tag_value = None ->
  (exists e,
     SubmitSm.from_pdu ext pdu header default_encoding custom_codecs = Err e)
  /\ (exists e,
        DeliverSm.from_pdu ext pdu header default_encoding custom_codecs
        = Err e)
  /\ (Z.of_nat (Sm.f_index f) < PduHeader.pdu_length header ->
      unpack_H pdu (Sm.f_index f) = Ok tag_value ->
      DeliverSm.from_pdu ext pdu header default_encoding custom_codecs
      = Err UnknownEnumValue).
Proof.
  intros Hf Hin Hty.
  assert (Hloop : forall (T : Type) (cls : Sm.constructor T),
            exists e,
              Sm.from_pdu cls ext pdu header default_encoding custom_codecs
              = Err e).
  { intros T cls. unfold Sm.from_pdu. rewrite Hf. cbn [bind].
    destruct (unknown_tag_stops_the_loop ext (Sm.f_codec_info f) pdu
                (PduHeader.pdu_length header) (List.length pdu)
                (Sm.f_index f) "" [])
      as (e & ->); [now exists tag_value |].
    now exists e. }
  split; [apply Hloop |].
  split.
  - unfold DeliverSm.from_pdu.
    destruct (Hloop _ DeliverSm.cls) as (e & ->). now exists e.
  - intros Hlt Htag. unfold DeliverSm.from_pdu, Sm.from_pdu.
    rewrite Hf. cbn [bind].
    assert (Hlen : (Sm.f_index f < List.length pdu)%nat).
    { unfold unpack_H in Htag.
      destruct (nth_error pdu (Sm.f_index f)) eqn:E; [| discriminate].
      apply nth_error_Some. congruence. }
    destruct (List.length pdu) as [| n] eqn:El; [lia |].
    cbn [Sm.read_optional_params].
    replace (Z.of_nat (Sm.f_index f) <? PduHeader.pdu_length header)
      with true by (symmetry; apply Z.ltb_lt; lia).
    cbn [negb]. unfold Sm.get_integer at 1. cbn [Z.eqb Pos.eqb].
    rewrite Htag. cbn [bind]. rewrite Hty. reflexivity.
Qed.

(** A [deliver_sm] followed by an optional parameter of tag 0x1501, which
    the reference enumeration does not hold. *)
Definition deliver_unknown_tlv : bytes :=
  match Sm.pdu Reference.externals DELIVER_SM
               (DeliverSm.base deliver_sample) with
  | Ok (data, _) => (data ++ [x15; x01; x00; x01; x07])
  | Err _ => []
  end.

Lemma unknown_optional_parameter_is_refused_witness :
  exists e,
    DeliverSm.from_pdu Reference.externals deliver_unknown_tlv
      (PduHeader.mk (Z.of_nat (List.length deliver_unknown_tlv)) DELIVER_SM
                    ESME_ROK 9) "" None
    = Err e.
Proof.
  destruct (Sm.read_mandatory Reference.externals deliver_unknown_tlv "" None)
    as [f |] eqn:Ef; [| vm_compute in Ef; discriminate].
  destruct (unknown_optional_parameter_is_refused Reference.externals
              deliver_unknown_tlv
              (PduHeader.mk (Z.of_nat (List.length deliver_unknown_tlv))
                            DELIVER_SM ESME_ROK 9) "" None f 0x1501 Ef)
    as (_ & He & _).
  - vm_compute in Ef. inversion Ef. vm_compute. tauto.
  - reflexivity.
  - exact He.
Defined.
